(** * Crawl-and-extract pipeline of ccxzhang/web_scraping

    A shallow embedding of the two programs of the repository:

    - [scrapy/schools/schools/spiders/scrapy_vanilla.py] (module [Spider]):
      [get_domain], [get_text], [parse_file], [parse_items], [init_from_csv];
    - [scripts/WebScraper.py] (modules [WebScraper], [Run] and [Script]):
      [readCSV], [prepDriver], [School] with [gatherLinks] and
      [clickLinks], [Link] with [click], [gatherName] and [writeFile], and
      the script.

    Python [str] values are lists of Unicode code points, exceptions are
    values of [exn] carried by [result], and the file system that
    [parse_file] writes to is an explicit state.  Third-party collaborators
    (the HTML parser, the HTTP client, the text-extraction backend, the
    browser driver) are arguments of the functions that call them. *)

From Stdlib Require Import NArith ZArith List String Ascii Bool Lia.
From Stdlib Require Import DecimalString.
From stdpp Require Import gmap list.

Local Open Scope N_scope.

(** ** Python built-ins *)

Module Py.

(** A [str] is a sequence of code points. *)
Definition str := list N.

(** A string literal of the source. *)
Definition lit (s : string) : str := map N_of_ascii (list_ascii_of_string s).

Definition str_eqb (a b : str) : bool := bool_decide (a = b).

Inductive exn :=
| IndexError
| ValueError
| KeyError
| UnicodeDecodeError
| UnicodeEncodeError
| OSError
| AttributeError
| DisplayError
| FileNotFoundError
| FileExistsError
| IsADirectoryError
| RequestException
| TextractError
| WebDriverException
| LinkException (switch : Z).

Inductive result (A : Type) :=
| Ok (a : A)
| Raise (e : exn).
Arguments Ok {A} a.
Arguments Raise {A} e.

Definition bind {A B} (r : result A) (k : A -> result B) : result B :=
  match r with
  | Ok a => k a
  | Raise e => Raise e
  end.

Definition is_ok {A} (r : result A) : bool :=
  match r with Ok _ => true | Raise _ => false end.

(** [s.startswith(p)] *)
Fixpoint startswith (p s : str) : bool :=
  match p, s with
  | [], _ => true
  | _ :: _, [] => false
  | a :: p', b :: s' => (a =? b) && startswith p' s'
  end.

(** [s.endswith(p)] *)
Definition endswith (p s : str) : bool := startswith (rev p) (rev s).

(** [p in s] *)
Fixpoint contains (p s : str) : bool :=
  startswith p s || match s with [] => false | _ :: s' => contains p s' end.

(** [s.find(c)] for a one-character [c]: the index of its first occurrence. *)
Fixpoint find (c : N) (s : str) : option nat :=
  match s with
  | [] => None
  | a :: s' => if a =? c then Some O else option_map S (find c s')
  end.

(** [s.split(sep)] for a one-character separator, which is what every call
    site of the two programs passes. *)
Fixpoint split (sep : N) (s : str) : list str :=
  match s with
  | [] => [[]]
  | a :: s' =>
      if a =? sep then [] :: split sep s'
      else match split sep s' with
           | [] => [[a]]
           | w :: ws => (a :: w) :: ws
           end
  end.

(** [sep.join(ws)] *)
Fixpoint join (sep : str) (ws : list str) : str :=
  match ws with
  | [] => []
  | [w] => w
  | w :: ws' => w ++ sep ++ join sep ws'
  end.

(** [s.partition(c)[0]]: the part before the first [c], all of [s] without. *)
Fixpoint before (c : N) (s : str) : str :=
  match s with
  | [] => []
  | a :: s' => if a =? c then [] else a :: before c s'
  end.

(** [l[i]] on a list, for [i >= 0]. *)
Definition index {A} (l : list A) (i : nat) : result A :=
  match nth_error l i with
  | Some a => Ok a
  | None => Raise IndexError
  end.

(** [s.replace(old, new)] scans left to right and replaces non-overlapping
    occurrences; [skip] counts the characters of a matched occurrence still
    to be passed over. *)
Fixpoint replace_from (old new : str) (skip : nat) (s : str) : str :=
  match s with
  | [] => []
  | c :: s' =>
      match skip with
      | S k => replace_from old new k s'
      | O =>
          if startswith old s
          then new ++ replace_from old new (length old - 1) s'
          else c :: replace_from old new O s'
      end
  end.

(** With an empty [old], Python inserts [new] before every character and at
    the end. *)
Definition replace (old new s : str) : str :=
  match old with
  | [] => new ++ flat_map (fun c => c :: new) s
  | _ :: _ => replace_from old new O s
  end.

(** [str.isspace] of one code point (CPython's [_PyUnicode_IsWhitespace]). *)
Definition isspace (c : N) : bool :=
  ((9 <=? c) && (c <=? 13)) || ((28 <=? c) && (c <=? 32))
  || (c =? 133) || (c =? 160) || (c =? 5760)
  || ((8192 <=? c) && (c <=? 8202))
  || (c =? 8232) || (c =? 8233) || (c =? 8239) || (c =? 8287) || (c =? 12288).

Fixpoint lstrip (s : str) : str :=
  match s with
  | [] => []
  | c :: s' => if isspace c then lstrip s' else s
  end.

(** [s.rstrip()], read from the left: what follows a character is stripped
    first, and the character itself goes when nothing is left after it. *)
Fixpoint rstrip (s : str) : str :=
  match s with
  | [] => []
  | c :: s' =>
      match rstrip s' with
      | [] => if isspace c then [] else [c]
      | r => c :: r
      end
  end.

(** [s.strip()] *)
Definition strip (s : str) : str := rstrip (lstrip s).

(** [s.rstrip(".")] *)
Fixpoint rstrip_dot (s : str) : str :=
  match s with
  | [] => []
  | c :: s' =>
      match rstrip_dot s' with
      | [] => if c =? 46 then [] else [c]
      | r => c :: r
      end
  end.

(** [s.split(sep)[-1]] and [os.path.basename]: what follows the last [sep]. *)
Definition after_last (sep : N) (s : str) : str := List.last (split sep s) [].

(** [s.lower()] and [s.upper()] on the ASCII letters (URLs are ASCII). *)
Definition lower_char (c : N) : N :=
  if (65 <=? c) && (c <=? 90) then c + 32 else c.
Definition upper_char (c : N) : N :=
  if (97 <=? c) && (c <=? 122) then c - 32 else c.
Definition lower (s : str) : str := map lower_char s.
Definition upper (s : str) : str := map upper_char s.

Definition isdigit (c : N) : bool := (48 <=? c) && (c <=? 57).
Definition isalpha (c : N) : bool :=
  ((65 <=? c) && (c <=? 90)) || ((97 <=? c) && (c <=? 122)).

End Py.
Import Py.

Notation "'let*' x ':=' c1 'in' c2" := (bind c1 (fun x => c2))
  (at level 10, x name, c1 at level 100, c2 at level 200).

Local Open Scope string_scope.
Local Open Scope list_scope.
Local Open Scope N_scope.

(** ** scrapy/schools/schools/spiders/scrapy_vanilla.py *)

Module Spider.

(** *** Module constants *)

Definition TEXTRACT_EXTENSIONS : list str :=
  [lit ".pdf"; lit ".doc"; lit ".docx"; lit ""].

Definition inline_tags : list str :=
  map lit ["b"; "big"; "i"; "small"; "tt"; "abbr"; "acronym"; "cite"; "dfn";
           "em"; "kbd"; "strong"; "samp"; "var"; "bdo"; "map"; "object"; "q";
           "span"; "sub"; "sup"].

(** [control_chars]: the code points of [range(0, 9)], [range(11, 32)] and
    [range(127, 160)]. *)
Definition control_char (c : N) : bool :=
  (c <? 9) || ((11 <=? c) && (c <? 32)) || ((127 <=? c) && (c <? 160)).

(** [CONTROL_CHAR_RE.sub('', s)] *)
Definition strip_control_chars (s : str) : str :=
  List.filter (fun c => negb (control_char c)) s.

(** *** get_text *)

(** [regex.sub("[cls]+", rep, s)]: every maximal run of characters of the
    class is replaced by [rep], written out where the run ends. *)
Fixpoint sub_runs (cls : N -> bool) (rep : str) (s : str) : str :=
  match s with
  | [] => []
  | c :: s' =>
      if cls c then
        match s' with
        | [] => rep
        | c' :: _ => if cls c' then sub_runs cls rep s' else rep ++ sub_runs cls rep s'
        end
      else c :: sub_runs cls rep s'
  end.

(** [\h]: horizontal white space. *)
Definition hspace (c : N) : bool :=
  (c =? 9) || (c =? 32) || (c =? 160) || (c =? 5760) || (c =? 6158)
  || ((8192 <=? c) && (c <=? 8202)) || (c =? 8239) || (c =? 8287) || (c =? 12288).

(** The class [[ \t\h\|]]. *)
Definition blank (c : N) : bool :=
  (c =? 32) || (c =? 9) || hspace c || (c =? 124).

(** The class [[\n\r\f\v]]. *)
Definition linebreak (c : N) : bool :=
  (c =? 10) || (c =? 13) || (c =? 12) || (c =? 11).

(** The recursive pattern [{(?:[^{}]*|(?R))*}] matches, from an opening
    brace, up to the closing brace that balances it.  [balanced_end depth s]
    reads [s], the text after an opening brace with [depth] more braces open,
    and returns how many characters the match takes of [s]; [None] when the
    braces never balance (the pattern does not match at that brace). *)
Fixpoint balanced_end (depth : nat) (s : str) : option nat :=
  match s with
  | [] => None
  | c :: s' =>
      if c =? 123 then option_map S (balanced_end (S depth) s')
      else if c =? 125 then
        match depth with
        | O => Some 1%nat
        | S d => option_map S (balanced_end d s')
        end
      else option_map S (balanced_end depth s')
  end.

(** [regex.sub(r"{(?:[^{}]*|(?R))*}", " ", s)]; [skip] counts the characters
    of a match still to be passed over. *)
Fixpoint sub_json_from (skip : nat) (s : str) : str :=
  match s with
  | [] => []
  | c :: s' =>
      match skip with
      | S k => sub_json_from k s'
      | O =>
          if c =? 123 then
            match balanced_end 0 s' with
            | Some n => 32 :: sub_json_from n s'
            | None => c :: sub_json_from O s'
            end
          else c :: sub_json_from O s'
      end
  end.

Definition sub_json (s : str) : str := sub_json_from O s.

(** The loop over [inline_tags]. *)
Definition strip_inline_tags (visible_text : str) : str :=
  fold_left
    (fun t it =>
       replace (lit "</" ++ it ++ lit ">") []
         (replace (lit "<" ++ it ++ lit ">") [] t))
    inline_tags visible_text.

(** [s.encode('ascii', 'ignore').decode('ascii')] *)
Definition ascii_ignore (s : str) : str := List.filter (fun c => c <? 128) s.

(** Lines 243 to 259 of [get_text]: what is done to the text that the
    parser returns. *)
Definition filter_text (visible_text : str) : str :=
  let visible_text := strip_inline_tags visible_text in
  let filtered_text := ascii_ignore visible_text in
  let filtered_text := sub_runs blank (lit " ") filtered_text in
  let filtered_text := sub_runs linebreak [10] filtered_text in
  let filtered_text := sub_json filtered_text in
  strip filtered_text.

(** [soup_get_text body] stands for lines 237 to 241: the body parsed by
    BeautifulSoup with html5lib, [head] and [title] taken out, then
    [soup.get_text(strip=True)]. *)
Definition get_text (soup_get_text : str -> str) (body : str) : str :=
  filter_text (soup_get_text body).

(** A body without markup: no tag opener, no character reference, and none
    of the characters html5lib rewrites (NUL, carriage return). *)
Definition plain_char (c : N) : bool :=
  negb ((c =? 60) || (c =? 38) || (c =? 0) || (c =? 13)).
Definition markup_free (body : str) : bool := forallb plain_char body.

(** On such a body html5lib builds one text node under [body], and
    [get_text(strip=True)] returns it stripped. *)
Definition text_node_parser (soup_get_text : str -> str) : Prop :=
  forall body, markup_free body = true -> soup_get_text body = strip body.

(** The parser restricted to bodies without markup. *)
Definition text_node (body : str) : str := strip body.

(** *** get_domain *)

(** [tldextract.extract(url)], as tldextract 2.2 computes it from the public
    suffix list [tlds] (the decoding of punycode labels is left out). *)

Definition scheme_char (c : N) : bool :=
  isalpha c || isdigit c || (c =? 43) || (c =? 45) || (c =? 46).

Fixpoint skip_while (f : N -> bool) (s : str) : str :=
  match s with
  | [] => []
  | c :: s' => if f c then skip_while f s' else s
  end.

(** [SCHEME_RE.sub("", url)], where [SCHEME_RE] is [^([scheme_chars]+:)?//]. *)
Definition strip_scheme (url : str) : str :=
  match skip_while scheme_char url with
  | 58 :: 47 :: 47 :: rest =>
      match url with
      | c :: _ => if scheme_char c then rest else url
      | [] => url
      end
  | _ => match url with
         | 47 :: 47 :: rest => rest
         | _ => url
         end
  end.

Definition netloc_of (url : str) : str :=
  rstrip_dot
    (strip
       (before 58
          (after_last 64
             (before 35 (before 63 (before 47 (strip_scheme url))))))).

(** A decimal number below 256 without leading zero. *)
Definition ip_octet (w : str) : bool :=
  match w with
  | [a] => isdigit a
  | [a; b] => isdigit a && negb (a =? 48) && isdigit b
  | [a; b; c] =>
      isdigit a && isdigit b && isdigit c && negb (a =? 48)
      && ((a - 48) * 100 + (b - 48) * 10 + (c - 48) <=? 255)
  | _ => false
  end.

Definition looks_like_ip (maybe_ip : str) : bool :=
  match split 46 maybe_ip with
  | [a; b; c; d] => ip_octet a && ip_octet b && ip_octet c && ip_octet d
  | _ => false
  end.

Definition mem (w : str) (l : list str) : bool := existsb (str_eqb w) l.

(** [suffix_index]: the index of the first label of the suffix, the number
    of labels when there is none; [i] is the index of the head of [spl]. *)
Fixpoint suffix_index (tlds : list str) (spl : list str) (i : nat) : nat :=
  match spl with
  | [] => i
  | _ :: rest =>
      let maybe_tld := join (lit ".") spl in
      if mem (lit "!" ++ maybe_tld) tlds then S i
      else if mem maybe_tld tlds then i
      else if mem (lit "*." ++ join (lit ".") rest) tlds then i
      else suffix_index tlds rest (S i)
  end.

Record ExtractResult := {
  subdomain : str;
  domain : str;
  suffix : str
}.

Definition extract (tlds : list str) (url : str) : ExtractResult :=
  let netloc := netloc_of url in
  let labels := split 46 netloc in
  let si := suffix_index tlds (map lower labels) O in
  let suffix := join (lit ".") (skipn si labels) in
  if str_eqb suffix [] && negb (str_eqb netloc []) && looks_like_ip netloc
  then {| subdomain := []; domain := netloc; suffix := [] |}
  else
    match si with
    | O => {| subdomain := []; domain := []; suffix := suffix |}
    | S k => {| subdomain := join (lit ".") (firstn k labels);
                domain := nth k labels [];
                suffix := suffix |}
    end.

Definition get_domain (tlds : list str) (url : str) : result str :=
  let extracted := extract tlds url in
  Ok (domain extracted ++ lit "." ++ suffix extracted).

(** *** The world parse_file acts on *)

(** [bytes.decode('utf-8')], strict. *)
Definition continuation (b : N) : bool := (128 <=? b) && (b <=? 191).

Fixpoint decode_utf8 (bs : list N) : result str :=
  match bs with
  | [] => Ok []
  | b0 :: r0 =>
      if b0 <? 128 then
        let* s := decode_utf8 r0 in Ok (b0 :: s)
      else if (194 <=? b0) && (b0 <=? 223) then
        match r0 with
        | b1 :: r1 =>
            if continuation b1 then
              let* s := decode_utf8 r1 in
              Ok (((b0 - 192) * 64 + (b1 - 128)) :: s)
            else Raise UnicodeDecodeError
        | _ => Raise UnicodeDecodeError
        end
      else if (224 <=? b0) && (b0 <=? 239) then
        match r0 with
        | b1 :: b2 :: r2 =>
            if continuation b1 && continuation b2
               && (negb (b0 =? 224) || (160 <=? b1))
               && (negb (b0 =? 237) || (b1 <=? 159))
            then
              let* s := decode_utf8 r2 in
              Ok (((b0 - 224) * 4096 + (b1 - 128) * 64 + (b2 - 128)) :: s)
            else Raise UnicodeDecodeError
        | _ => Raise UnicodeDecodeError
        end
      else if (240 <=? b0) && (b0 <=? 244) then
        match r0 with
        | b1 :: b2 :: b3 :: r3 =>
            if continuation b1 && continuation b2 && continuation b3
               && (negb (b0 =? 240) || (144 <=? b1))
               && (negb (b0 =? 244) || (b1 <=? 143))
            then
              let* s := decode_utf8 r3 in
              Ok (((b0 - 240) * 262144 + (b1 - 128) * 4096
                   + (b2 - 128) * 64 + (b3 - 128)) :: s)
            else Raise UnicodeDecodeError
        | _ => Raise UnicodeDecodeError
        end
      else Raise UnicodeDecodeError
  end.

(** [urlparse(url).path] (urllib.parse of Python 3.8; the NFKC check of a
    host that is not ASCII is left out). *)
Definition uses_params : list str :=
  map lit [""; "ftp"; "hdl"; "prospero"; "http"; "imap"; "https"; "shttp";
           "rtsp"; "rtspu"; "sip"; "sips"; "mms"; "sftp"; "tel"].

(** The scheme and what follows its colon. *)
Definition split_scheme (url : str) : str * str :=
  match find 58 url with
  | Some (S i) =>
      let head := firstn (S i) url in
      let rest := skipn (S (S i)) url in
      if str_eqb head (lit "http") then (head, rest)
      else if forallb scheme_char head
              && (str_eqb rest [] || negb (forallb isdigit rest))
      then (lower head, rest)
      else ([], url)
  | _ => ([], url)
  end.

(** [_splitnetloc(url, 2)] *)
Definition not_delim (c : N) : bool :=
  negb ((c =? 47) || (c =? 63) || (c =? 35)).
Fixpoint take_while (f : N -> bool) (s : str) : str :=
  match s with
  | [] => []
  | c :: s' => if f c then c :: take_while f s' else []
  end.

Definition urlparse_path (url : str) : result str :=
  let '(scheme, url) := split_scheme url in
  let* url :=
    match url with
    | 47 :: 47 :: rest =>
        let netloc := take_while not_delim rest in
        if xorb (existsb (N.eqb 91) netloc) (existsb (N.eqb 93) netloc)
        then Raise ValueError
        else Ok (skip_while not_delim rest)
    | _ => Ok url
    end in
  let url := before 63 (before 35 url) in
  if mem scheme uses_params && existsb (N.eqb 59) url then
    (* _splitparams *)
    let tail := after_last 47 url in
    if existsb (N.eqb 47) url then
      Ok (firstn (length url - length tail) url ++ before 59 tail)
    else Ok (before 59 url)
  else Ok url.

(** A [requests.Response]: the URL after redirects and the body. *)
Record HrefResponse := {
  resp_url : str;
  content : list N
}.

(** An open [NamedTemporaryFile]. *)
Record TempFile := {
  tmp_suffix : str;
  tmp_data : list N
}.

(** The file system: directories and text files by normalized relative
    path, and the temporary files that are open, by handle.
    [write_error f data] is what [f.write(data)] raises on the file of path
    [f]: [UnicodeEncodeError] when the encoding of the locale has no code
    for a character of [data], [OSError] when the system refuses the write,
    and nothing ([None]) when the write goes through. *)
Record FS := {
  dirs : gset str;
  files : gmap str str;
  temps : gmap nat TempFile;
  next_temp : nat;
  write_error : str -> str -> option exn
}.

Definition path_parts (p : str) : list str :=
  List.filter (fun w => negb (str_eqb w [] || str_eqb w (lit ".")))
    (split 47 p).
Definition norm (p : str) : str := join (lit "/") (path_parts p).
Definition parent (p : str) : str :=
  join (lit "/") (removelast (path_parts p)).

Definition is_dir (w : FS) (p : str) : bool :=
  str_eqb (norm p) [] || bool_decide (norm p ∈ dirs w).

(** State and exceptions: a raise keeps the world as it was left. *)
Definition M (A : Type) : Type := FS -> result A * FS.
Definition ret {A} (a : A) : M A := fun w => (Ok a, w).
Definition lift {A} (r : result A) : M A := fun w => (r, w).
Definition bindM {A B} (m : M A) (k : A -> M B) : M B :=
  fun w =>
    match m w with
    | (Ok a, w') => k a w'
    | (Raise e, w') => (Raise e, w')
    end.

Notation "'let!' x ':=' c1 'in' c2" := (bindM c1 (fun x => c2))
  (at level 10, x name, c1 at level 100, c2 at level 200).

(** [NamedTemporaryFile(suffix=...)] *)
Definition NamedTemporaryFile (suffix : str) : M nat :=
  fun w =>
    let h := next_temp w in
    (Ok h,
     {| dirs := dirs w; files := files w;
        temps := <[h := {| tmp_suffix := suffix; tmp_data := [] |}]> (temps w);
        next_temp := S h; write_error := write_error w |}).

(** [tempfile.write(data)]; [tempfile.flush()] changes nothing here. *)
Definition tmp_write (h : nat) (data : list N) : M unit :=
  fun w =>
    match temps w !! h with
    | Some t =>
        (Ok tt,
         {| dirs := dirs w; files := files w;
            temps := <[h := {| tmp_suffix := tmp_suffix t;
                               tmp_data := tmp_data t ++ data |}]> (temps w);
            next_temp := next_temp w; write_error := write_error w |})
    | None => (Raise ValueError, w)
    end.

(** [tempfile.close()]: the file is deleted. *)
Definition tmp_close (h : nat) : M unit :=
  fun w =>
    (Ok tt,
     {| dirs := dirs w; files := files w;
        temps := delete h (temps w); next_temp := next_temp w;
        write_error := write_error w |}).

(** [os.path.isdir(p)] *)
Definition isdir (p : str) : M bool := fun w => (Ok (is_dir w p), w).

(** [os.mkdir(p)] *)
Definition mkdir (p : str) : M unit :=
  fun w =>
    if is_dir w p || bool_decide (is_Some (files w !! norm p))
    then (Raise FileExistsError, w)
    else if is_dir w (parent p)
    then (Ok tt,
          {| dirs := {[norm p]} ∪ dirs w; files := files w;
             temps := temps w; next_temp := next_temp w;
             write_error := write_error w |})
    else (Raise FileNotFoundError, w).

(** [open(p, "w")]: the file is created or emptied. *)
Definition open_w (p : str) : M str :=
  fun w =>
    let name := after_last 47 p in
    if negb (is_dir w (parent p)) then (Raise FileNotFoundError, w)
    else if is_dir w p || str_eqb name [] || str_eqb name (lit ".")
            || str_eqb name (lit "..")
    then (Raise IsADirectoryError, w)
    else (Ok (norm p),
          {| dirs := dirs w; files := <[norm p := []]> (files w);
             temps := temps w; next_temp := next_temp w;
             write_error := write_error w |}).

(** [f.write(data)]: the data are added to the file, unless the write
    raises; what was written before stays in the file.  The flush of the
    buffer when the [with] block ends is counted with the last write. *)
Definition write (f : str) (data : str) : M unit :=
  fun w =>
    match write_error w f data with
    | Some e => (Raise e, w)
    | None =>
        (Ok tt,
         {| dirs := dirs w;
            files := <[f := default [] (files w !! f) ++ data]> (files w);
            temps := temps w; next_temp := next_temp w;
            write_error := write_error w |})
    end.

(** *** parse_file *)

(** Line 283: the first of [TEXTRACT_EXTENSIONS] that the URL of the
    response, in lower case, ends with. *)
Definition select_extension (response_url : str) : result str :=
  index
    (List.filter (fun x => endswith x (lower response_url))
       TEXTRACT_EXTENSIONS) 0.

Section parse_file.

(** The public suffix list, [requests.get] and [textract.process] (which
    reads the file it is given, and tells its format from the suffix). *)
Variable tlds : list str.
Variable requests_get : str -> result HrefResponse.
Variable textract_process : TempFile -> result (list N).

Definition textract (h : nat) : M (list N) :=
  fun w =>
    match temps w !! h with
    | Some t => (textract_process t, w)
    | None => (Raise FileNotFoundError, w)
    end.

Definition parse_file (href parent_url : str) : M str :=
  let! response_href := lift (requests_get href) in
  let! extension := lift (select_extension (resp_url response_href)) in
  let! tempfile := NamedTemporaryFile extension in
  let! _ := tmp_write tempfile (content response_href) in
  let! extracted_data := textract tempfile in
  let! extracted_data := lift (decode_utf8 extracted_data) in
  let extracted_data := strip_control_chars extracted_data in
  let! _ := tmp_close tempfile in
  let! base_url := lift (get_domain tlds parent_url) in
  let! path := lift (urlparse_path href) in
  let txt_file_name :=
    lit "files" ++ lit "/" ++ base_url ++ lit "/"
    ++ replace extension (lit ".txt") (after_last 47 path) in
  let! d := isdir (lit "files" ++ lit "/" ++ base_url) in
  let! _ := if d then ret tt
            else mkdir (lit "files" ++ lit "/" ++ base_url) in
  let! f := open_w txt_file_name in
  let! _ := write f (lit "Base URL: " ++ base_url) in
  let! _ := write f [10] in
  let! _ := write f (lit "Parent URL: " ++ parent_url) in
  let! _ := write f [10] in
  let! _ := write f (lit "File URL: " ++ upper (resp_url response_href)) in
  let! _ := write f [10] in
  let! _ := write f extracted_data in
  let! _ := write f [10; 10] in
  ret extracted_data.

(** *** What parse_file leaves *)

(** The document behind [href] was fetched and its text extracted. *)
Definition extracted (href : str) (text : str) : Prop :=
  exists response_href extension raw decoded,
    requests_get href = Ok response_href
    /\ select_extension (resp_url response_href) = Ok extension
    /\ textract_process {| tmp_suffix := extension;
                           tmp_data := content response_href |} = Ok raw
    /\ decode_utf8 raw = Ok decoded
    /\ text = strip_control_chars decoded.

(** The artifact that [parse_file] leaves for [href]. *)
Definition written (href parent_url text : str) (w : FS) : Prop :=
  exists response_href extension base_url path,
    requests_get href = Ok response_href
    /\ select_extension (resp_url response_href) = Ok extension
    /\ get_domain tlds parent_url = Ok base_url
    /\ urlparse_path href = Ok path
    /\ is_dir w (lit "files" ++ lit "/" ++ base_url) = true
    /\ files w
       !! norm (lit "files" ++ lit "/" ++ base_url ++ lit "/"
                ++ replace extension (lit ".txt") (after_last 47 path))
       = Some (lit "Base URL: " ++ base_url ++ [10]
               ++ lit "Parent URL: " ++ parent_url ++ [10]
               ++ lit "File URL: " ++ upper (resp_url response_href) ++ [10]
               ++ text ++ [10; 10]).

(** *** parse_items *)

(** What [parse_items] reads of a [scrapy.http.Response]: [img_src] is
    [//img/@src], [a_href] the [href] of the [a] elements in document
    order, [depth] the request's [meta['depth']]. *)
Record Response := {
  url : str;
  body : str;
  depth : Z;
  img_src : list str;
  a_href : list str;
  urljoin : str -> str
}.

Record CharterItem (F : Type) := {
  item_url : str;
  text : str;
  school_id : F;
  item_depth : Z;
  image_urls : list str;
  file_urls : list str;
  file_text : list str
}.

(** The selector [a[href$=".pdf"], a[href$=".doc"], a[href$=".docx"]]. *)
Definition selector (href : str) : bool :=
  endswith (lit ".pdf") href || endswith (lit ".doc") href
  || endswith (lit ".docx") href.

(** The body of the loop over the selected hrefs, up to the call of
    [parse_file]. *)
Definition file_url (domain href : str) : str :=
  if negb (contains (lit "http") href)
  then lit "http://" ++ domain ++ href
  else href.

Fixpoint parse_files (domain parent_url : str) (hrefs : list str)
  : M (list str * list str) :=
  match hrefs with
  | [] => ret ([], [])
  | href :: rest =>
      let href := file_url domain href in
      let! t := parse_file href parent_url in
      let! r := parse_files domain parent_url rest in
      ret (href :: fst r, t :: snd r)
  end.

Variable soup_get_text : str -> str.
Variable F : Type.

(** The spider's attributes. *)
Record Spider := {
  start_urls : list str;
  allowed_domains : list str;
  domain_to_id : gmap str F
}.

Definition parse_items (self : Spider) (response : Response)
  : M (CharterItem F) :=
  let text := get_text soup_get_text (body response) in
  let! domain := lift (get_domain tlds (url response)) in
  let! school_id :=
    lift (match domain_to_id self !! domain with
          | Some i => Ok i
          | None => Raise KeyError
          end) in
  let image_urls := map (urljoin response) (img_src response) in
  let! fs := parse_files domain (url response)
               (List.filter selector (a_href response)) in
  ret {| item_url := url response; text := text; school_id := school_id;
         item_depth := depth response; image_urls := image_urls;
         file_urls := fst fs; file_text := snd fs |}.

(** *** init_from_csv *)

Variable float : str -> result F.

(** One turn of the loop over the rows that follow the header. *)
Definition add_row (self : Spider) (raw_row : list str) : result Spider :=
  let* csv_row := index raw_row 0 in
  let* p := match split 44 csv_row with
            | [school_id; url] => Ok (school_id, url)
            | _ => Raise ValueError
            end in
  let* domain := get_domain tlds (snd p) in
  let* id := float (fst p) in
  Ok {| start_urls := start_urls self ++ [snd p];
        allowed_domains := allowed_domains self ++ [domain];
        domain_to_id := <[domain := id]> (domain_to_id self) |}.

Fixpoint add_rows (self : Spider) (rows : list (list str)) : result Spider :=
  match rows with
  | [] => Ok self
  | raw_row :: rest =>
      let* self := add_row self raw_row in
      add_rows self rest
  end.

(** [csv_input] is [None] when no file is given, else the rows that
    [csv.reader] yields for it. *)
Definition init_from_csv (self : Spider)
    (csv_input : option (list (list str))) : result Spider :=
  match csv_input with
  | None => Ok self
  | Some rows => add_rows self (tl rows)
  end.

End parse_file.

Arguments item_url {F}.
Arguments text {F}.
Arguments school_id {F}.
Arguments item_depth {F}.
Arguments image_urls {F}.
Arguments file_urls {F}.
Arguments file_text {F}.
Arguments start_urls {F}.
Arguments allowed_domains {F}.
Arguments domain_to_id {F}.

End Spider.

(** ** scripts/WebScraper.py *)

Module WebScraper.

(** *** School and readCSV *)

Record School := {
  id : str;
  school_name : str;
  address : str;
  mainURL : str;
  school_matcher : str;
  filePath : str
}.

(** [School.__init__]; the list of links and the counters start empty. *)
Definition School_init (id name address mainURL : str) : result School :=
  if str_eqb mainURL (lit "0") then Raise ValueError
  else
    let* matcher := index (split 46 mainURL) 1 in
    Ok {| id := id; school_name := name; address := address;
          mainURL := mainURL; school_matcher := matcher;
          filePath := lit "results/" ++ name |}.

(** The loop of [readCSV] over what [csv.reader] returns: each row comes
    with [reader.line_num], the number of lines of the file that were read
    when the row is returned (a quoted cell can span several lines).  The
    [ValueError] of [School] is caught and the row passed over; what is
    printed is left out. *)
Fixpoint read_rows (rows : list (nat * list str)) (schools : list School)
  : result (list School) :=
  match rows with
  | [] => Ok schools
  | (line_num, row) :: rest =>
      if negb (Nat.eqb line_num 1) then
        let* a0 := index row 0 in
        let* a1 := index row 1 in
        let* a2 := index row 2 in
        let* a4 := index row 4 in
        match School_init a0 a1 a2 a4 with
        | Ok school => read_rows rest (schools ++ [school])
        | Raise ValueError => read_rows rest schools
        | Raise e => Raise e
        end
      else read_rows rest schools
  end.

Definition readCSV (rows : list (nat * list str)) : result (list School) :=
  read_rows rows [].

(** *** Link *)

(** [index] is [None] for Python's [None]; [text] is set by [gatherText]. *)
Record Link := {
  type : str;
  hrefAttribute : str;
  fallbackURL : str;
  index : option Z;
  matcher : str;
  name : str;
  text : option str
}.

Definition set_name (self : Link) (n : str) : Link :=
  {| type := type self; hrefAttribute := hrefAttribute self;
     fallbackURL := fallbackURL self; index := index self;
     matcher := matcher self; name := n; text := text self |}.

Definition set_text (self : Link) (t : str) : Link :=
  {| type := type self; hrefAttribute := hrefAttribute self;
     fallbackURL := fallbackURL self; index := index self;
     matcher := matcher self; name := name self; text := Some t |}.

(** [Link.gatherName] *)
Definition gatherName (self : Link) (delimiter : str) : result Link :=
  if str_eqb delimiter (lit "/") then Raise ValueError
  else if str_eqb (type self) (lit "html") then
    let unfilteredName :=
      split 47 (skipn (length (fallbackURL self)) (hrefAttribute self)) in
    match unfilteredName with
    | [w] => Ok (set_name self w)
    | _ => Ok (set_name self
                 (fold_left (fun n w => n ++ w ++ delimiter) unfilteredName []))
    end
  else if str_eqb (type self) (lit "JavaScript") then Ok (set_name self [])
  else Ok self.

(** [Link.__init__] *)
Definition Link_init (hrefAttribute callingURL matcher : str) (index : Z)
  : result Link :=
  let* html :=
    if startswith (lit "http") hrefAttribute then
      let* label := Py.index (split 46 hrefAttribute) 1 in
      Ok (str_eqb label matcher
          && (length callingURL <? length hrefAttribute)%nat)
    else Ok false in
  if html then
    gatherName {| type := lit "html"; hrefAttribute := hrefAttribute;
                  fallbackURL := callingURL; index := Some 0%Z;
                  matcher := matcher; name := []; text := None |} (lit "-")
  else if startswith (lit "javascript") hrefAttribute then
    gatherName {| type := lit "JavaScript"; hrefAttribute := hrefAttribute;
                  fallbackURL := callingURL; index := Some index;
                  matcher := matcher; name := []; text := None |} (lit "-")
  else Raise (LinkException 0).

(** What [prepDriver] does: it returns a browser; or it returns [None],
    on a platform that is none of linux, darwin and win32; or the display
    does not start; or Chrome does not start. *)
Inductive Startup := Started | NoDriver | DisplayFails | ChromeFails.

(** The browser, as [School.gatherLinks] and [Link.click] use it.
    [startup] answers for [prepDriver]; each other field answers for one
    call of the driver after [driver.get(url)]: whether the call returns
    ([false]: it raises a [WebDriverException]), how many [a] elements with
    an [href] the page has, and the text [gatherText] computes from
    [page_source] ([Some i]: after the click on element [i]).  [find_ok] is
    the search for the elements, [refind_ok] the search in the handler of
    [click]; [attr_ok] reads the [href] of an element, [reattr_ok] reads
    it again for the message of a link that is passed over; [close_ok] is
    [driver.close()], [reclose_ok] the one in the inner handler of
    [click]. *)
Record Driver := {
  startup : Startup;
  get_ok : str -> bool;
  find_ok : str -> bool;
  refind_ok : str -> bool;
  anchors : str -> nat;
  attr_ok : str -> nat -> bool;
  reattr_ok : str -> nat -> bool;
  click_ok : str -> nat -> bool;
  hover_ok : str -> nat -> bool;
  retry_ok : str -> nat -> bool;
  source_ok : str -> option nat -> bool;
  visible_text : str -> option nat -> str;
  close_ok : str -> bool;
  reclose_ok : str -> bool
}.

(** [prepDriver()]: whether there is a browser ([false]: the value
    is [None]). *)
Definition prepDriver (driver : Driver) : result bool :=
  match startup driver with
  | Started => Ok true
  | NoDriver => Ok false
  | DisplayFails => Raise DisplayError
  | ChromeFails => Raise WebDriverException
  end.

(** [driver.get(url)]; [None] has no attribute [get]. *)
Definition driver_get (driver : Driver) (started : bool) (url : str)
  : result unit :=
  if started then
    if get_ok driver url then Ok tt else Raise WebDriverException
  else Raise AttributeError.

(** [elems[i]] for a Python integer [i], on a list of [n] elements. *)
Definition list_index (n : nat) (i : Z) : result nat :=
  let j := if (i <? 0)%Z then (Z.of_nat n + i)%Z else i in
  if ((0 <=? j)%Z && (j <? Z.of_nat n)%Z)%bool then Ok (Z.to_nat j)
  else Raise IndexError.

Definition gatherText (driver : Driver) (self : Link) (page : str)
    (clicked : option nat) : result Link :=
  if source_ok driver page clicked
  then Ok (set_text self (visible_text driver page clicked))
  else Raise WebDriverException.

(** The outer [try] of [Link.click]: the click on element [i] of the page
    and the text of what it shows. *)
Definition click_first (driver : Driver) (self : Link) (page : str)
    (i : Z) : result Link :=
  if find_ok driver page then
    let* e := list_index (anchors driver page) i in
    if click_ok driver page e
    then gatherText driver self page (Some e)
    else Raise WebDriverException
  else Raise WebDriverException.

(** The inner [try] of [Link.click], from the second click on element [e]
    to [driver.close()], with the link as it is left. *)
Definition click_again (driver : Driver) (self : Link) (page : str)
    (e : nat) : result unit * Link :=
  if retry_ok driver page e then
    match gatherText driver self page (Some e) with
    | Ok self =>
        if close_ok driver page then (Ok tt, self)
        else (Raise WebDriverException, self)
    | Raise x => (Raise x, self)
    end
  else (Raise WebDriverException, self).

(** The handler of the outer [try] of [Link.click]. *)
Definition click_handler (driver : Driver) (self : Link) (page : str)
    (i : Z) : result (option bool) * Link :=
  if refind_ok driver page then
    match list_index (anchors driver page) i with
    | Ok e =>
        if hover_ok driver page e then
          match click_again driver self page e with
          | (Ok _, self) => (Ok None, self)
          | (Raise WebDriverException, self) =>
              if reclose_ok driver page then (Raise (LinkException 1), self)
              else (Raise WebDriverException, self)
          | (Raise x, self) => (Raise x, self)
          end
        else (Raise WebDriverException, self)
    | Raise x => (Raise x, self)
    end
  else (Raise WebDriverException, self).

(** [Link.click]: the value returned ([None] where the method falls off its
    end) or the exception raised, and the link as the call leaves it, with
    its text where [gatherText] has set it. *)
Definition click (driver : Driver) (self : Link)
  : result (option bool) * Link :=
  match prepDriver driver with
  | Raise x => (Raise x, self)
  | Ok started =>
      if str_eqb (type self) (lit "html") then
        match driver_get driver started (hrefAttribute self) with
        | Raise x => (Raise x, self)
        | Ok _ =>
            match gatherText driver self (hrefAttribute self) None with
            | Raise x => (Raise x, self)
            | Ok self =>
                if close_ok driver (hrefAttribute self)
                then (Ok (Some true), self)
                else (Raise WebDriverException, self)
            end
        end
      else if str_eqb (type self) (lit "JavaScript") then
        match index self with
        | None => (Raise (LinkException 2), self)
        | Some i =>
            let page := fallbackURL self in
            match driver_get driver started page with
            | Raise x => (Raise x, self)
            | Ok _ =>
                match click_first driver self page i with
                | Ok self => (Ok None, self)
                | Raise WebDriverException => click_handler driver self page i
                | Raise x => (Raise x, self)
                end
            end
        end
      else (Raise (LinkException 0), self)
  end.

End WebScraper.

(** ** Worlds for the examples *)

Module Example.
Import Spider.

Definition tlds : list str := map lit ["org"; "com"; "us"; "uk"; "co.uk"].

Definition seed : str := lit "http://www.example.org/".
Definition brochure : str := lit "http://www.example.org/brochure.pdf".
Definition report : str := lit "http://www.example.org/report.pdf".
Definition picture : str := lit "http://www.example.org/pic.png".

(** The site: three documents, each answered without redirect. *)
Definition requests_get (u : str) : result HrefResponse :=
  if str_eqb u brochure then Ok {| resp_url := u; content := lit "%PDF brochure" |}
  else if str_eqb u report then Ok {| resp_url := u; content := lit "%PDF report" |}
  else if str_eqb u picture then Ok {| resp_url := u; content := lit "PNG" |}
  else Raise RequestException.

(** A backend that cannot read the brochure. *)
Definition textract_process (t : TempFile) : result (list N) :=
  if str_eqb (tmp_data t) (lit "%PDF brochure") then Raise TextractError
  else Ok (lit "Annual report").

(** A backend that reads every file. *)
Definition textract_all (t : TempFile) : result (list N) := Ok (lit "Our mission").

(** The working directory holds the directory [files] and nothing else,
    and every write goes through. *)
Definition fs0 : FS :=
  {| dirs := {[ lit "files" ]}; files := ∅; temps := ∅; next_temp := 0;
     write_error := fun _ _ => None |}.

(** [float] on the literals of decimal digits, which is all the examples
    pass: the number they denote. *)
Definition float (s : str) : result N :=
  match s with
  | [] => Raise ValueError
  | _ => if forallb isdigit s
         then Ok (fold_left (fun n c => 10 * n + (c - 48)) s 0)
         else Raise ValueError
  end.

(** The spider after the seed row [7,http://www.example.org/]. *)
Definition spider : Spider N :=
  {| start_urls := [seed]; allowed_domains := [lit "example.org"];
     domain_to_id := {[ lit "example.org" := 7 ]} |}.

(** The seed page: a picture, and links to the report, to a page and to the
    brochure, in this order. *)
Definition page : Response :=
  {| url := seed; body := lit "Our school"; depth := 0;
     img_src := [picture];
     a_href := [report; lit "http://www.example.org/about.html"; brochure];
     urljoin := fun u => u |}.

(** A page of two paragraphs.  html5lib builds two text nodes for it, and
    [get_text(strip=True)] returns them stripped, one after the other. *)
Definition two_paragraphs : str :=
  lit "<p>OUR  SCHOOL </p><p> Our | Mission</p>".

(** An HTML parser, as far as the examples need it: a body without markup
    is returned stripped, and [two_paragraphs] as its two text nodes; no
    other body is used. *)
Definition soup_get_text (body : str) : str :=
  if markup_free body then strip body
  else if str_eqb body two_paragraphs then lit "OUR  SCHOOLOur | Mission"
  else strip body.

(** A browser in which every first click fails and every retry works. *)
Definition headless : WebScraper.Driver :=
  {| WebScraper.startup := WebScraper.Started;
     WebScraper.get_ok := fun _ => true;
     WebScraper.find_ok := fun _ => true;
     WebScraper.refind_ok := fun _ => true;
     WebScraper.anchors := fun _ => 3%nat;
     WebScraper.attr_ok := fun _ _ => true;
     WebScraper.reattr_ok := fun _ _ => true;
     WebScraper.click_ok := fun _ _ => false;
     WebScraper.hover_ok := fun _ _ => true;
     WebScraper.retry_ok := fun _ _ => true;
     WebScraper.source_ok := fun _ _ => true;
     WebScraper.visible_text := fun _ _ => lit "Welcome";
     WebScraper.close_ok := fun _ => true;
     WebScraper.reclose_ok := fun _ => true |}.

End Example.

(** ** Predicates of the statements *)

Module Normal.
Import Spider.

(** A text in which every run of the class [cls] is the single
    character [r]. *)
Fixpoint collapsed (cls : N -> bool) (r : N) (s : str) : bool :=
  match s with
  | [] => true
  | c :: s' =>
      (if cls c
       then (c =? r) && match s' with [] => true | c' :: _ => negb (cls c') end
       else true)
      && collapsed cls r s'
  end.

(** No opening brace of the text is balanced by a closing brace: the
    pattern of [sub_json] matches nowhere. *)
Fixpoint json_free (s : str) : bool :=
  match s with
  | [] => true
  | c :: s' =>
      negb ((c =? 123) && bool_decide (is_Some (balanced_end 0 s')))
      && json_free s'
  end.

Definition brace (c : N) : bool := (c =? 123) || (c =? 125).
Definition braces (s : str) : str := List.filter brace s.

(** The text that [filter_text] returns: ASCII, every run of blanks a single
    space, every run of line breaks a single newline, no balanced braces,
    no white space at either end. *)
Definition normal (y : str) : Prop :=
  forallb (fun c => c <? 128) y = true
  /\ collapsed blank 32 y = true
  /\ collapsed linebreak 10 y = true
  /\ json_free y = true
  /\ strip y = y.

(** The raw body of Scenario D of the specification. *)
Definition scenario_D : str :=
  [160] ++ lit "OUR " ++ [9] ++ lit "SCHOOL" ++ [9; 9; 9] ++ lit "MISSION"
  ++ [8203].

End Normal.
Import Normal.

Module Seeds.
Import Spider.

(** A row that [init_from_csv] cannot read: it has no cell, or its first
    cell does not split in two at the comma, or its id is not a number. *)
Definition malformed {F} (float : str -> result F) (raw_row : list str) : Prop :=
  match raw_row with
  | [] => True
  | csv_row :: _ =>
      match split 44 csv_row with
      | [school_id; _] => is_ok (float school_id) = false
      | _ => True
      end
  end.

(** The rows that [readCSV] reads: those that [csv.reader] does not return
    at line 1. *)
Definition data_rows (rows : list (nat * list str)) : list (list str) :=
  map snd (List.filter (fun r => negb (Nat.eqb (fst r) 1)) rows).

(** A row that [readCSV] cannot read: it has fewer than five cells, or its
    URL is not [0] and has no dot. *)
Definition unreadable (row : list str) : bool :=
  match nth_error row 4 with
  | None => true
  | Some u => negb (str_eqb u (lit "0")) && negb (existsb (N.eqb 46) u)
  end.

(** The row of a school without URL. *)
Definition without_url (row : list str) : bool :=
  str_eqb (nth 4 row []) (lit "0").

(** The school of a row. *)
Definition school_of (row : list str) : WebScraper.School :=
  {| WebScraper.id := nth 0 row [];
     WebScraper.school_name := nth 1 row [];
     WebScraper.address := nth 2 row [];
     WebScraper.mainURL := nth 4 row [];
     WebScraper.school_matcher := nth 1 (split 46 (nth 4 row [])) [];
     WebScraper.filePath := lit "results/" ++ nth 1 row [] |}.

(** A href on which the constructor of [Link] raises [IndexError]: it
    starts with [http] and has no dot. *)
Definition dotless (href : str) : bool :=
  startswith (lit "http") href && negb (existsb (N.eqb 46) href).

End Seeds.
Import Seeds.

(** ** The constructor of the spider *)

Module Crawler.
Import Spider.

(** [CharterSchoolSpider.__init__]: the three attributes start empty and
    [init_from_csv] fills them. *)
Definition CharterSchoolSpider_init (tlds : list str) (F : Type)
    (float : str -> result F) (csv_input : option (list (list str)))
  : result (Spider F) :=
  init_from_csv tlds F float
    {| start_urls := []; allowed_domains := []; domain_to_id := ∅ |} csv_input.

(** What [add_row] reads of a row: the id and the URL of its first cell. *)
Definition seed_of (raw_row : list str) (school_id url : str) : Prop :=
  Py.index raw_row 0 = Ok (school_id ++ 44 :: url)
  /\ ~ In 44 school_id /\ ~ In 44 url.

(** *** What a computation does to the files *)




(** When it returns, [m] has changed no file but [f], and neither the
    directories nor the temporary files. *)
Definition touches_only {A} (f : str) (m : M A) : Prop :=
  forall w a w', m w = (Ok a, w') ->
    (files w' = files w \/ exists c, files w' = <[f := c]> (files w))
    /\ temps w' = temps w /\ dirs w' = dirs w.

End Crawler.
Import Crawler.

(** ** scripts/WebScraper.py: the schools and their links *)

Module Run.
Import WebScraper.

(** *** School.gatherLinks *)

(** The attributes of a [School] that [__init__] sets to nothing. *)
Record Counters := {
  totalNumberofLinks : nat;
  htmlLinks : nat;
  htmlLinksClicked : nat;
  scriptLinks : nat;
  scriptLinksClicked : nat;
  linksClicked : nat
}.

Record SchoolObject := {
  school : School;
  links : list Link;
  counters : Counters
}.

(** A school as [readCSV] returns it. *)
Definition new_school (s : School) : SchoolObject :=
  {| school := s; links := [];
     counters := {| totalNumberofLinks := 0; htmlLinks := 0;
                    htmlLinksClicked := 0; scriptLinks := 0;
                    scriptLinksClicked := 0; linksClicked := 0 |} |}.

(** The loop of [gatherLinks] over the elements of [//a[@href]]: [hrefs]
    holds the [href] attribute of the elements that are left, [i] is the
    position of the first of them, which is what [elems.index(elem)]
    returns for it.  A [LinkException] is caught and the element passed
    over, after its [href] was read again for the message.  What is printed
    is left out. *)
Fixpoint gather (driver : Driver) (mainURL matcher : str) (i : nat)
    (hrefs : list str) (links : list Link) : result (list Link) :=
  match hrefs with
  | [] => Ok links
  | href :: rest =>
      if attr_ok driver mainURL i then
        match Link_init href mainURL matcher (Z.of_nat i) with
        | Ok link => gather driver mainURL matcher (S i) rest (links ++ [link])
        | Raise (LinkException _) =>
            if reattr_ok driver mainURL i
            then gather driver mainURL matcher (S i) rest links
            else Raise WebDriverException
        | Raise e => Raise e
        end
      else Raise WebDriverException
  end.

(** A link that was constructed from an element of the page. *)
Definition gathered_from (mainURL matcher : str) (hrefs : list str)
    (l : Link) : Prop :=
  exists k href,
    nth_error hrefs k = Some href
    /\ Link_init href mainURL matcher (Z.of_nat k) = Ok l.

(** A browser in which every call that [gatherLinks] makes for [page]
    returns. *)
Definition working (driver : Driver) (page : str) : Prop :=
  startup driver = Started
  /\ get_ok driver page = true
  /\ find_ok driver page = true
  /\ (forall i, attr_ok driver page i = true)
  /\ (forall i, reattr_ok driver page i = true)
  /\ close_ok driver page = true.

(** [School.gatherLinks]; [hrefs page] is the [href] attribute of each
    element of [//a[@href]] on [page], in the order of the page. *)
Definition gatherLinks (driver : Driver) (hrefs : str -> list str)
    (self : SchoolObject) : result SchoolObject :=
  let page := mainURL (school self) in
  let* started := prepDriver driver in
  let* _ := driver_get driver started page in
  if find_ok driver page then
    let* links := gather driver page (school_matcher (school self)) 0
                    (hrefs page) (links self) in
    if close_ok driver page then
      Ok {| school := school self; links := links;
            counters :=
              {| totalNumberofLinks := length links;
                 htmlLinks := htmlLinks (counters self);
                 htmlLinksClicked := htmlLinksClicked (counters self);
                 scriptLinks := scriptLinks (counters self);
                 scriptLinksClicked := scriptLinksClicked (counters self);
                 linksClicked := linksClicked (counters self) |} |}
    else Raise WebDriverException
  else Raise WebDriverException.

End Run.

(** ** scripts/WebScraper.py: clicking the links and the script *)

Module Script.
Import WebScraper Run.

(** What the code can raise: the exceptions of [exn], and the one that the
    divisions of the script add. *)
Inductive failure :=
| Exn (e : exn)
| ZeroDivisionError.

Inductive outcome (A : Type) :=
| Done (a : A)
| Fail (e : failure).
Arguments Done {A} a.
Arguments Fail {A} e.

Definition is_done {A} (o : outcome A) : bool :=
  match o with Done _ => true | Fail _ => false end.

(** The operating system and the clock: [W] is the state of the world, [H]
    the open files, [T] the values of [datetime.datetime.now()].
    [str_elapsed t t0] is [str(t - t0)], [str_quotient a b] is [str(a / b)]
    and [str_percent a b] is [str((a / b) * 100)], for [b] other than 0. *)
Record System (W H T : Type) := {
  path_exists : str -> W -> bool;
  os_mkdir : str -> W -> result unit * W;
  os_makedirs : str -> W -> result unit * W;
  os_open : str -> W -> result H * W;
  os_write : H -> str -> W -> result unit * W;
  os_close : H -> W -> result unit * W;
  now : W -> T * W;
  strftime : T -> str;
  str_elapsed : T -> T -> str;
  str_quotient : nat -> nat -> str;
  str_percent : nat -> nat -> str
}.
Arguments path_exists {W H T}.
Arguments os_mkdir {W H T}.
Arguments os_makedirs {W H T}.
Arguments os_open {W H T}.
Arguments os_write {W H T}.
Arguments os_close {W H T}.
Arguments now {W H T}.
Arguments strftime {W H T}.
Arguments str_elapsed {W H T}.
Arguments str_quotient {W H T}.
Arguments str_percent {W H T}.

(** [str(n)] for an integer that is not negative. *)
Definition str_int (n : nat) : str :=
  lit (NilZero.string_of_uint (Nat.to_uint n)).

(** [s * n] *)
Definition times (s : str) (n : nat) : str := concat (repeat s n).

Section world.

Variables W H T : Type.
Variable sys : System W H T.

(** A computation in the world that returns or raises. *)
Definition Act (A : Type) : Type := W -> outcome A * W.

Definition ret {A} (a : A) : Act A := fun w => (Done a, w).
Definition fail {A} (e : failure) : Act A := fun w => (Fail e, w).
Definition bind {A B} (m : Act A) (k : A -> Act B) : Act B :=
  fun w =>
    match m w with
    | (Done a, w') => k a w'
    | (Fail e, w') => (Fail e, w')
    end.

(** A call of the system, and a computation without effect. *)
Definition call {A} (m : W -> result A * W) : Act A :=
  fun w =>
    match m w with
    | (Ok a, w') => (Done a, w')
    | (Raise e, w') => (Fail (Exn e), w')
    end.
Definition pure {A} (r : result A) : Act A := call (fun w => (r, w)).

(** [datetime.datetime.now()] *)
Definition tick : Act T := fun w => (Done (fst (now sys w)), snd (now sys w)).

(** [a / b] as far as it raises. *)
Definition divide (a b : nat) : Act unit :=
  if Nat.eqb b 0 then fail ZeroDivisionError else ret tt.

(** *** Link.writeFile *)

Definition writeFile (self : Link) (filepath : str) (counter : nat) : Act unit :=
  bind
    (if str_eqb (type self) (lit "html") then
       call (os_open sys (filepath ++ lit "/" ++ name self ++ lit ".txt"))
     else if str_eqb (type self) (lit "JavaScript") then
       call (os_open sys (filepath ++ lit "/" ++ lit "JavaScript Link "
                          ++ str_int counter ++ lit ".txt"))
     else fail (Exn (LinkException 0)))
    (fun file =>
       match text self with
       | None => fail (Exn AttributeError)
       | Some t =>
           bind (call (os_write sys file t)) (fun _ => call (os_close sys file))
       end).

(** *** School.clickLinks *)

Definition seen (link : Link) (c : Counters) : Counters :=
  {| totalNumberofLinks := totalNumberofLinks c;
     htmlLinks := if str_eqb (type link) (lit "html")
                  then S (htmlLinks c) else htmlLinks c;
     htmlLinksClicked := htmlLinksClicked c;
     scriptLinks := if str_eqb (type link) (lit "html") then scriptLinks c
                    else if str_eqb (type link) (lit "JavaScript")
                    then S (scriptLinks c) else scriptLinks c;
     scriptLinksClicked := scriptLinksClicked c;
     linksClicked := linksClicked c |}.

Definition clicked (link : Link) (c : Counters) : Counters :=
  {| totalNumberofLinks := totalNumberofLinks c;
     htmlLinks := htmlLinks c;
     htmlLinksClicked := if str_eqb (type link) (lit "html")
                         then S (htmlLinksClicked c) else htmlLinksClicked c;
     scriptLinks := scriptLinks c;
     scriptLinksClicked :=
       if str_eqb (type link) (lit "html") then scriptLinksClicked c
       else if str_eqb (type link) (lit "JavaScript")
       then S (scriptLinksClicked c) else scriptLinksClicked c;
     linksClicked := S (linksClicked c) |}.

(** The first loop: the links as the clicks leave them, and the counters.
    A [LinkException] is caught; the link stays as [click] left it. *)
Fixpoint click_all (driver : Driver) (links : list Link) (c : Counters)
  : result (list Link * Counters) :=
  match links with
  | [] => Ok ([], c)
  | link :: rest =>
      match click driver link with
      | (Ok _, link') =>
          let* r := click_all driver rest (clicked link' (seen link c)) in
          Ok (link' :: fst r, snd r)
      | (Raise (LinkException _), link') =>
          let* r := click_all driver rest (seen link c) in
          Ok (link' :: fst r, snd r)
      | (Raise e, _) => Raise e
      end
  end.

(** What [click] did to a link in the first loop: it returned, or it
    raised a [LinkException]. *)
Definition attempted (driver : Driver) (l l' : Link) : Prop :=
  (exists r, click driver l = (Ok r, l'))
  \/ (exists n, click driver l = (Raise (LinkException n), l')).

(** A link as the constructor leaves it. *)
Definition unclicked (l : Link) : Prop :=
  (type l = lit "html" \/ type l = lit "JavaScript")
  /\ index l <> None /\ text l = None.

Definition is_html (l : Link) : bool := str_eqb (type l) (lit "html").

(** The second loop. *)
Fixpoint write_all (filePath : str) (links : list Link) (scriptCount : nat)
  : Act unit :=
  match links with
  | [] => ret tt
  | link :: rest =>
      if str_eqb (type link) (lit "html") then
        bind (writeFile link filePath 0)
          (fun _ => write_all filePath rest scriptCount)
      else if str_eqb (type link) (lit "JavaScript") then
        match text link with
        | None => fail (Exn AttributeError)
        | Some t =>
            if negb (str_eqb t [])
            then bind (writeFile link filePath scriptCount)
                   (fun _ => write_all filePath rest (S scriptCount))
            else write_all filePath rest scriptCount
        end
      else write_all filePath rest scriptCount
  end.

Definition clickLinks (driver : Driver) (self : SchoolObject)
  : Act SchoolObject :=
  let filePath := WebScraper.filePath (school self) in
  bind (fun w => if path_exists sys filePath w then ret tt w
                 else call (os_makedirs sys filePath) w)
    (fun _ =>
  bind (pure (click_all driver (links self) (counters self)))
    (fun r =>
  bind (write_all filePath (fst r) 0)
    (fun _ =>
  ret {| school := school self; links := fst r; counters := snd r |}))).

(** *** The script *)

(** The counters of the script. *)
Record Totals := {
  t_numberofLinksClicked : nat;
  t_totalNumberOfLinks : nat;
  t_htmlLinks : nat;
  t_htmlLinksClicked : nat;
  t_scriptLinks : nat;
  t_scriptLinksClicked : nat
}.

(** The body of the loop over the schools (lines 294 to 316). *)
Definition run_school (driver : Driver) (hrefs : str -> list str)
    (diagnosticsFile : H) (startTime : T) (s : School) (t : Totals)
  : Act Totals :=
  bind (pure (gatherLinks driver hrefs (new_school s))) (fun self =>
  bind tick (fun _ =>
  bind (clickLinks driver self) (fun self =>
  bind tick (fun t1 =>
  let c := counters self in
  let t :=
    {| t_numberofLinksClicked := t_numberofLinksClicked t + linksClicked c;
       t_totalNumberOfLinks := t_totalNumberOfLinks t + totalNumberofLinks c;
       t_htmlLinks := t_htmlLinks t + htmlLinks c;
       t_htmlLinksClicked := t_htmlLinksClicked t + htmlLinksClicked c;
       t_scriptLinks := t_scriptLinks t + scriptLinks c + scriptLinksClicked c;
       t_scriptLinksClicked := t_scriptLinksClicked t |} in
  bind (divide (linksClicked c) (totalNumberofLinks c)) (fun _ =>
  bind (call (os_write sys diagnosticsFile
                (lit "School " ++ school_name s ++ lit " had "
                 ++ str_int (totalNumberofLinks c) ++ lit " links and "
                 ++ str_int (linksClicked c) ++ lit " were clicked("
                 ++ times (str_quotient sys (linksClicked c)
                             (totalNumberofLinks c)) 100
                 ++ lit "%)" ++ [10]))) (fun _ =>
  bind (divide (htmlLinks c) (htmlLinksClicked c)) (fun _ =>
  bind (call (os_write sys diagnosticsFile
                (lit "There were " ++ str_int (htmlLinks c)
                 ++ lit " html links and " ++ str_int (htmlLinksClicked c)
                 ++ lit " were clicked("
                 ++ str_percent sys (htmlLinks c) (htmlLinksClicked c)
                 ++ lit "%)" ++ [10]))) (fun _ =>
  bind (if negb (Nat.eqb (scriptLinks c) 0) then
          bind (divide (scriptLinks c) (scriptLinksClicked c)) (fun _ =>
          call (os_write sys diagnosticsFile
                  (lit "There were " ++ str_int (scriptLinks c)
                   ++ lit " JavaScript links and "
                   ++ str_int (scriptLinksClicked c) ++ lit " were clicked("
                   ++ str_percent sys (scriptLinks c) (scriptLinksClicked c)
                   ++ lit "%)" ++ [10])))
        else ret tt) (fun _ =>
  bind (call (os_write sys diagnosticsFile
                (lit "It took " ++ str_elapsed sys t1 startTime
                 ++ lit " to click on the links for this school" ++ [10])))
    (fun _ => ret t)))))))))).

Fixpoint run_schools (driver : Driver) (hrefs : str -> list str)
    (diagnosticsFile : H) (startTime : T) (schools : list School)
    (t : Totals) : Act Totals :=
  match schools with
  | [] => ret t
  | s :: rest =>
      bind (run_school driver hrefs diagnosticsFile startTime s t)
        (fun t => run_schools driver hrefs diagnosticsFile startTime rest t)
  end.

(** The script (lines 275 to 328); [rows] is what [csv.reader] yields for
    the file of the schools, each row with its [line_num]. *)
Definition script (driver : Driver) (hrefs : str -> list str)
    (rows : list (nat * list str)) : Act unit :=
  bind (fun w => if path_exists sys (lit "results") w then ret tt w
                 else call (os_mkdir sys (lit "results")) w) (fun _ =>
  bind (fun w => if path_exists sys (lit "diagnostics") w then ret tt w
                 else call (os_mkdir sys (lit "diagnostics")) w) (fun _ =>
  bind (pure (readCSV rows)) (fun schools =>
  let t := {| t_numberofLinksClicked := 0; t_totalNumberOfLinks := 0;
              t_htmlLinks := 0; t_htmlLinksClicked := 0;
              t_scriptLinks := 0; t_scriptLinksClicked := 0 |} in
  bind tick (fun now0 =>
  let formattedTime := strftime sys now0 in
  bind (call (os_open sys (lit "diagnostics/" ++ formattedTime ++ lit ".txt")))
    (fun diagnosticsFile =>
  bind (call (os_write sys diagnosticsFile
                (lit "Program was run at " ++ formattedTime ++ [10]))) (fun _ =>
  bind tick
    (fun startTime =>
  bind (run_schools driver hrefs diagnosticsFile startTime schools t) (fun t =>
  bind tick (fun t1 =>
  bind (call (os_write sys diagnosticsFile
                (lit "Total number of links:"
                 ++ str_int (t_totalNumberOfLinks t) ++ [10]))) (fun _ =>
  bind (call (os_write sys diagnosticsFile
                (lit "Number of Links Clicked:"
                 ++ str_int (t_numberofLinksClicked t) ++ [10]))) (fun _ =>
  bind (divide (t_numberofLinksClicked t) (t_totalNumberOfLinks t)) (fun _ =>
  bind (call (os_write sys diagnosticsFile
                (lit "% of links clicked:"
                 ++ str_quotient sys (t_numberofLinksClicked t)
                      (t_totalNumberOfLinks t) ++ [10]))) (fun _ =>
  bind (call (os_write sys diagnosticsFile
                (lit "Number of HTML Links"
                 ++ str_int (t_htmlLinks t) ++ [10]))) (fun _ =>
  bind (divide (t_htmlLinks t) (t_htmlLinksClicked t)) (fun _ =>
  bind (call (os_write sys diagnosticsFile
                (lit "% of HTML Links Clicked"
                 ++ str_quotient sys (t_htmlLinks t) (t_htmlLinksClicked t)
                 ++ [10]))) (fun _ =>
  bind (call (os_write sys diagnosticsFile
                (lit "Number of JavaScript Links"
                 ++ str_int (t_scriptLinks t) ++ [10]))) (fun _ =>
  bind (divide (t_scriptLinks t) (t_scriptLinksClicked t)) (fun _ =>
  bind (call (os_write sys diagnosticsFile
                (lit "% of JavaScript Links Clicked"
                 ++ str_quotient sys (t_scriptLinks t) (t_scriptLinksClicked t)
                 ++ [10]))) (fun _ =>
  bind (call (os_write sys diagnosticsFile
                (lit "Time taken to click all links + "
                 ++ str_elapsed sys t1 startTime))) (fun _ =>
  call (os_close sys diagnosticsFile))))))))))))))))))))).

End world.

Arguments ret {W A} a.
Arguments fail {W A} e.
Arguments bind {W A B} m k.
Arguments call {W A} m.
Arguments pure {W A} r.
Arguments divide {W} a b.

End Script.

(** ** A table, a page and a browser for the examples *)

Module Sample.
Import Spider.

Definition table : list (list str) :=
  [[lit "NCESSCH,URL"]; [lit "7,http://www.example.org/"];
   [lit "8,http://docs.example.org/a"]].

(** The spider that is constructed from [table]. *)
Definition spider : Spider N :=
  {| start_urls := [lit "http://www.example.org/"; lit "http://docs.example.org/a"];
     allowed_domains := [lit "example.org"; lit "example.org"];
     domain_to_id := {[ lit "example.org" := 8 ]} |}.

(** A page of another site that links to the brochure. *)
Definition elsewhere : Response :=
  {| url := lit "http://www.example.com/"; body := lit "Elsewhere";
     depth := 1; img_src := []; a_href := [Example.brochure];
     urljoin := fun u => u |}.

(** The third link of the seed page runs a script. *)
Definition menu : WebScraper.Link :=
  {| WebScraper.type := lit "JavaScript";
     WebScraper.hrefAttribute := lit "javascript:void(0)";
     WebScraper.fallbackURL := Example.seed;
     WebScraper.index := Some 2%Z;
     WebScraper.matcher := lit "example";
     WebScraper.name := [];
     WebScraper.text := None |}.

(** A browser in which no click on a link works. *)
Definition stuck : WebScraper.Driver :=
  {| WebScraper.startup := WebScraper.Started;
     WebScraper.get_ok := fun _ => true;
     WebScraper.find_ok := fun _ => true;
     WebScraper.refind_ok := fun _ => true;
     WebScraper.anchors := fun _ => 3%nat;
     WebScraper.attr_ok := fun _ _ => true;
     WebScraper.reattr_ok := fun _ _ => true;
     WebScraper.click_ok := fun _ _ => false;
     WebScraper.hover_ok := fun _ _ => true;
     WebScraper.retry_ok := fun _ _ => false;
     WebScraper.source_ok := fun _ _ => true;
     WebScraper.visible_text := fun _ _ => lit "Welcome";
     WebScraper.close_ok := fun _ => true;
     WebScraper.reclose_ok := fun _ => true |}.

(** A browser in which every first click fails and every retry works, and
    whose window closes at the second call only. *)
Definition flaky : WebScraper.Driver :=
  {| WebScraper.startup := WebScraper.Started;
     WebScraper.get_ok := fun _ => true;
     WebScraper.find_ok := fun _ => true;
     WebScraper.refind_ok := fun _ => true;
     WebScraper.anchors := fun _ => 3%nat;
     WebScraper.attr_ok := fun _ _ => true;
     WebScraper.reattr_ok := fun _ _ => true;
     WebScraper.click_ok := fun _ _ => false;
     WebScraper.hover_ok := fun _ _ => true;
     WebScraper.retry_ok := fun _ _ => true;
     WebScraper.source_ok := fun _ _ => true;
     WebScraper.visible_text := fun _ _ => lit "Welcome";
     WebScraper.close_ok := fun page => negb (str_eqb page Example.seed);
     WebScraper.reclose_ok := fun _ => true |}.

(** The rows of a file of three schools, the second without URL. *)
Definition rows : list (nat * list str) :=
  [(1, map lit ["id"; "name"; "address"; "phone"; "url"]);
   (2, map lit ["1"; "Example"; "Main St"; "555"; "http://www.example.org/"]);
   (3, map lit ["2"; "Closed"; "Side St"; "556"; "0"]);
   (4, map lit ["3"; "Other"; "High St"; "557"; "http://www.other.org/"])]%nat.

(** The school of the seed page, as [readCSV] returns it. *)
Definition school : WebScraper.School :=
  {| WebScraper.id := lit "1";
     WebScraper.school_name := lit "Example";
     WebScraper.address := lit "Main St";
     WebScraper.mainURL := Example.seed;
     WebScraper.school_matcher := lit "example";
     WebScraper.filePath := lit "results/Example" |}.

(** The three links of the seed page. *)
Definition hrefs (page : str) : list str :=
  [lit "http://www.example.org/news/2019/";
   lit "http://www.facebook.com/example";
   lit "javascript:void(0)"].

Definition news : WebScraper.Link :=
  {| WebScraper.type := lit "html";
     WebScraper.hrefAttribute := lit "http://www.example.org/news/2019/";
     WebScraper.fallbackURL := Example.seed;
     WebScraper.index := Some 0%Z;
     WebScraper.matcher := lit "example";
     WebScraper.name := lit "news-2019--";
     WebScraper.text := None |}.

(** The school after [gatherLinks]. *)
Definition gathered : Run.SchoolObject :=
  {| Run.school := school; Run.links := [news; menu];
     Run.counters :=
       {| Run.totalNumberofLinks := 2; Run.htmlLinks := 0;
          Run.htmlLinksClicked := 0; Run.scriptLinks := 0;
          Run.scriptLinksClicked := 0; Run.linksClicked := 0 |} |}.

(** The school after [clickLinks] in the browser [flaky]: the JavaScript
    link has its text and is not counted as clicked. *)
Definition clicked : Run.SchoolObject :=
  {| Run.school := school;
     Run.links := [WebScraper.set_text news (lit "Welcome");
                   WebScraper.set_text menu (lit "Welcome")];
     Run.counters :=
       {| Run.totalNumberofLinks := 2; Run.htmlLinks := 1;
          Run.htmlLinksClicked := 1; Run.scriptLinks := 1;
          Run.scriptLinksClicked := 0; Run.linksClicked := 1 |} |}.

(** A system in which every call works: the world is the list of what was
    written, with the path of the file; the clock stands still, and the
    quotients are those of the example, which are all 1. *)
Definition system : Script.System (list (str * str)) str unit :=
  {| Script.path_exists := fun _ _ => true;
     Script.os_mkdir := fun _ w => (Ok tt, w);
     Script.os_makedirs := fun _ w => (Ok tt, w);
     Script.os_open := fun p w => (Ok p, w);
     Script.os_write := fun h s w => (Ok tt, w ++ [(h, s)]);
     Script.os_close := fun _ w => (Ok tt, w);
     Script.now := fun w => (tt, w);
     Script.strftime := fun _ => lit "2019-08-20 12:00:00";
     Script.str_elapsed := fun _ _ => lit "0:00:00";
     Script.str_quotient := fun _ _ => lit "1.0";
     Script.str_percent := fun _ _ => lit "100.0" |}.

End Sample.

(** * Properties *)

Section normalizer.
Import Spider.

Lemma replace_from_absent c0 old new s :
  ~ In c0 s -> replace_from (c0 :: old) new 0 s = s.
Proof.
  induction s as [|c s IH]; intros Hin; [reflexivity|].
  cbn [replace_from startswith].
  destruct (N.eqb_spec c0 c) as [->|Hne].
  - exfalso. apply Hin. now left.
  - cbn [andb]. f_equal. apply IH. intros H. apply Hin. now right.
Qed.

Lemma strip_inline_tags_absent t :
  ~ In 60 t -> strip_inline_tags t = t.
Proof.
  intros Hin. unfold strip_inline_tags.
  induction inline_tags as [|it tags IH]; [reflexivity|].
  cbn [fold_left].
  change (lit "</" ++ it ++ lit ">") with (60 :: 47 :: it ++ lit ">").
  change (lit "<" ++ it ++ lit ">") with (60 :: it ++ lit ">").
  unfold replace.
  rewrite (replace_from_absent 60 _ _ t) by assumption.
  rewrite (replace_from_absent 60 _ _ t) by assumption. exact IH.
Qed.

Lemma sub_runs_collapsed cls r s :
  collapsed cls r s = true -> sub_runs cls [r] s = s.
Proof.
  induction s as [|c s IH]; [reflexivity|].
  cbn [collapsed sub_runs]. intros [H1 H2]%andb_prop.
  destruct (cls c) eqn:Hc.
  - apply andb_prop in H1 as [->%N.eqb_eq H1].
    destruct s as [|c' s]; [reflexivity|].
    apply negb_true_iff in H1. rewrite H1. cbn [app]. f_equal. now apply IH.
  - f_equal. now apply IH.
Qed.

Lemma sub_runs_head cls r s :
  match s, sub_runs cls [r] s with
  | [], [] => True
  | c :: _, c' :: _ => c' = if cls c then r else c
  | _, _ => False
  end.
Proof.
  induction s as [|c s IH]; [exact I|].
  cbn [sub_runs]. destruct (cls c) eqn:Hc; [|reflexivity].
  destruct s as [|c' s]; [reflexivity|].
  destruct (cls c') eqn:Hc'; [|reflexivity].
  destruct (sub_runs cls [r] (c' :: s)); [contradiction|exact IH].
Qed.

Lemma collapsed_sub_runs cls r s :
  cls r = true -> collapsed cls r (sub_runs cls [r] s) = true.
Proof.
  intros Hr. induction s as [|c s IH]; [reflexivity|].
  cbn [sub_runs]. destruct (cls c) eqn:Hc.
  - destruct s as [|c' s]; [cbn; now rewrite Hr, N.eqb_refl|].
    destruct (cls c') eqn:Hc'; [exact IH|].
    cbn [app collapsed]. rewrite Hr, N.eqb_refl, IH. cbn [andb].
    pose proof (sub_runs_head cls r (c' :: s)) as Hh.
    cbv beta iota in Hh. rewrite Hc' in Hh. revert Hh.
    destruct (sub_runs cls [r] (c' :: s)); [reflexivity|].
    intros ->. now rewrite Hc'.
  - cbn [collapsed]. now rewrite Hc, IH.
Qed.

(** Collapsing the runs of one class keeps the runs of a disjoint class
    collapsed. *)
Lemma collapsed_sub_runs_other cls1 r1 cls2 r2 s :
  (forall c, cls2 c = true -> cls1 c = false) -> cls2 r2 = true ->
  collapsed cls1 r1 s = true ->
  collapsed cls1 r1 (sub_runs cls2 [r2] s) = true.
Proof.
  intros Hdis Hr2. induction s as [|c s IH]; [reflexivity|].
  cbn [collapsed sub_runs]. intros [H1 H2]%andb_prop.
  specialize (IH H2). destruct (cls2 c) eqn:Hc2.
  - destruct s as [|c' s]; [cbn; now rewrite (Hdis r2 Hr2)|].
    destruct (cls2 c') eqn:Hc'; [exact IH|].
    cbn [app collapsed]. now rewrite (Hdis r2 Hr2), IH.
  - cbn [collapsed]. rewrite IH, andb_true_r.
    destruct (cls1 c) eqn:Hc1; [|reflexivity].
    apply andb_prop in H1 as [-> H1]. cbn [andb].
    pose proof (sub_runs_head cls2 r2 s) as Hh. revert Hh.
    destruct s as [|c' s], (sub_runs cls2 [r2] _) as [|d out];
      try contradiction; [reflexivity|].
    intros ->. destruct (cls2 c') eqn:Hc'; [|exact H1].
    now rewrite (Hdis r2 Hr2).
Qed.

Lemma In_sub_runs cls r s c :
  In c (sub_runs cls [r] s) -> In c s \/ c = r.
Proof.
  induction s as [|a s IH]; [contradiction|].
  cbn [sub_runs]. destruct (cls a).
  - destruct s as [|a' s].
    + intros [<-|[]]. now right.
    + destruct (cls a').
      * intros H. destruct (IH H) as [H'|H']; [left; now right|now right].
      * intros [<-|H]; [now right|].
        destruct (IH H) as [H'|H']; [left; now right|now right].
  - intros [<-|H]; [left; now left|].
    destruct (IH H) as [H'|H']; [left; now right|now right].
Qed.

(** *** strip *)

Lemma lstrip_suffix s : exists p, s = p ++ lstrip s.
Proof.
  induction s as [|c s [p IH]]; [now exists []|].
  cbn [lstrip]. destruct (isspace c); [|now exists []].
  exists (c :: p). cbn. now f_equal.
Qed.

Lemma rstrip_prefix s : exists q, s = rstrip s ++ q.
Proof.
  induction s as [|c s [q IH]]; [now exists []|].
  cbn [rstrip]. destruct (rstrip s) as [|d r] eqn:Hr.
  - destruct (isspace c); [now exists (c :: s)|].
    exists s. reflexivity.
  - exists q. cbn. f_equal. exact IH.
Qed.

Lemma In_strip c s : In c (strip s) -> In c s.
Proof.
  unfold strip. intros H.
  destruct (lstrip_suffix s) as [p Hp], (rstrip_prefix (lstrip s)) as [q Hq].
  rewrite Hp, Hq, !in_app_iff. auto.
Qed.

Lemma rstrip_cons c s :
  rstrip (c :: s) =
  match rstrip s with
  | [] => if isspace c then [] else [c]
  | r => c :: r
  end.
Proof. reflexivity. Qed.

Lemma rstrip_fixed s : rstrip (rstrip s) = rstrip s.
Proof.
  induction s as [|c s IH]; [reflexivity|].
  rewrite rstrip_cons. destruct (rstrip s) as [|d r] eqn:Hr.
  - destruct (isspace c) eqn:Hc; [reflexivity|]. cbn. now rewrite Hc.
  - rewrite rstrip_cons, IH. reflexivity.
Qed.

Lemma lstrip_head s :
  match lstrip s with [] => True | c :: _ => isspace c = false end.
Proof.
  induction s as [|c s IH]; [exact I|].
  cbn [lstrip]. destruct (isspace c) eqn:Hc; [exact IH|exact Hc].
Qed.

Lemma rstrip_head c s :
  isspace c = false -> exists r, rstrip (c :: s) = c :: r.
Proof.
  intros Hc. cbn [rstrip]. destruct (rstrip s); rewrite ?Hc; eauto.
Qed.

Lemma strip_fixed s : strip (strip s) = strip s.
Proof.
  unfold strip. pose proof (lstrip_head s) as Hh.
  destruct (lstrip s) as [|c w]; [reflexivity|].
  destruct (rstrip_head c w Hh) as [r Hr]. rewrite Hr.
  cbn [lstrip]. rewrite Hh, <- Hr. apply rstrip_fixed.
Qed.

Lemma collapsed_app cls r a b :
  collapsed cls r (a ++ b) = true ->
  collapsed cls r a = true /\ collapsed cls r b = true.
Proof.
  induction a as [|c a IH]; [now split|].
  cbn [app collapsed]. intros [H1 H2]%andb_prop.
  destruct (IH H2) as [Ha Hb]. split; [|exact Hb].
  rewrite Ha, andb_true_r. destruct (cls c); [|reflexivity].
  apply andb_prop in H1 as [-> H1]. destruct a; [reflexivity|exact H1].
Qed.

Lemma collapsed_strip cls r s :
  collapsed cls r s = true -> collapsed cls r (strip s) = true.
Proof.
  unfold strip. intros H.
  destruct (lstrip_suffix s) as [p Hp], (rstrip_prefix (lstrip s)) as [q Hq].
  rewrite Hp in H. apply collapsed_app in H as [_ H].
  rewrite Hq in H. now apply collapsed_app in H as [H _].
Qed.

(** *** The removal of JSON *)

Lemma sub_json_free s : json_free s = true -> sub_json s = s.
Proof.
  unfold sub_json. induction s as [|c s IH]; [reflexivity|].
  cbn [json_free sub_json_from]. intros [H1 H2]%andb_prop.
  destruct (c =? 123); [|f_equal; now apply IH].
  revert H1. destruct (balanced_end 0 s) as [n|]; [|intros _; f_equal; now apply IH].
  cbn [andb]. rewrite bool_decide_eq_true_2 by eauto. discriminate.
Qed.

Lemma is_Some_option_map {A B} (f : A -> B) (o : option A) :
  is_Some (option_map f o) <-> is_Some o.
Proof. destruct o; cbn; split; intros [x H]; eauto; discriminate. Qed.

Lemma balanced_end_braces s : forall d,
  is_Some (balanced_end d s) <-> is_Some (balanced_end d (braces s)).
Proof.
  induction s as [|c s IH]; intros d; [reflexivity|].
  unfold braces, brace. cbn [balanced_end List.filter].
  destruct (c =? 123) eqn:Ho.
  - cbn [orb balanced_end]. rewrite Ho, !is_Some_option_map. apply IH.
  - destruct (c =? 125) eqn:Hc.
    + cbn [orb balanced_end]. rewrite Ho, Hc.
      destruct d; [reflexivity|]. rewrite !is_Some_option_map. apply IH.
    + cbn [orb]. rewrite is_Some_option_map. apply IH.
Qed.

Lemma json_free_braces s : json_free s = json_free (braces s).
Proof.
  induction s as [|c s IH]; [reflexivity|].
  unfold braces, brace. cbn [json_free List.filter].
  destruct (c =? 123) eqn:Ho.
  - cbn [orb json_free]. rewrite Ho, IH. f_equal. f_equal. f_equal.
    apply bool_decide_ext, balanced_end_braces.
  - destruct (c =? 125) eqn:Hc; cbn [orb andb negb json_free];
      rewrite ?Ho; exact IH.
Qed.

Lemma braces_ascii_ignore s : braces (ascii_ignore s) = braces s.
Proof.
  unfold braces, ascii_ignore. induction s as [|c s IH]; [reflexivity|].
  cbn [List.filter]. destruct (c <? 128) eqn:Hc.
  - cbn [List.filter]. now rewrite IH.
  - rewrite IH. unfold brace.
    destruct (N.eqb_spec c 123) as [->|_]; [discriminate|].
    destruct (N.eqb_spec c 125) as [->|_]; [discriminate|reflexivity].
Qed.

Lemma braces_sub_runs cls r s :
  (forall c, cls c = true -> brace c = false) -> brace r = false ->
  braces (sub_runs cls [r] s) = braces s.
Proof.
  intros Hcls Hr. unfold braces. induction s as [|c s IH]; [reflexivity|].
  cbn [sub_runs List.filter]. destruct (cls c) eqn:Hc.
  - rewrite (Hcls c Hc). destruct s as [|c' s]; [cbn; now rewrite Hr|].
    destruct (cls c'); [exact IH|].
    cbn [app List.filter]. now rewrite Hr.
  - cbn [List.filter]. now rewrite IH.
Qed.

Lemma balanced_end_app s q : forall d n,
  balanced_end d s = Some n -> balanced_end d (s ++ q) = Some n.
Proof.
  induction s as [|c s IH]; intros d n; [discriminate|].
  cbn [app balanced_end].
  destruct (c =? 123).
  - destruct (balanced_end (S d) s) eqn:E; [|discriminate].
    now rewrite (IH _ _ E).
  - destruct (c =? 125).
    + destruct d; [trivial|].
      destruct (balanced_end d s) eqn:E; [|discriminate].
      now rewrite (IH _ _ E).
    + destruct (balanced_end d s) eqn:E; [|discriminate].
      now rewrite (IH _ _ E).
Qed.

Lemma json_free_app a b :
  json_free (a ++ b) = true -> json_free a = true /\ json_free b = true.
Proof.
  induction a as [|c a IH]; [now split|].
  cbn [app json_free]. intros [H1 H2]%andb_prop.
  destruct (IH H2) as [Ha Hb]. split; [|exact Hb].
  rewrite Ha, andb_true_r. destruct (c =? 123); [|reflexivity].
  cbn [andb] in *. apply negb_true_iff, bool_decide_eq_false.
  apply negb_true_iff, bool_decide_eq_false in H1.
  intros [n Hn]. apply H1. exists n. now apply balanced_end_app.
Qed.

Lemma json_free_strip s : json_free s = true -> json_free (strip s) = true.
Proof.
  unfold strip. intros H.
  destruct (lstrip_suffix s) as [p Hp], (rstrip_prefix (lstrip s)) as [q Hq].
  rewrite Hp in H. apply json_free_app in H as [_ H].
  rewrite Hq in H. now apply json_free_app in H as [H _].
Qed.

(** *** The other steps *)

Lemma ascii_ignore_ascii s : forallb (fun c => c <? 128) (ascii_ignore s) = true.
Proof.
  unfold ascii_ignore. apply forallb_forall. intros c [_ H]%filter_In. exact H.
Qed.

Lemma ascii_ignore_fixed s :
  forallb (fun c => c <? 128) s = true -> ascii_ignore s = s.
Proof.
  unfold ascii_ignore. induction s as [|c s IH]; [reflexivity|].
  cbn [forallb List.filter]. intros [-> H]%andb_prop. f_equal. now apply IH.
Qed.

Lemma forallb_sub_runs f cls r s :
  f r = true -> forallb f s = true -> forallb f (sub_runs cls [r] s) = true.
Proof.
  intros Hr Hs. apply forallb_forall. intros c [H| ->]%In_sub_runs; [|exact Hr].
  now apply (proj1 (forallb_forall f s) Hs).
Qed.

Lemma forallb_strip f s :
  forallb f s = true -> forallb f (strip s) = true.
Proof.
  intros Hs. apply forallb_forall. intros c H%In_strip.
  now apply (proj1 (forallb_forall f s) Hs).
Qed.

Lemma blank_not_brace c : blank c = true -> brace c = false.
Proof.
  unfold blank, hspace, brace. intros H.
  destruct (N.eqb_spec c 123) as [->|_]; [discriminate|].
  destruct (N.eqb_spec c 125) as [->|_]; [discriminate|reflexivity].
Qed.

Lemma linebreak_not_brace c : linebreak c = true -> brace c = false.
Proof.
  unfold linebreak, brace. intros H.
  destruct (N.eqb_spec c 123) as [->|_]; [discriminate|].
  destruct (N.eqb_spec c 125) as [->|_]; [discriminate|reflexivity].
Qed.

Lemma linebreak_not_blank c : linebreak c = true -> blank c = false.
Proof.
  unfold linebreak. intros Hc.
  repeat (apply orb_prop in Hc as [Hc|Hc]); apply N.eqb_eq in Hc; now subst.
Qed.

Lemma filter_text_normal y :
  ~ In 60 y -> normal y -> filter_text y = y.
Proof.
  intros H60 (Ha & Hb & Hl & Hj & Hs). unfold filter_text.
  rewrite strip_inline_tags_absent by assumption.
  rewrite ascii_ignore_fixed by assumption.
  change (lit " ") with [32].
  rewrite (sub_runs_collapsed blank 32) by assumption.
  rewrite (sub_runs_collapsed linebreak 10) by assumption.
  rewrite sub_json_free by assumption. exact Hs.
Qed.

(** The removal of what is not ASCII and the two collapses leave the braces
    where they are. *)
Lemma collapse_json_free t :
  json_free t = true ->
  json_free (sub_runs linebreak [10] (sub_runs blank [32] (ascii_ignore t)))
  = true.
Proof.
  intros H. rewrite json_free_braces.
  rewrite braces_sub_runs by (auto using linebreak_not_brace).
  rewrite braces_sub_runs by (auto using blank_not_brace).
  now rewrite braces_ascii_ignore, <- json_free_braces.
Qed.

Lemma In_sub_json c s : forall k, In c (sub_json_from k s) -> In c s \/ c = 32.
Proof.
  induction s as [|a s IH]; intros k; [contradiction|].
  cbn [sub_json_from]. destruct k as [|k].
  - destruct (a =? 123).
    + destruct (balanced_end 0 s).
      * intros [<-|H]; [now right|].
        destruct (IH _ H); [left; now right|now right].
      * intros [<-|H]; [left; now left|].
        destruct (IH _ H); [left; now right|now right].
    + intros [<-|H]; [left; now left|].
      destruct (IH _ H); [left; now right|now right].
  - intros H. destruct (IH _ H); [left; now right|now right].
Qed.

Lemma filter_text_chars t c :
  In c (filter_text t) -> ~ In 60 t -> In c t \/ c = 32 \/ c = 10.
Proof.
  intros H H60. revert H. unfold filter_text.
  rewrite strip_inline_tags_absent by assumption.
  change (lit " ") with [32]. intros H%In_strip.
  apply In_sub_json in H as [H| ->]; [|auto].
  apply In_sub_runs in H as [H| ->]; [|auto].
  apply In_sub_runs in H as [H| ->]; [|auto].
  apply filter_In in H as [H _]. auto.
Qed.

Lemma filter_text_is_normal t :
  ~ In 60 t -> json_free t = true -> normal (filter_text t).
Proof.
  intros H60 Hj. unfold filter_text.
  rewrite strip_inline_tags_absent by assumption.
  change (lit " ") with [32].
  rewrite (sub_json_free _ (collapse_json_free t Hj)). repeat split.
  - apply forallb_strip, forallb_sub_runs; [reflexivity|].
    apply forallb_sub_runs; [reflexivity|]. apply ascii_ignore_ascii.
  - apply collapsed_strip, collapsed_sub_runs_other;
      auto using linebreak_not_blank, collapsed_sub_runs.
  - apply collapsed_strip. now apply collapsed_sub_runs.
  - now apply json_free_strip, collapse_json_free.
  - apply strip_fixed.
Qed.

Lemma markup_free_In body :
  markup_free body = true <->
  ~ In 60 body /\ ~ In 38 body /\ ~ In 0 body /\ ~ In 13 body.
Proof.
  unfold markup_free. rewrite forallb_forall. split.
  - intros H. repeat split; intros Hin; now apply H in Hin.
  - intros (H60 & H38 & H0 & H13) c Hc. unfold plain_char.
    destruct (N.eqb_spec c 60) as [->|_]; [contradiction|].
    destruct (N.eqb_spec c 38) as [->|_]; [contradiction|].
    destruct (N.eqb_spec c 0) as [->|_]; [contradiction|].
    destruct (N.eqb_spec c 13) as [->|_]; [contradiction|reflexivity].
Qed.

(** In a collapsed text the characters of the class are the replacement
    only. *)
Lemma collapsed_class cls r s c :
  collapsed cls r s = true -> In c s -> cls c = true -> c = r.
Proof.
  induction s as [|a s IH]; [contradiction|].
  cbn [collapsed]. intros [Ha Hs]%andb_prop [<-|Hc] Hcls.
  - rewrite Hcls in Ha. apply andb_prop in Ha as [Ha _].
    now apply N.eqb_eq in Ha.
  - now apply IH.
Qed.

(** C1 (as amended): with a parser that returns a body without markup as
    one stripped text node, [get_text] applied to its own output returns
    that output, for every body whose parsed text has no tag opener, no
    ampersand, no NUL, and no opening brace balanced by a closing brace.
    The body itself may hold any markup. *)
Theorem get_text_idempotent_without_json soup_get_text body :
  text_node_parser soup_get_text ->
  ~ In 60 (soup_get_text body) ->
  ~ In 38 (soup_get_text body) ->
  ~ In 0 (soup_get_text body) ->
  json_free (soup_get_text body) = true ->
  get_text soup_get_text (get_text soup_get_text body)
  = get_text soup_get_text body.
Proof.
  intros Hsoup H60 H38 H0 Hjson. unfold get_text.
  pose proof (filter_text_is_normal _ H60 Hjson) as Hn.
  assert (Hchars : forall c, In c (filter_text (soup_get_text body)) ->
                             In c (soup_get_text body) \/ c = 32 \/ c = 10).
  { intros c Hc. exact (filter_text_chars _ _ Hc H60). }
  generalize dependent (filter_text (soup_get_text body)).
  intros y Hn Hchars.
  assert (Hy60 : ~ In 60 y).
  { intros [H|[H|H]]%Hchars; [contradiction|discriminate H|discriminate H]. }
  assert (Hy13 : ~ In 13 y).
  { destruct Hn as (_ & _ & Hl & _). intros H.
    now pose proof (collapsed_class _ _ _ _ Hl H eq_refl). }
  assert (Hy : markup_free y = true).
  { apply (proj2 (markup_free_In y)).
    repeat split; [exact Hy60| | |exact Hy13];
      intros [H|[H|H]]%Hchars;
      solve [contradiction|discriminate H]. }
  rewrite (Hsoup y Hy).
  destruct Hn as (Ha & Hb & Hl & Hj & Hs). rewrite Hs.
  apply filter_text_normal; [exact Hy60|repeat split; assumption].
Qed.

(** A page of two paragraphs is such a body. *)
Lemma get_text_idempotent_without_json_witness :
  get_text Example.soup_get_text
    (get_text Example.soup_get_text Example.two_paragraphs)
  = get_text Example.soup_get_text Example.two_paragraphs.
Proof.
  apply get_text_idempotent_without_json.
  - intros body Hb. unfold Example.soup_get_text. now rewrite Hb.
  - vm_compute. intros H. repeat (destruct H as [H|H]; [discriminate H|]).
    exact H.
  - vm_compute. intros H. repeat (destruct H as [H|H]; [discriminate H|]).
    exact H.
  - vm_compute. intros H. repeat (destruct H as [H|H]; [discriminate H|]).
    exact H.
  - vm_compute. reflexivity.
Defined.

(** C1 (as stated) fails: the space that replaces a brace group comes after
    the runs of spaces were collapsed, and is collapsed by the next pass. *)
Lemma get_text_not_idempotent :
  get_text text_node (lit "a {x} b") = lit "a   b"
  /\ get_text text_node (get_text text_node (lit "a {x} b")) = lit "a b".
Proof. split; vm_compute; reflexivity. Qed.

End normalizer.

Section extension.
Import Spider.

(** C7 (as amended): no URL is refused for its extension.  The extension is
    the first of [.pdf], [.doc], [.docx] that the URL ends with in lower
    case, and the empty string when it ends with none of them. *)
Theorem select_extension_total response_url :
  select_extension response_url =
  Ok (if endswith (lit ".pdf") (lower response_url) then lit ".pdf"
      else if endswith (lit ".doc") (lower response_url) then lit ".doc"
      else if endswith (lit ".docx") (lower response_url) then lit ".docx"
      else lit "").
Proof.
  unfold select_extension, TEXTRACT_EXTENSIONS. cbn [List.filter].
  change (endswith (lit "") (lower response_url)) with true.
  destruct (endswith (lit ".pdf") _); [reflexivity|].
  destruct (endswith (lit ".doc") _); [reflexivity|].
  destruct (endswith (lit ".docx") _); reflexivity.
Qed.

(** C7 (as stated) fails: a document whose URL ends in [.png] is fetched,
    extracted with an empty suffix, and its artifact is written. *)
Lemma unsupported_extension_is_extracted :
  select_extension Example.picture = Ok (lit "")
  /\ (let r := parse_file Example.tlds Example.requests_get Example.textract_all
                 Example.picture Example.seed Example.fs0 in
      fst r = Ok (lit "Our mission") /\ size (files (snd r)) = 1%nat).
Proof. vm_compute. repeat split. Qed.

End extension.

Section domains.
Import Spider.

Lemma split_no_sep sep s : ~ In sep s -> split sep s = [s].
Proof.
  induction s as [|c s IH]; [reflexivity|]. intros Hin. cbn [split].
  destruct (N.eqb_spec c sep) as [->|_]; [exfalso; apply Hin; left; reflexivity|].
  rewrite IH; [reflexivity|]. intros H. apply Hin. right. exact H.
Qed.

Lemma split_nonempty sep s : split sep s <> [].
Proof.
  destruct s as [|a s]; [discriminate|]. cbn [split].
  destruct (a =? sep); [discriminate|]. destruct (split sep s); discriminate.
Qed.

Lemma split_has_two sep s :
  existsb (N.eqb sep) s = true -> exists a b l, split sep s = a :: b :: l.
Proof.
  induction s as [|c s IH]; [discriminate|]. cbn [existsb split].
  rewrite (N.eqb_sym sep c). destruct (c =? sep).
  - intros _. destruct (split sep s) as [|b l] eqn:Hs;
      [destruct (split_nonempty _ _ Hs)|eauto].
  - cbn [orb]. intros (a & b & l & ->)%IH. eauto.
Qed.

Lemma split_has_one sep s :
  existsb (N.eqb sep) s = false -> split sep s = [s].
Proof.
  intros H. apply split_no_sep. intros Hin.
  assert (existsb (N.eqb sep) s = true)
    by (apply existsb_exists; exists sep; split; [exact Hin|apply N.eqb_refl]).
  congruence.
Qed.

Lemma split_once sep a b :
  ~ In sep a -> ~ In sep b -> split sep (a ++ sep :: b) = [a; b].
Proof.
  intros Ha Hb. induction a as [|c a IH].
  - cbn [app split]. rewrite N.eqb_refl, (split_no_sep _ _ Hb). reflexivity.
  - cbn [app split].
    destruct (N.eqb_spec c sep) as [->|_]; [exfalso; apply Ha; left; reflexivity|].
    rewrite IH; [reflexivity|]. intros H. apply Ha. right. exact H.
Qed.

(** A URL without a host has the domain [.], whatever the suffix list. *)
Lemma get_domain_no_host tlds url :
  netloc_of url = [] -> get_domain tlds url = Ok (lit ".").
Proof.
  intros H. unfold get_domain, extract. rewrite H.
  cbn [split map suffix_index join].
  destruct (mem _ tlds); [reflexivity|].
  destruct (mem _ tlds); [reflexivity|].
  destruct (mem _ tlds); reflexivity.
Qed.

(** C8 (as amended): [get_domain] never fails.  It returns the domain and
    the suffix joined by a dot, which is [.] for a URL without a host, and a
    seed row with such a URL is registered like any other. *)
Theorem get_domain_total :
  (forall tlds url,
     get_domain tlds url
     = Ok (domain (extract tlds url) ++ lit "." ++ suffix (extract tlds url)))
  /\ (forall tlds url,
        netloc_of url = [] -> get_domain tlds url = Ok (lit "."))
  /\ (forall tlds (F : Type) (float : str -> result F) self school_id url v,
        ~ In 44 school_id -> ~ In 44 url -> float school_id = Ok v ->
        netloc_of url = [] ->
        add_row tlds F float self [school_id ++ 44 :: url]
        = Ok {| start_urls := start_urls self ++ [url];
                allowed_domains := allowed_domains self ++ [lit "."];
                domain_to_id := <[lit "." := v]> (domain_to_id self) |}).
Proof.
  split; [reflexivity|]. split; [exact get_domain_no_host|].
  intros tlds F float self school_id url v Hid Hurl Hv Hhost.
  unfold add_row. cbn [index nth_error bind].
  rewrite (split_once 44 _ _ Hid Hurl). cbn [bind fst snd].
  rewrite (get_domain_no_host tlds url Hhost). cbn [bind].
  rewrite Hv. reflexivity.
Qed.

(** The URL [/about] has no host. *)
Lemma get_domain_total_witness :
  get_domain Example.tlds (lit "/about") = Ok (lit ".")
  /\ is_ok (add_row Example.tlds N Example.float
              {| start_urls := []; allowed_domains := []; domain_to_id := ∅ |}
              [lit "7" ++ 44 :: lit "/about"]) = true.
Proof.
  destruct get_domain_total as (_ & H2 & H3). split.
  - apply H2. vm_compute. reflexivity.
  - rewrite (H3 Example.tlds N Example.float _ (lit "7") (lit "/about") 7).
    + reflexivity.
    + vm_compute. intros [H|[]]. discriminate H.
    + vm_compute. intuition discriminate.
    + vm_compute. reflexivity.
    + vm_compute. reflexivity.
Defined.

(** C8 (as stated) fails: the empty URL has no host, and [get_domain]
    returns [.] for it; the seed row that carries it is registered. *)
Lemma no_host_is_not_an_error :
  netloc_of (lit "") = []
  /\ get_domain Example.tlds (lit "") = Ok (lit ".")
  /\ init_from_csv Example.tlds N Example.float
       {| start_urls := []; allowed_domains := []; domain_to_id := ∅ |}
       (Some [[lit "NCESSCH,URL"]; [lit "7,"]])
     = Ok {| start_urls := [lit ""]; allowed_domains := [lit "."];
             domain_to_id := {[ lit "." := 7 ]} |}.
Proof. repeat split; vm_compute; reflexivity. Qed.

(** C4: the URL that [parse_items] hands to [parse_file] for the href
    [brochure.pdf] found on the seed page. *)
Lemma relative_href_is_not_resolved :
  get_domain Example.tlds Example.seed = Ok (lit "example.org")
  /\ selector (lit "brochure.pdf") = true
  /\ file_url (lit "example.org") (lit "brochure.pdf")
     = lit "http://example.orgbrochure.pdf"
  /\ file_url (lit "example.org") (lit "brochure.pdf") <> Example.brochure.
Proof. repeat split; vm_compute; try reflexivity. discriminate. Qed.

End domains.

Section links.
Import WebScraper.

Lemma http_is_not_javascript href :
  startswith (lit "http") href = true ->
  startswith (lit "javascript") href = false.
Proof.
  destruct href as [|c href]; [discriminate|]. cbn [lit].
  change (startswith (104 :: lit "ttp") (c :: href) = true ->
          startswith (106 :: lit "avascript") (c :: href) = false).
  cbn [startswith]. destruct (N.eqb_spec 104 c) as [<-|_]; [|discriminate].
  reflexivity.
Qed.

Lemma gatherName_dash self : is_ok (gatherName self (lit "-")) = true.
Proof.
  unfold gatherName. change (str_eqb (lit "-") (lit "/")) with false.
  destruct (str_eqb (type self) (lit "html")).
  - destruct (split 47 _) as [|w [|w' ws]]; reflexivity.
  - destruct (str_eqb (type self) (lit "JavaScript")); reflexivity.
Qed.

Lemma gatherName_fields self delimiter l :
  gatherName self delimiter = Ok l ->
  type l = type self /\ index l = index self.
Proof.
  unfold gatherName. destruct (str_eqb delimiter _); [discriminate|].
  destruct (str_eqb (type self) (lit "html")).
  - destruct (split 47 _) as [|w [|w' ws]]; intros [= <-]; split; reflexivity.
  - destruct (str_eqb (type self) (lit "JavaScript"));
      intros [= <-]; split; reflexivity.
Qed.

(** What the constructor does with a href. *)
Lemma Link_init_outcome href mainURL matcher i :
  match Link_init href mainURL matcher i with
  | Ok _ => dotless href = false
  | Raise e =>
      (dotless href = true /\ e = IndexError)
      \/ (dotless href = false /\ e = LinkException 0)
  end.
Proof.
  unfold Link_init, dotless.
  destruct (startswith (lit "http") href) eqn:Hh; cbn [andb].
  - destruct (existsb (N.eqb 46) href) eqn:Hdot; cbn [negb].
    + destruct (split_has_two _ _ Hdot) as (a & b & l & ->).
      cbn [Py.index nth_error bind].
      destruct (str_eqb b matcher && _).
      * pose proof (gatherName_dash
                      {| type := lit "html"; hrefAttribute := href;
                         fallbackURL := mainURL; index := Some 0%Z;
                         matcher := matcher; name := []; text := None |}) as Hn.
        destruct (gatherName _ _); [reflexivity|discriminate Hn].
      * rewrite (http_is_not_javascript _ Hh). right. auto.
    + rewrite (split_has_one _ _ Hdot). cbn [Py.index nth_error bind]. left. auto.
  - cbn [bind]. destruct (startswith (lit "javascript") href).
    + pose proof (gatherName_dash
                    {| type := lit "JavaScript"; hrefAttribute := href;
                       fallbackURL := mainURL; index := Some i;
                       matcher := matcher; name := []; text := None |}) as Hn.
      destruct (gatherName _ _); [reflexivity|discriminate Hn].
    + right. auto.
Qed.

(** C6 (as amended): a link is accepted exactly when its href starts with
    [http], has the matcher as its second component between dots and is
    longer than the calling URL, or when it starts with [javascript].  A
    href that is not accepted raises [IndexError] when it starts with
    [http] and has no dot, and [LinkException(0)] otherwise. *)
Theorem Link_init_accepts hrefAttribute callingURL matcher index :
  is_ok (Link_init hrefAttribute callingURL matcher index) =
  ((startswith (lit "http") hrefAttribute
    && match Py.index (split 46 hrefAttribute) 1 with
       | Ok label => str_eqb label matcher
       | Raise _ => false
       end
    && (length callingURL <? length hrefAttribute)%nat)
   || startswith (lit "javascript") hrefAttribute)
  /\ match Link_init hrefAttribute callingURL matcher index with
     | Ok _ => True
     | Raise e =>
         e = if dotless hrefAttribute then IndexError else LinkException 0
     end.
Proof.
  split.
  - unfold Link_init.
    destruct (startswith (lit "http") hrefAttribute) eqn:Hh; cbn [andb].
    + rewrite (http_is_not_javascript _ Hh), orb_false_r.
      destruct (Py.index (split 46 hrefAttribute) 1) as [label|e];
        [|reflexivity].
      cbn [bind].
      destruct (str_eqb label matcher
                && (length callingURL <? length hrefAttribute)%nat);
        [apply gatherName_dash|reflexivity].
    + cbn [bind orb].
      destruct (startswith (lit "javascript") hrefAttribute);
        [apply gatherName_dash|reflexivity].
  - pose proof (Link_init_outcome hrefAttribute callingURL matcher index) as H.
    destruct (Link_init hrefAttribute callingURL matcher index) as [l|e];
      [exact I|].
    destruct H as [[-> ->]|[-> ->]]; reflexivity.
Qed.

(** C6 (as stated) fails both ways: the seed page's own URL is in the
    allowed domain and is rejected, a page of [example.com] is outside it
    and is accepted. *)
Lemma Link_init_is_not_a_domain_check :
  School_init (lit "1") (lit "Example") (lit "Main St") Example.seed
  = Ok {| id := lit "1"; school_name := lit "Example"; address := lit "Main St";
          mainURL := Example.seed; school_matcher := lit "example";
          filePath := lit "results/Example" |}
  /\ Spider.get_domain Example.tlds Example.seed = Ok (lit "example.org")
  /\ Link_init Example.seed Example.seed (lit "example") 0
     = Raise (LinkException 0)
  /\ Spider.get_domain Example.tlds (lit "http://www.example.com/about")
     = Ok (lit "example.com")
  /\ is_ok (Link_init (lit "http://www.example.com/about") Example.seed
              (lit "example") 1) = true.
Proof. repeat split; vm_compute; reflexivity. Qed.

Lemma list_index_raises n i e : list_index n i = Raise e -> e = IndexError.
Proof.
  unfold list_index. destruct (_ && _)%bool; [discriminate|].
  intros [= <-]. reflexivity.
Qed.

Lemma gatherText_raises driver self page c x :
  gatherText driver self page c = Raise x -> x = WebDriverException.
Proof.
  unfold gatherText. destruct (source_ok driver page c); [discriminate|].
  intros [= <-]. reflexivity.
Qed.

Lemma click_first_raises driver self page i x :
  click_first driver self page i = Raise x ->
  x = WebDriverException \/ x = IndexError.
Proof.
  unfold click_first. destruct (find_ok driver page); [|intros [= <-]; auto].
  destruct (list_index _ i) as [e|y] eqn:He; cbn [bind].
  - destruct (click_ok driver page e); [|intros [= <-]; auto].
    intros ->%gatherText_raises. auto.
  - apply list_index_raises in He as ->. intros [= <-]. auto.
Qed.

Lemma click_again_raises driver self page e x self' :
  click_again driver self page e = (Raise x, self') ->
  x = WebDriverException.
Proof.
  unfold click_again. destruct (retry_ok driver page e); [|intros [= <- _]; auto].
  destruct (gatherText driver self page (Some e)) as [l|y] eqn:Hg.
  - destruct (close_ok driver page); [discriminate|]. intros [= <- _]. auto.
  - apply gatherText_raises in Hg as ->. intros [= <- _]. auto.
Qed.

Lemma click_handler_raises driver self page i x :
  fst (click_handler driver self page i) = Raise x ->
  x = WebDriverException \/ x = IndexError \/ x = LinkException 1.
Proof.
  unfold click_handler.
  destruct (refind_ok driver page); [|intros [= <-]; auto].
  destruct (list_index _ i) as [e|y] eqn:He.
  - destruct (hover_ok driver page e); [|intros [= <-]; auto].
    destruct (click_again driver self page e) as [[u|y] l] eqn:Ha;
      [discriminate|].
    apply click_again_raises in Ha as ->.
    destruct (reclose_ok driver page); intros [= <-]; auto.
  - apply list_index_raises in He as ->. intros [= <-]. auto.
Qed.

(** C10: a constructed link is of type [html] or [JavaScript] and has an
    index, so that [click] never raises [LinkException(2)] on it. *)
Theorem constructed_link_has_index hrefAttribute callingURL matcher i l :
  Link_init hrefAttribute callingURL matcher i = Ok l ->
  (type l = lit "html" \/ type l = lit "JavaScript")
  /\ index l <> None
  /\ forall driver, fst (click driver l) <> Raise (LinkException 2).
Proof.
  unfold Link_init. intros H.
  assert (Hl : (type l = lit "html" \/ type l = lit "JavaScript")
               /\ index l <> None).
  { destruct (startswith (lit "http") hrefAttribute).
    - destruct (Py.index (split 46 hrefAttribute) 1) as [label|e];
        [|discriminate H]. cbn [bind] in H.
      destruct (str_eqb label matcher && _).
      + apply gatherName_fields in H as [-> ->]. split; [left; reflexivity|discriminate].
      + destruct (startswith (lit "javascript") hrefAttribute); [|discriminate H].
        apply gatherName_fields in H as [-> ->]. split; [right; reflexivity|discriminate].
    - cbn [bind] in H.
      destruct (startswith (lit "javascript") hrefAttribute); [|discriminate H].
      apply gatherName_fields in H as [-> ->]. split; [right; reflexivity|discriminate]. }
  destruct Hl as [Ht Hi]. split; [exact Ht|]. split; [exact Hi|].
  intros driver. unfold click, prepDriver, driver_get.
  destruct (startup driver); cbn [fst]; try discriminate.
  - destruct (str_eqb (type l) (lit "html")).
    + destruct (get_ok driver _); [|discriminate].
      destruct (gatherText driver l _ None) as [l'|x] eqn:Hg;
        [|apply gatherText_raises in Hg as ->; discriminate].
      destruct (close_ok driver _); discriminate.
    + destruct (str_eqb (type l) (lit "JavaScript")); [|discriminate].
      destruct (index l) as [j|]; [|contradiction].
      destruct (get_ok driver _); [|discriminate].
      destruct (click_first driver l _ j) as [l'|x] eqn:Hf; [discriminate|].
      apply click_first_raises in Hf as [-> | ->]; [|discriminate].
      intros [Hx|[Hx|Hx]]%click_handler_raises; discriminate Hx.
  - destruct (str_eqb (type l) (lit "html")); [discriminate|].
    destruct (str_eqb (type l) (lit "JavaScript")); [|discriminate].
    destruct (index l) as [j|]; [discriminate|contradiction].
Qed.

(** A [javascript:] link of the seed page, clicked in the example browser. *)
Lemma constructed_link_has_index_witness :
  exists l,
    Link_init (lit "javascript:void(0)") Example.seed (lit "example") 2 = Ok l
    /\ index l <> None
    /\ fst (click Example.headless l) <> Raise (LinkException 2).
Proof.
  eexists. split; [vm_compute; reflexivity|].
  refine (let H := constructed_link_has_index
                     (lit "javascript:void(0)") Example.seed (lit "example") 2 _ _ in _).
  split; [exact (proj1 (proj2 H))|exact (proj2 (proj2 H) Example.headless)].
  Unshelve. vm_compute. reflexivity.
Defined.

End links.

Section seeds.
Import Spider WebScraper.

Lemma index_nth {A} (l : list A) i j a d :
  (i <= j)%nat -> nth_error l j = Some a -> Py.index l i = Ok (nth i l d).
Proof.
  intros Hij Hj. unfold Py.index.
  assert (Hlt : (i < length l)%nat).
  { apply Nat.le_lt_trans with j; [exact Hij|].
    apply nth_error_Some. rewrite Hj. discriminate. }
  rewrite (nth_error_nth' l d Hlt). reflexivity.
Qed.

(** What the constructor of [School] does with a row of five cells or
    more. *)
Lemma School_init_row (row : list str) (u : str) :
  nth_error row 4 = Some u ->
  School_init (nth 0 row []) (nth 1 row []) (nth 2 row []) u
  = if without_url row then Raise ValueError
    else if unreadable row then Raise IndexError
    else Ok (school_of row).
Proof.
  intros E. unfold without_url, unreadable, School_init. rewrite E.
  assert (Hu : nth 4 row [] = u) by (apply nth_error_nth, E).
  rewrite Hu. destruct (str_eqb u (lit "0")); [reflexivity|]. cbn [negb andb].
  destruct (existsb (N.eqb 46) u) eqn:Hdot; cbn [negb].
  - destruct (split_has_two _ _ Hdot) as (a & b & l & Hs).
    rewrite Hs. cbn [Py.index nth_error bind]. unfold school_of.
    rewrite Hu, Hs. reflexivity.
  - rewrite (split_has_one _ _ Hdot). reflexivity.
Qed.

Lemma unreadable_has_url (row : list str) :
  unreadable row = true -> without_url row = true ->
  nth_error row 4 = None.
Proof.
  unfold unreadable, without_url. destruct (nth_error row 4) as [u|] eqn:E;
    [|reflexivity].
  assert (Hu : nth 4 row [] = u) by (apply nth_error_nth, E).
  rewrite Hu. intros H1 H2. rewrite H2 in H1. discriminate H1.
Qed.

Lemma read_rows_spec (rows : list (nat * list str)) : forall schools,
  read_rows rows schools
  = if existsb unreadable (data_rows rows) then Raise IndexError
    else Ok (schools
             ++ map school_of
                  (List.filter (fun row => negb (without_url row))
                     (data_rows rows))).
Proof.
  unfold data_rows.
  induction rows as [|[line_num row] rows IH]; intros schools.
  - cbn [read_rows List.filter map existsb]. rewrite app_nil_r. reflexivity.
  - cbn [read_rows List.filter fst].
    destruct (negb (Nat.eqb line_num 1)); [|apply IH].
    cbn [map snd existsb List.filter].
    destruct (nth_error row 4) as [u|] eqn:E.
    + rewrite (index_nth row 0 4 u [] ltac:(lia) E).
      rewrite (index_nth row 1 4 u [] ltac:(lia) E).
      rewrite (index_nth row 2 4 u [] ltac:(lia) E).
      rewrite (index_nth row 4 4 u [] ltac:(lia) E).
      cbn [bind].
      assert (Hu : nth 4 row [] = u) by (apply nth_error_nth, E).
      rewrite Hu, (School_init_row row u E).
      destruct (without_url row) eqn:Hw; cbn [negb].
      * assert (Hr : unreadable row = false).
        { destruct (unreadable row) eqn:Hr; [|reflexivity].
          rewrite (unreadable_has_url row Hr Hw) in E. discriminate E. }
        rewrite Hr. cbn [orb]. apply IH.
      * destruct (unreadable row); [reflexivity|]. cbn [orb]. rewrite IH.
        destruct (existsb unreadable _); [reflexivity|].
        cbn [map]. rewrite <- app_assoc. reflexivity.
    + assert (Hr : unreadable row = true) by (unfold unreadable; now rewrite E).
      rewrite Hr. cbn [orb]. unfold Py.index. rewrite E.
      destruct (nth_error row 0), (nth_error row 1), (nth_error row 2);
        reflexivity.
Qed.

Lemma add_row_malformed tlds F float self raw_row :
  malformed float raw_row -> is_ok (add_row tlds F float self raw_row) = false.
Proof.
  unfold malformed, add_row. destruct raw_row as [|csv_row rest]; [reflexivity|].
  cbn [Py.index nth_error bind].
  destruct (split 44 csv_row) as [|a [|b [|c l]]]; try reflexivity.
  cbn [bind fst snd]. unfold get_domain. cbn [bind].
  destruct (float a); [discriminate|reflexivity].
Qed.

Lemma add_rows_malformed tlds F float rows : forall self bad,
  In bad rows -> malformed float bad ->
  is_ok (add_rows tlds F float self rows) = false.
Proof.
  induction rows as [|row rows IH]; intros self bad Hin Hbad; [contradiction|].
  cbn [add_rows]. destruct Hin as [->|Hin].
  - pose proof (add_row_malformed tlds F float self bad Hbad) as H.
    destruct (add_row tlds F float self bad); [discriminate H|reflexivity].
  - destruct (add_row tlds F float self row) as [self'|e]; [|reflexivity].
    cbn [bind]. apply (IH self' bad Hin Hbad).
Qed.

(** C9 (as amended): [readCSV] passes over what [csv.reader] returns at
    line 1 and over each row whose URL field is [0], and returns the
    schools of the other rows, in their order; it raises [IndexError] when
    one of the rows it reads has fewer than five cells or a URL other than
    [0] without a dot.  [init_from_csv] skips nothing, and produces no
    spider when a row after the header is malformed. *)
Theorem seed_rows :
  (forall rows,
     readCSV rows
     = if existsb unreadable (data_rows rows) then Raise IndexError
       else Ok (map school_of
                  (List.filter (fun row => negb (without_url row))
                     (data_rows rows))))
  /\ (forall tlds (F : Type) (float : str -> result F) self header rows bad,
        In bad rows -> malformed float bad ->
        is_ok (init_from_csv tlds F float self (Some (header :: rows))) = false).
Proof.
  split.
  - intros rows. unfold readCSV. apply read_rows_spec.
  - intros tlds F float self header rows bad Hin Hbad.
    cbn [init_from_csv tl]. apply (add_rows_malformed _ _ _ _ _ bad Hin Hbad).
Qed.

(** A table whose second school has the URL [0], and a table whose second
    row has no school id. *)
Lemma seed_rows_witness :
  readCSV [(1, map lit ["id"; "name"; "address"; "phone"; "url"]);
           (2, map lit ["1"; "Example"; "Main St"; "555"; "http://www.example.org/"]);
           (3, map lit ["2"; "Closed"; "Side St"; "556"; "0"]);
           (4, map lit ["3"; "Other"; "High St"; "557"; "http://www.other.org/"])]%nat
  = Ok [school_of (map lit ["1"; "Example"; "Main St"; "555"; "http://www.example.org/"]);
        school_of (map lit ["3"; "Other"; "High St"; "557"; "http://www.other.org/"])]
  /\ is_ok (init_from_csv Example.tlds N Example.float
              {| start_urls := []; allowed_domains := []; domain_to_id := ∅ |}
              (Some [[lit "NCESSCH,URL"]; [lit "1,http://www.example.org/"];
                     [lit "http://www.other.org/"]])) = false.
Proof.
  destruct seed_rows as [H1 H2]. split.
  - rewrite H1. vm_compute. reflexivity.
  - apply (H2 _ _ _ _ _ _ [lit "http://www.other.org/"]).
    + right. left. reflexivity.
    + vm_compute. exact I.
Defined.

(** C9 (as stated) fails: the second row of the table has no school id;
    [init_from_csv] raises on it, and the third row is never read. *)
Lemma malformed_row_stops_ingestion :
  init_from_csv Example.tlds N Example.float
    {| start_urls := []; allowed_domains := []; domain_to_id := ∅ |}
    (Some [[lit "NCESSCH,URL"]; [lit "1,http://www.example.org/"];
           [lit "http://www.other.org/"]; [lit "3,http://www.third.org/"]])
  = Raise ValueError.
Proof. vm_compute. reflexivity. Qed.

End seeds.

Section documents.
Import Spider.
Variable tlds : list str.
Variable requests_get : str -> result HrefResponse.
Variable textract_process : TempFile -> result (list N).

Local Abbreviation parse_file := (Spider.parse_file tlds requests_get textract_process).
Local Abbreviation extracted := (Spider.extracted requests_get textract_process).
Local Abbreviation written := (Spider.written tlds requests_get).

Lemma bindM_ok {A B} (m : M A) (k : A -> M B) w b w' :
  bindM m k w = (Ok b, w') ->
  exists a w1, m w = (Ok a, w1) /\ k a w1 = (Ok b, w').
Proof.
  unfold bindM. destruct (m w) as [[a|e] w1]; [eauto|discriminate].
Qed.

Lemma lift_ok {A} (r : result A) w a w1 :
  lift r w = (Ok a, w1) -> r = Ok a /\ w1 = w.
Proof. unfold lift. intros [= -> ->]. split; reflexivity. Qed.

Lemma guarded_mkdir_ok p w w' :
  (if is_dir w p then ret tt else mkdir p) w = (Ok tt, w') ->
  is_dir w' p = true /\ files w' = files w /\ temps w' = temps w.
Proof.
  destruct (is_dir w p) eqn:Hd.
  - intros [= <-]. auto.
  - unfold mkdir. rewrite Hd.
    destruct (_ || _); [discriminate|].
    destruct (is_dir w (parent p)); [|discriminate].
    intros [= <-]. cbn [files temps]. repeat split.
    unfold is_dir. cbn [dirs]. apply orb_true_intro. right.
    apply bool_decide_eq_true_2. set_solver.
Qed.

Lemma open_w_ok p w f w' :
  open_w p w = (Ok f, w') ->
  f = norm p /\ dirs w' = dirs w /\ files w' = <[norm p := []]> (files w)
  /\ temps w' = temps w.
Proof.
  unfold open_w. cbv zeta.
  destruct (negb _); [discriminate|].
  destruct (_ || _); [discriminate|].
  intros [= <- <-]. auto.
Qed.

(** A write that returns adds its data to the file. *)
Lemma write_appends f data w w' c :
  write f data w = (Ok tt, w') ->
  files w !! f = Some c ->
  files w' !! f = Some (c ++ data)
  /\ dirs w' = dirs w /\ temps w' = temps w.
Proof.
  unfold write. destruct (write_error w f data); [discriminate|].
  intros [= <-] Hc. cbn [files dirs temps].
  rewrite lookup_insert_eq, Hc. auto.
Qed.

Lemma parse_file_ok href parent_url w text w' :
  parse_file href parent_url w = (Ok text, w') ->
  extracted href text /\ written href parent_url text w'
  /\ temps w' = delete (next_temp w) (temps w).
Proof.
  unfold Spider.parse_file. intros H.
  apply bindM_ok in H as (response_href & w1 & [Hget ->]%lift_ok & H).
  apply bindM_ok in H as (extension & w1 & [Hext ->]%lift_ok & H).
  apply bindM_ok in H as (h & w1 & [= <- <-] & H).
  apply bindM_ok in H as ([] & w2 & H1 & H).
  unfold tmp_write in H1. cbn [temps] in H1.
  rewrite lookup_insert_eq in H1. injection H1 as <-.
  apply bindM_ok in H as (raw & w3 & H1 & H).
  unfold textract in H1. cbn [temps] in H1.
  rewrite lookup_insert_eq in H1. injection H1 as Hraw <-.
  cbn [tmp_suffix tmp_data] in Hraw. change ([] ++ content response_href) with (content response_href) in Hraw.
  apply bindM_ok in H as (decoded & w1 & [Hdec ->]%lift_ok & H).
  cbv zeta in H.
  apply bindM_ok in H as ([] & w4 & [= <-] & H).
  apply bindM_ok in H as (base_url & w1 & [Hbase ->]%lift_ok & H).
  apply bindM_ok in H as (path & w1 & [Hpath ->]%lift_ok & H).
  apply bindM_ok in H as (d & w5 & [= <- <-] & H).
  apply bindM_ok in H as ([] & w6 & (Hdir & _ & Ht6)%guarded_mkdir_ok & H).
  apply bindM_ok in H as (f & w7 & (-> & Hd7 & Hf7 & Ht7)%open_w_ok & H).
  assert (Hc7 : files w7
                !! norm (lit "files" ++ lit "/" ++ base_url ++ lit "/"
                         ++ replace extension (lit ".txt") (after_last 47 path))
                = Some []) by (rewrite Hf7; apply lookup_insert_eq).
  apply bindM_ok in H as ([] & w8 & H8 & H).
  apply (write_appends _ _ _ _ _ H8) in Hc7 as (Hc8 & Hd8 & Ht8).
  apply bindM_ok in H as ([] & w9 & H9 & H).
  apply (write_appends _ _ _ _ _ H9) in Hc8 as (Hc9 & Hd9 & Ht9).
  apply bindM_ok in H as ([] & w10 & H10 & H).
  apply (write_appends _ _ _ _ _ H10) in Hc9 as (Hc10 & Hd10 & Ht10).
  apply bindM_ok in H as ([] & w11 & H11 & H).
  apply (write_appends _ _ _ _ _ H11) in Hc10 as (Hc11 & Hd11 & Ht11).
  apply bindM_ok in H as ([] & w12 & H12 & H).
  apply (write_appends _ _ _ _ _ H12) in Hc11 as (Hc12 & Hd12 & Ht12).
  apply bindM_ok in H as ([] & w13 & H13 & H).
  apply (write_appends _ _ _ _ _ H13) in Hc12 as (Hc13 & Hd13 & Ht13).
  apply bindM_ok in H as ([] & w14 & H14 & H).
  apply (write_appends _ _ _ _ _ H14) in Hc13 as (Hc14 & Hd14 & Ht14).
  apply bindM_ok in H as ([] & w15 & H15 & H).
  apply (write_appends _ _ _ _ _ H15) in Hc14 as (Hc15 & Hd15 & Ht15).
  injection H as <- <-.
  split; [|split].
  - exists response_href, extension, raw, decoded. auto.
  - exists response_href, extension, base_url, path.
    repeat (split; [assumption|]). split.
    + unfold is_dir in *.
      rewrite Hd15, Hd14, Hd13, Hd12, Hd11, Hd10, Hd9, Hd8, Hd7. exact Hdir.
    + rewrite Hc15, app_nil_l, <- !app_assoc. reflexivity.
  - rewrite Ht15, Ht14, Ht13, Ht12, Ht11, Ht10, Ht9, Ht8, Ht7, Ht6. cbn [temps].
    rewrite insert_insert_eq, delete_insert_eq. reflexivity.
Qed.

(** C5: what [parse_file] writes when it returns.  The artifact is the
    file [files/<domain>/<name>], where [<domain>] is [get_domain] of the
    parent page and [<name>] is the last component of the path of the href
    with the extension replaced by [.txt]; the directory exists; and the
    file holds the [Base URL] line, the [Parent URL] line, the [File URL]
    line, the extracted text, and two newlines.  The [File URL] line
    carries the URL of the response in upper case, where the docstring of
    [parse_file] shows it as it was fetched. *)
Theorem artifact_of_parse_file href parent_url w text w' :
  parse_file href parent_url w = (Ok text, w') ->
  exists response_href extension base_url path,
    requests_get href = Ok response_href
    /\ select_extension (resp_url response_href) = Ok extension
    /\ get_domain tlds parent_url = Ok base_url
    /\ urlparse_path href = Ok path
    /\ is_dir w' (lit "files" ++ lit "/" ++ base_url) = true
    /\ files w'
       !! norm (lit "files" ++ lit "/" ++ base_url ++ lit "/"
                ++ replace extension (lit ".txt") (after_last 47 path))
       = Some (lit "Base URL: " ++ base_url ++ [10]
               ++ lit "Parent URL: " ++ parent_url ++ [10]
               ++ lit "File URL: " ++ upper (resp_url response_href) ++ [10]
               ++ text ++ [10; 10]).
Proof.
  intros H. apply parse_file_ok in H as (_ & H & _). exact H.
Qed.

(** C2: when the backend raises on the fetched document, [parse_file]
    raises the same error, and the temporary file that was made for the
    document is still there, with the bytes of the document in it. *)
Theorem temporary_file_outlives_error href parent_url w response_href extension e :
  requests_get href = Ok response_href ->
  select_extension (resp_url response_href) = Ok extension ->
  textract_process {| tmp_suffix := extension;
                      tmp_data := content response_href |} = Raise e ->
  fst (parse_file href parent_url w) = Raise e
  /\ temps (snd (parse_file href parent_url w)) !! next_temp w
     = Some {| tmp_suffix := extension; tmp_data := content response_href |}.
Proof.
  intros Hget Hext Hraw.
  unfold Spider.parse_file, bindM, lift, NamedTemporaryFile,
    tmp_write, textract.
  rewrite Hget, Hext. cbn [temps]. rewrite lookup_insert_eq.
  cbn [temps tmp_suffix tmp_data]. rewrite lookup_insert_eq.
  change ([] ++ content response_href) with (content response_href).
  rewrite Hraw. cbn [fst snd temps]. split; [reflexivity|].
  apply lookup_insert_eq.
Qed.

Lemma parse_files_ok domain parent_url hrefs : forall w r w',
  parse_files tlds requests_get textract_process domain parent_url hrefs w
  = (Ok r, w') ->
  fst r = map (file_url domain) hrefs
  /\ Forall2 extracted (fst r) (snd r).
Proof.
  induction hrefs as [|href hrefs IH]; intros w r w' H.
  - injection H as <- <-. split; [reflexivity|constructor].
  - cbn [parse_files] in H.
    apply bindM_ok in H as (t & w1 & [Ht _]%parse_file_ok & H).
    apply bindM_ok in H as (r' & w2 & [Hr HF]%IH & H).
    injection H as <- <-. cbn [fst snd map]. split.
    + rewrite Hr. reflexivity.
    + constructor; assumption.
Qed.

(** C3 (as amended): [parse_items] yields a record only when every document
    of the page was fetched and extracted; the record then lists the
    documents in the order of the page, each with its text.  A document on
    which the backend fails leaves an error and no record. *)
Theorem record_has_every_document soup_get_text (F : Type)
    (self : Spider F) response w item w' :
  parse_items tlds requests_get textract_process soup_get_text F self response w
  = (Ok item, w') ->
  exists domain,
    get_domain tlds (url response) = Ok domain
    /\ file_urls item
       = map (file_url domain) (List.filter selector (a_href response))
    /\ Forall2 extracted
         (file_urls item) (file_text item).
Proof.
  unfold parse_items. intros H.
  apply bindM_ok in H as (domain & w1 & [Hdom ->]%lift_ok & H).
  apply bindM_ok in H as (i & w1 & [_ ->]%lift_ok & H).
  apply bindM_ok in H as (r & w1 & [Hr HF]%parse_files_ok & H).
  injection H as <- <-. cbn [file_urls file_text].
  exists domain. repeat split; assumption.
Qed.

End documents.

Section document_examples.
Import Spider.

(** The artifact of the brochure of the seed page. *)
Lemma artifact_of_parse_file_witness :
  let w' := snd (parse_file Example.tlds Example.requests_get Example.textract_all
                   Example.brochure Example.seed Example.fs0) in
  exists response_href extension base_url path,
    Example.requests_get Example.brochure = Ok response_href
    /\ select_extension (resp_url response_href) = Ok extension
    /\ get_domain Example.tlds Example.seed = Ok base_url
    /\ urlparse_path Example.brochure = Ok path
    /\ is_dir w' (lit "files" ++ lit "/" ++ base_url) = true
    /\ files w'
       !! norm (lit "files" ++ lit "/" ++ base_url ++ lit "/"
                ++ replace extension (lit ".txt") (after_last 47 path))
       = Some (lit "Base URL: " ++ base_url ++ [10]
               ++ lit "Parent URL: " ++ Example.seed ++ [10]
               ++ lit "File URL: " ++ upper (resp_url response_href) ++ [10]
               ++ lit "Our mission" ++ [10; 10]).
Proof.
  apply (artifact_of_parse_file Example.tlds Example.requests_get
           Example.textract_all Example.brochure Example.seed Example.fs0).
  vm_compute. reflexivity.
Defined.

(** C5, at the brochure of the seed page: the [File URL] line of the
    artifact [files/example.org/brochure.txt] carries the URL in upper
    case, not as it was fetched. *)
Lemma artifact_is_not_header_and_text :
  let r := parse_file Example.tlds Example.requests_get Example.textract_all
             Example.brochure Example.seed Example.fs0 in
  fst r = Ok (lit "Our mission")
  /\ files (snd r) !! lit "files/example.org/brochure.txt"
     = Some (lit "Base URL: example.org" ++ [10]
             ++ lit "Parent URL: http://www.example.org/" ++ [10]
             ++ lit "File URL: HTTP://WWW.EXAMPLE.ORG/BROCHURE.PDF" ++ [10]
             ++ lit "Our mission" ++ [10; 10])
  /\ files (snd r) !! lit "files/example.org/brochure.txt"
     <> Some (lit "Base URL: example.org" ++ [10]
              ++ lit "Parent URL: http://www.example.org/" ++ [10]
              ++ lit "File URL: http://www.example.org/brochure.pdf" ++ [10]
              ++ lit "Our mission").
Proof. vm_compute. repeat split. discriminate. Qed.

(** The brochure, with the backend that cannot read it: the temporary file
    of handle 0 is left with the suffix [.pdf] and the bytes of the
    brochure. *)
Lemma temporary_file_outlives_error_witness :
  let r := parse_file Example.tlds Example.requests_get Example.textract_process
             Example.brochure Example.seed Example.fs0 in
  fst r = Raise TextractError
  /\ temps (snd r) !! 0%nat
     = Some {| tmp_suffix := lit ".pdf"; tmp_data := lit "%PDF brochure" |}.
Proof.
  apply (temporary_file_outlives_error Example.tlds Example.requests_get
           Example.textract_process Example.brochure Example.seed Example.fs0
           {| resp_url := Example.brochure; content := lit "%PDF brochure" |}
           (lit ".pdf") TextractError); vm_compute; reflexivity.
Defined.

(** The seed page, with the backend that reads every file. *)
Lemma record_has_every_document_witness :
  exists item,
    fst (parse_items Example.tlds Example.requests_get Example.textract_all
           text_node N Example.spider Example.page Example.fs0) = Ok item
    /\ file_urls item = [Example.report; Example.brochure]
    /\ Forall2 (extracted Example.requests_get Example.textract_all)
         (file_urls item) (file_text item).
Proof.
  eexists. split; [vm_compute; reflexivity|]. split; [reflexivity|].
  edestruct (record_has_every_document Example.tlds Example.requests_get
               Example.textract_all text_node N Example.spider
               Example.page Example.fs0) as (domain & _ & _ & H);
    [vm_compute; reflexivity|exact H].
Defined.

(** C3 (as stated) fails: the backend reads the report and fails on the
    brochure; the page then has no record at all, although the report was
    extracted and its artifact written. *)
Lemma backend_failure_leaves_no_record :
  let r := parse_items Example.tlds Example.requests_get Example.textract_process
             text_node N Example.spider Example.page Example.fs0 in
  fst (parse_file Example.tlds Example.requests_get Example.textract_process
         Example.report Example.seed Example.fs0) = Ok (lit "Annual report")
  /\ fst r = Raise TextractError
  /\ is_Some (files (snd r) !! lit "files/example.org/report.txt").
Proof. vm_compute. repeat split. eexists. reflexivity. Qed.

End document_examples.

(** * Further properties *)

Section normalizer_output.
Import Spider.

(** A character of the class that is left by a collapse is the replacement. *)
Lemma sub_runs_class cls r s c :
  In c (sub_runs cls [r] s) -> cls c = true -> c = r.
Proof.
  induction s as [|a s IH]; [contradiction|].
  cbn [sub_runs]. intros Hin Hc. destruct (cls a) eqn:Ha.
  - destruct s as [|a' s]; [destruct Hin as [<-|[]]; reflexivity|].
    destruct (cls a').
    + apply IH; assumption.
    + destruct Hin as [<-|Hin]; [reflexivity|apply IH; assumption].
  - destruct Hin as [<-|Hin]; [congruence|apply IH; assumption].
Qed.

Lemma sub_json_head c s :
  match sub_json_from 0 (c :: s) with
  | [] => False
  | c' :: _ => c' = c \/ c' = 32
  end.
Proof.
  cbn [sub_json_from]. destruct (c =? 123); [|left; reflexivity].
  destruct (balanced_end 0 s); [right|left]; reflexivity.
Qed.

(** The removal of JSON keeps the runs of a class collapsed, when the space
    is not of the class. *)
Lemma collapsed_sub_json cls r s : forall k,
  cls 32 = false ->
  collapsed cls r s = true -> collapsed cls r (sub_json_from k s) = true.
Proof.
  induction s as [|c s IH]; intros k H32 H; [reflexivity|].
  cbn [collapsed] in H. apply andb_prop in H as [Hc Hs].
  destruct k as [|k]; [|cbn [sub_json_from]; apply IH; assumption].
  assert (Hkeep : collapsed cls r (c :: sub_json_from 0 s) = true).
  { cbn [collapsed]. rewrite (IH 0%nat H32 Hs), andb_true_r.
    destruct (cls c); [|reflexivity].
    apply andb_prop in Hc as [-> Hn]. cbn [andb].
    destruct s as [|c' s]; [reflexivity|].
    pose proof (sub_json_head c' s) as Hh.
    destruct (sub_json_from 0 (c' :: s)) as [|c'' t]; [reflexivity|].
    destruct Hh as [->| ->]; [exact Hn|rewrite H32; reflexivity]. }
  cbn [sub_json_from]. destruct (c =? 123); [|exact Hkeep].
  destruct (balanced_end 0 s) as [n|]; [|exact Hkeep].
  cbn [collapsed]. rewrite H32. cbn [andb]. apply IH; assumption.
Qed.

Lemma Forall_strip (P : N -> Prop) s : Forall P s -> Forall P (strip s).
Proof.
  rewrite !List.Forall_forall. intros H c Hc%In_strip. apply H, Hc.
Qed.

(** X1: whatever the parser returns, the text of [get_text] is ASCII, has no
    white space at either end, has no tab, no vertical bar, no carriage
    return, no form feed and no vertical tab, and never has two newlines in
    a row. *)
Theorem get_text_output soup_get_text body :
  Forall (fun c => c < 128) (get_text soup_get_text body)
  /\ strip (get_text soup_get_text body) = get_text soup_get_text body
  /\ Forall (fun c => c <> 9 /\ c <> 124 /\ c <> 13 /\ c <> 12 /\ c <> 11)
       (get_text soup_get_text body)
  /\ collapsed linebreak 10 (get_text soup_get_text body) = true.
Proof.
  unfold get_text, filter_text. cbv zeta.
  set (t := strip_inline_tags (soup_get_text body)).
  change (lit " ") with [32].
  set (u := sub_runs blank [32] (ascii_ignore t)).
  set (v := sub_runs linebreak [10] u).
  split; [|split; [|split]].
  - apply Forall_strip, List.Forall_forall. intros c Hc.
    apply In_sub_json in Hc as [Hc| ->]; [|lia].
    apply In_sub_runs in Hc as [Hc| ->]; [|lia].
    apply In_sub_runs in Hc as [Hc| ->]; [|lia].
    apply filter_In in Hc as [_ Hc]. apply N.ltb_lt, Hc.
  - apply strip_fixed.
  - apply Forall_strip, List.Forall_forall. intros c Hc.
    apply In_sub_json in Hc as [Hc| ->]; [|repeat split; discriminate].
    assert (Hl : linebreak c = true -> c = 10)
      by (intros Hl; exact (sub_runs_class _ _ _ _ Hc Hl)).
    assert (Hb : blank c = true -> c = 32).
    { intros Hb. apply In_sub_runs in Hc as [Hc| ->]; [|discriminate Hb].
      exact (sub_runs_class _ _ _ _ Hc Hb). }
    repeat split; intros ->;
      first [discriminate (Hl eq_refl)|discriminate (Hb eq_refl)].
  - apply collapsed_strip, collapsed_sub_json; [reflexivity|].
    apply collapsed_sub_runs. reflexivity.
Qed.

Lemma In_replace_from old s c : forall k,
  In c (replace_from old [] k s) -> In c s.
Proof.
  induction s as [|a s IH]; intros k H; [contradiction|].
  cbn [replace_from] in H. destruct k as [|k].
  - destruct (startswith old (a :: s)).
    + right. exact (IH _ H).
    + destruct H as [<-|H]; [left; reflexivity|right; exact (IH _ H)].
  - right. exact (IH _ H).
Qed.

Lemma In_strip_inline_tags t c : In c (strip_inline_tags t) -> In c t.
Proof.
  unfold strip_inline_tags. revert t.
  induction inline_tags as [|it tags IH]; intros t H; [exact H|].
  cbn [fold_left] in H. apply IH in H.
  change (lit "</" ++ it ++ lit ">") with (60 :: 47 :: it ++ lit ">") in H.
  change (lit "<" ++ it ++ lit ">") with (60 :: it ++ lit ">") in H.
  unfold replace in H.
  apply In_replace_from in H. apply In_replace_from in H. exact H.
Qed.

Lemma json_free_no_brace s : ~ In 123 s -> json_free s = true.
Proof.
  induction s as [|c s IH]; intros H; [reflexivity|]. cbn [json_free].
  destruct (N.eqb_spec c 123) as [->|_]; [exfalso; apply H; left; reflexivity|].
  cbn [andb negb]. apply IH. intros Hin. apply H. right. exact Hin.
Qed.

(** X2: when the text that the parser returns has no opening brace, every
    run of spaces, tabs and vertical bars is a single space in the text of
    [get_text]. *)
Theorem get_text_single_spaces soup_get_text body :
  ~ In 123 (soup_get_text body) ->
  collapsed blank 32 (get_text soup_get_text body) = true.
Proof.
  intros H. unfold get_text, filter_text. cbv zeta.
  change (lit " ") with [32].
  apply collapsed_strip. rewrite sub_json_free.
  - apply collapsed_sub_runs_other;
      [exact linebreak_not_blank|reflexivity|].
    apply collapsed_sub_runs. reflexivity.
  - apply json_free_no_brace. intros Hin. apply H.
    apply In_sub_runs in Hin as [Hin|Hin]; [|discriminate Hin].
    apply In_sub_runs in Hin as [Hin|Hin]; [|discriminate Hin].
    apply filter_In in Hin as [Hin _].
    exact (In_strip_inline_tags _ _ Hin).
Qed.

Lemma get_text_single_spaces_witness :
  collapsed blank 32 (get_text text_node scenario_D) = true.
Proof.
  apply get_text_single_spaces. vm_compute. intuition discriminate.
Defined.

End normalizer_output.

Section document_effects.
Import Spider.
Variable tlds : list str.
Variable requests_get : str -> result HrefResponse.
Variable textract_process : TempFile -> result (list N).

Local Abbreviation parse_file := (Spider.parse_file tlds requests_get textract_process).









Lemma guarded_mkdir_dirs p w w' :
  (if is_dir w p then ret tt else mkdir p) w = (Ok tt, w') ->
  dirs w' = dirs w \/ dirs w' = {[norm p]} ∪ dirs w.
Proof.
  destruct (is_dir w p).
  - intros [= <-]. left. reflexivity.
  - unfold mkdir. destruct (_ || _); [discriminate|].
    destruct (is_dir w (parent p)); [|discriminate].
    intros [= <-]. right. reflexivity.
Qed.

Lemma write_touches_only f data : touches_only f (write f data).
Proof.
  intros w a w'. unfold write.
  destruct (write_error w f data); [discriminate|].
  intros [= _ <-]. cbn [files temps dirs]. repeat split. right. eauto.
Qed.

Lemma ret_touches_only {A} f (a : A) : touches_only f (ret a).
Proof. intros w a' w' [= _ <-]. repeat split. left. reflexivity. Qed.

Lemma bindM_touches_only {A B} f (m : M A) (k : A -> M B) :
  touches_only f m -> (forall a, touches_only f (k a)) ->
  touches_only f (bindM m k).
Proof.
  intros Hm Hk w b w' H.
  apply bindM_ok in H as (a & w1 & H1 & H2).
  destruct (Hm _ _ _ H1) as (Hf1 & Ht1 & Hd1).
  destruct (Hk _ _ _ _ H2) as (Hf2 & Ht2 & Hd2).
  split; [|split; congruence].
  destruct Hf2 as [->|[c ->]]; [exact Hf1|]. right.
  destruct Hf1 as [->|[c1 ->]]; [eauto|].
  rewrite insert_insert_eq. eauto.
Qed.

Lemma parse_file_frame href parent_url w text w' :
  parse_file href parent_url w = (Ok text, w') ->
  exists base_url,
    get_domain tlds parent_url = Ok base_url
    /\ temps w' = delete (next_temp w) (temps w)
    /\ (dirs w' = dirs w
        \/ dirs w' = {[norm (lit "files" ++ lit "/" ++ base_url)]} ∪ dirs w)
    /\ exists p c, files w' = <[p := c]> (files w).
Proof.
  intros H. unfold Spider.parse_file in H.
  apply bindM_ok in H as (response_href & w1 & [Hget ->]%lift_ok & H).
  apply bindM_ok in H as (extension & w1 & [Hext ->]%lift_ok & H).
  apply bindM_ok in H as (h & w1 & [= <- <-] & H).
  apply bindM_ok in H as ([] & w2 & H1 & H).
  unfold tmp_write in H1. cbn [temps] in H1.
  rewrite lookup_insert_eq in H1. injection H1 as <-.
  apply bindM_ok in H as (raw & w3 & H1 & H).
  unfold textract in H1. cbn [temps] in H1.
  rewrite lookup_insert_eq in H1. injection H1 as Hraw <-.
  apply bindM_ok in H as (decoded & w1 & [Hdec ->]%lift_ok & H).
  cbv zeta in H.
  apply bindM_ok in H as ([] & w4 & [= <-] & H).
  apply bindM_ok in H as (base_url & w1 & [Hbase ->]%lift_ok & H).
  apply bindM_ok in H as (path & w1 & [Hpath ->]%lift_ok & H).
  apply bindM_ok in H as (d & w5 & [= <- <-] & H).
  apply bindM_ok in H as ([] & w6 & Hmk & H).
  pose proof (guarded_mkdir_dirs _ _ _ Hmk) as Hdirs. cbn [dirs] in Hdirs.
  apply (guarded_mkdir_ok requests_get) in Hmk as (_ & Hf6 & Ht6).
  cbn [files temps] in Hf6, Ht6.
  apply bindM_ok in H as (f & w7 & (-> & Hd7 & Hf7 & Ht7)%open_w_ok & H).
  match type of H with
  | ?m w7 = _ =>
      assert (Hm : touches_only
                     (norm (lit "files" ++ lit "/" ++ base_url ++ lit "/"
                            ++ replace extension (lit ".txt")
                                 (after_last 47 path))) m)
  end.
  { repeat (apply bindM_touches_only; [apply write_touches_only|intros _]).
    apply ret_touches_only. }
  destruct (Hm _ _ _ H) as (Hf & Ht & Hd).
  exists base_url. split; [exact Hbase|]. split; [|split].
  - rewrite Ht, Ht7, Ht6, insert_insert_eq, delete_insert_eq. reflexivity.
  - rewrite Hd, Hd7. exact Hdirs.
  - rewrite Hf7, Hf6 in Hf.
    destruct Hf as [->|[c ->]]; [eauto|].
    rewrite insert_insert_eq. eauto.
Qed.

(** X4: when [parse_file] returns in a world whose next temporary handle is
    free, it leaves the temporary files as they were, removes no directory
    and makes at most the directory of the domain, and creates or replaces
    one file, the others staying as they were. *)
Theorem parse_file_writes_one_file href parent_url w text w' :
  parse_file href parent_url w = (Ok text, w') ->
  temps w !! next_temp w = None ->
  temps w' = temps w
  /\ (exists base_url,
        get_domain tlds parent_url = Ok base_url
        /\ (dirs w' = dirs w
            \/ dirs w' = {[norm (lit "files" ++ lit "/" ++ base_url)]} ∪ dirs w))
  /\ exists p c, files w' = <[p := c]> (files w).
Proof.
  intros H Hfresh.
  apply parse_file_frame in H as (base_url & Hbase & Ht & Hd & Hf).
  split; [rewrite Ht; apply delete_id, Hfresh|]. split; [eauto|exact Hf].
Qed.

(** X5: the text that [parse_file] returns has no control character: below
    the space it has only tabs and newlines, and nothing from U+007F to
    U+009F. *)
Theorem parse_file_text_is_printable href parent_url w text w' :
  parse_file href parent_url w = (Ok text, w') ->
  Forall (fun c => c = 9 \/ c = 10 \/ (32 <= c < 127) \/ 160 <= c) text.
Proof.
  intros H. apply parse_file_ok in H as (H & _).
  destruct H as (response_href & extension & raw & decoded & _ & _ & _ & _ & ->).
  apply List.Forall_forall. intros c [_ Hc]%filter_In.
  apply negb_true_iff in Hc. unfold control_char in Hc.
  apply orb_false_elim in Hc as [Hc H3]. apply orb_false_elim in Hc as [H1 H2].
  apply N.ltb_ge in H1.
  apply andb_false_iff in H2. apply andb_false_iff in H3.
  rewrite N.leb_gt, N.ltb_ge in H2, H3. lia.
Qed.

End document_effects.

Section document_effects_examples.
Import Spider.


Lemma parse_file_writes_one_file_witness :
  let w' := snd (parse_file Example.tlds Example.requests_get Example.textract_all
                   Example.brochure Example.seed Example.fs0) in
  temps w' = temps Example.fs0
  /\ (exists base_url,
        get_domain Example.tlds Example.seed = Ok base_url
        /\ (dirs w' = dirs Example.fs0
            \/ dirs w'
               = {[norm (lit "files" ++ lit "/" ++ base_url)]} ∪ dirs Example.fs0))
  /\ exists p c, files w' = <[p := c]> (files Example.fs0).
Proof.
  apply (parse_file_writes_one_file Example.tlds Example.requests_get
           Example.textract_all Example.brochure Example.seed Example.fs0
           (lit "Our mission")).
  - vm_compute. reflexivity.
  - reflexivity.
Defined.

Lemma parse_file_text_is_printable_witness :
  Forall (fun c => c = 9 \/ c = 10 \/ (32 <= c < 127) \/ 160 <= c)
    (lit "Our mission").
Proof.
  apply (parse_file_text_is_printable Example.tlds Example.requests_get
           Example.textract_all Example.brochure Example.seed Example.fs0
           (lit "Our mission")
           (snd (parse_file Example.tlds Example.requests_get Example.textract_all
                   Example.brochure Example.seed Example.fs0))).
  vm_compute. reflexivity.
Defined.

End document_effects_examples.

Section selected_documents.
Import Spider.

Lemma startswith_app p s t :
  startswith p s = true -> startswith p (s ++ t) = true.
Proof.
  revert s. induction p as [|a p IH]; intros s H; [reflexivity|].
  destruct s as [|b s]; [discriminate|]. cbn [startswith app] in *.
  apply andb_prop in H as [-> H]. cbn [andb]. apply IH, H.
Qed.

Lemma startswith_map (f : N -> N) p s :
  startswith p s = true -> startswith (map f p) (map f s) = true.
Proof.
  revert s. induction p as [|a p IH]; intros s H; [reflexivity|].
  destruct s as [|b s]; [discriminate|]. cbn [startswith map] in *.
  apply andb_prop in H as [->%N.eqb_eq H]. rewrite N.eqb_refl. apply IH, H.
Qed.

Lemma endswith_app p a s : endswith p s = true -> endswith p (a ++ s) = true.
Proof.
  unfold endswith. intros H. rewrite rev_app_distr. apply startswith_app, H.
Qed.

Lemma endswith_lower p s :
  endswith p s = true -> endswith (lower p) (lower s) = true.
Proof.
  unfold endswith, lower. intros H. rewrite <- !map_rev.
  apply startswith_map, H.
Qed.

Lemma endswith_file_url p domain href :
  lower p = p -> endswith p href = true ->
  endswith p (lower (file_url domain href)) = true.
Proof.
  intros Hp H. rewrite <- Hp. apply endswith_lower. unfold file_url.
  destruct (negb _); [|exact H].
  rewrite app_assoc. apply endswith_app, H.
Qed.

(** X6: a href that the selector of [parse_items] picks gives [parse_file]
    a response whose URL has one of the extensions [.pdf], [.doc] and
    [.docx], so that line 283 selects an extension, when the server answers
    at the URL of the href without a redirect.  After a redirect it is the
    URL of the response that decides. *)
Theorem selected_href_has_extension
    (requests_get : str -> result HrefResponse) domain href response_href :
  selector href = true ->
  requests_get (file_url domain href) = Ok response_href ->
  resp_url response_href = file_url domain href ->
  exists extension,
    select_extension (resp_url response_href) = Ok extension
    /\ In extension (map lit [".pdf"; ".doc"; ".docx"]).
Proof.
  intros H _ ->. revert H.
  unfold selector, select_extension, TEXTRACT_EXTENSIONS. intros H.
  cbn [List.filter].
  destruct (endswith (lit ".pdf") (lower _)) eqn:Hpdf;
    [eexists; split; [reflexivity|left; reflexivity]|].
  destruct (endswith (lit ".doc") (lower _)) eqn:Hdoc;
    [eexists; split; [reflexivity|right; left; reflexivity]|].
  destruct (endswith (lit ".docx") (lower _)) eqn:Hdocx;
    [eexists; split; [reflexivity|right; right; left; reflexivity]|].
  exfalso.
  apply orb_prop in H as [H|H]; [apply orb_prop in H as [H|H]|].
  - rewrite (endswith_file_url (lit ".pdf") domain href eq_refl H) in Hpdf.
    discriminate.
  - rewrite (endswith_file_url (lit ".doc") domain href eq_refl H) in Hdoc.
    discriminate.
  - rewrite (endswith_file_url (lit ".docx") domain href eq_refl H) in Hdocx.
    discriminate.
Qed.

Lemma selected_href_has_extension_witness :
  exists extension,
    select_extension
      (resp_url {| resp_url := Example.brochure;
                   content := lit "%PDF brochure" |})
    = Ok extension
    /\ In extension (map lit [".pdf"; ".doc"; ".docx"]).
Proof.
  apply (selected_href_has_extension Example.requests_get
           (lit "example.org") Example.brochure).
  - vm_compute. reflexivity.
  - vm_compute. reflexivity.
  - vm_compute. reflexivity.
Defined.

End selected_documents.

Section spider_attributes.
Import Spider.
Variable tlds : list str.
Variable F : Type.
Variable float : str -> result F.

(** The first piece has no separator, and the rest is the split of what
    follows it. *)
Lemma split_cons_inv sep s : forall w ws,
  split sep s = w :: ws ->
  ~ In sep w
  /\ ((ws = [] /\ s = w)
      \/ exists s', s = w ++ sep :: s' /\ split sep s' = ws).
Proof.
  induction s as [|a s IH]; intros w ws H.
  - injection H as <- <-. split; [intros []|left; split; reflexivity].
  - cbn [split] in H. destruct (N.eqb_spec a sep) as [->|Hne].
    + injection H as <- <-. split; [intros []|].
      right. exists s. split; reflexivity.
    + destruct (split sep s) as [|w' ws'] eqn:Hs;
        [destruct (split_nonempty _ _ Hs)|].
      injection H as <- <-. destruct (IH _ _ eq_refl) as [Hw Hrest]. split.
      * intros [Ha|Hin]; [congruence|contradiction].
      * destruct Hrest as [[-> ->]|(s' & -> & Hs')].
        -- left. split; reflexivity.
        -- right. exists s'. split; [reflexivity|exact Hs'].
Qed.

Lemma split_two_inv sep s a b :
  split sep s = [a; b] -> s = a ++ sep :: b /\ ~ In sep a /\ ~ In sep b.
Proof.
  intros H. apply split_cons_inv in H as [Ha [[[=] _]|(s' & -> & Hs')]].
  apply split_cons_inv in Hs' as [Hb [[_ ->]|(s'' & _ & Hs'')]];
    [auto|destruct (split_nonempty _ _ Hs'')].
Qed.

Lemma add_row_ok self raw_row self' :
  add_row tlds F float self raw_row = Ok self' ->
  exists school_id url domain id,
    seed_of raw_row school_id url
    /\ get_domain tlds url = Ok domain
    /\ float school_id = Ok id
    /\ start_urls self' = start_urls self ++ [url]
    /\ allowed_domains self' = allowed_domains self ++ [domain]
    /\ domain_to_id self' = <[domain := id]> (domain_to_id self).
Proof.
  unfold add_row. intros H.
  destruct (Py.index raw_row 0) as [csv_row|] eqn:Hrow; [|discriminate].
  cbn [bind] in H.
  destruct (split 44 csv_row) as [|a [|b [|c l]]] eqn:Hs; try discriminate.
  cbn [bind fst snd] in H.
  destruct (get_domain tlds b) as [domain|] eqn:Hd; [|discriminate].
  cbn [bind] in H.
  destruct (float a) as [id|] eqn:Hf; [|discriminate].
  injection H as <-. apply split_two_inv in Hs as (-> & Ha & Hb).
  exists a, b, domain, id. unfold seed_of. auto 10.
Qed.

Lemma add_rows_ok rows : forall self self',
  add_rows tlds F float self rows = Ok self' ->
  exists urls domains,
    start_urls self' = start_urls self ++ urls
    /\ allowed_domains self' = allowed_domains self ++ domains
    /\ Forall2 (fun raw_row url => exists school_id, seed_of raw_row school_id url)
         rows urls
    /\ Forall2 (fun url domain => get_domain tlds url = Ok domain) urls domains
    /\ forall d, is_Some (domain_to_id self' !! d)
                 <-> is_Some (domain_to_id self !! d) \/ In d domains.
Proof.
  induction rows as [|row rows IH]; intros self self' H.
  - injection H as <-. exists [], []. rewrite !app_nil_r.
    repeat split; try constructor; [tauto|intros [H|[]]; exact H].
  - cbn [add_rows] in H.
    destruct (add_row tlds F float self row) as [self1|] eqn:Hrow;
      [|discriminate].
    cbn [bind] in H.
    apply add_row_ok in Hrow
      as (school_id & url & domain & id & Hseed & Hd & _ & Hs & Ha & Hm).
    apply IH in H as (urls & domains & Hs' & Ha' & Hrows & Hdoms & Hkeys).
    exists (url :: urls), (domain :: domains).
    rewrite Hs', Hs, Ha', Ha, <- !app_assoc.
    repeat split; try reflexivity.
    + constructor; [exists school_id; exact Hseed|exact Hrows].
    + constructor; assumption.
    + intros Hsome. apply Hkeys in Hsome as [Hsome|Hin]; [|right; right; exact Hin].
      rewrite Hm in Hsome. destruct (decide (domain = d)) as [->|Hne].
      * right. left. reflexivity.
      * rewrite lookup_insert_ne in Hsome by exact Hne. left. exact Hsome.
    + intros Hor. apply Hkeys. rewrite Hm.
      destruct (decide (domain = d)) as [->|Hne].
      * left. rewrite lookup_insert_eq. eauto.
      * rewrite lookup_insert_ne by exact Hne.
        destruct Hor as [Hor|[Heq|Hin]]; [left; exact Hor|congruence|right; exact Hin].
Qed.

(** After the constructor, the domains with a school id are the allowed
    domains. *)
Lemma init_keys rows self :
  CharterSchoolSpider_init tlds F float (Some rows) = Ok self ->
  forall d, is_Some (domain_to_id self !! d) <-> In d (allowed_domains self).
Proof.
  unfold CharterSchoolSpider_init, init_from_csv. intros H.
  apply add_rows_ok in H as (urls & domains & _ & -> & _ & _ & Hkeys).
  cbn [allowed_domains domain_to_id app] in *. intros d. split.
  - intros Hd. apply Hkeys in Hd as [Hd|Hd]; [|exact Hd].
    rewrite lookup_empty in Hd. destruct Hd as [? [=]].
  - intros Hd. apply Hkeys. right. exact Hd.
Qed.

(** X7: a spider that is constructed from a table has one start URL for each
    row after the header, in the order of the rows, each the URL of its row;
    the allowed domains are the domains of the start URLs, in the same
    order; and the domains that have a school id are the allowed domains. *)
Theorem spider_attributes_of_table rows self :
  CharterSchoolSpider_init tlds F float (Some rows) = Ok self ->
  Forall2 (fun raw_row url => exists school_id, seed_of raw_row school_id url)
    (tl rows) (start_urls self)
  /\ Forall2 (fun url domain => get_domain tlds url = Ok domain)
       (start_urls self) (allowed_domains self)
  /\ forall d, is_Some (domain_to_id self !! d) <-> In d (allowed_domains self).
Proof.
  unfold CharterSchoolSpider_init, init_from_csv. intros H.
  apply add_rows_ok in H as (urls & domains & -> & -> & Hrows & Hdoms & Hkeys).
  cbn [start_urls allowed_domains domain_to_id app] in *.
  repeat split; try assumption.
  - intros Hd. apply Hkeys in Hd as [Hd|Hd]; [|exact Hd].
    rewrite lookup_empty in Hd. destruct Hd as [? [=]].
  - intros Hd. apply Hkeys. right. exact Hd.
Qed.

Lemma add_rows_app rows1 rows2 self :
  add_rows tlds F float self (rows1 ++ rows2)
  = let* self1 := add_rows tlds F float self rows1 in
    add_rows tlds F float self1 rows2.
Proof.
  revert self. induction rows1 as [|row rows1 IH]; intros self; [reflexivity|].
  cbn [app add_rows].
  destruct (add_row tlds F float self row) as [self1|]; [|reflexivity].
  cbn [bind]. apply IH.
Qed.

(** X8: a later row overrides the earlier rows of its domain.  Whatever rows
    come before it, the school id that is registered for the domain of the
    last row of the table is the id of the last row. *)
Theorem last_row_sets_the_id self header rows raw_row self' :
  init_from_csv tlds F float self (Some (header :: rows ++ [raw_row])) = Ok self' ->
  exists school_id url domain id,
    seed_of raw_row school_id url
    /\ get_domain tlds url = Ok domain
    /\ float school_id = Ok id
    /\ domain_to_id self' !! domain = Some id.
Proof.
  cbn [init_from_csv tl]. rewrite add_rows_app. intros H.
  destruct (add_rows tlds F float self rows) as [self1|]; [|discriminate].
  cbn [bind add_rows] in H.
  destruct (add_row tlds F float self1 raw_row) as [self2|] eqn:Hrow;
    [|discriminate].
  injection H as <-.
  apply add_row_ok in Hrow
    as (school_id & url & domain & id & Hseed & Hd & Hf & _ & _ & Hm).
  exists school_id, url, domain, id. rewrite Hm, lookup_insert_eq. auto.
Qed.

End spider_attributes.

Section pages.
Import Spider.
Variable tlds : list str.
Variable requests_get : str -> result HrefResponse.
Variable textract_process : TempFile -> result (list N).
Variable soup_get_text : str -> str.
Variable F : Type.
Variable float : str -> result F.

(** X9: a page whose domain is not the domain of a row of the table has no
    school id: [parse_items] raises [KeyError] on it before it fetches any
    document, and the world is as it was. *)
Theorem page_outside_the_table rows self response domain w :
  CharterSchoolSpider_init tlds F float (Some rows) = Ok self ->
  get_domain tlds (url response) = Ok domain ->
  ~ In domain (allowed_domains self) ->
  parse_items tlds requests_get textract_process soup_get_text F self response w
  = (Raise KeyError, w).
Proof.
  intros Hinit Hd Hout.
  pose proof (init_keys _ _ _ _ _ Hinit) as Hkeys.
  unfold parse_items, bindM, lift. rewrite Hd.
  destruct (domain_to_id self !! domain) as [i|] eqn:Hi; [|reflexivity].
  exfalso. apply Hout, Hkeys. rewrite Hi. eauto.
Qed.

End pages.

Section spider_examples.
Import Spider.

Lemma spider_attributes_of_table_witness :
  Forall2 (fun raw_row url => exists school_id, seed_of raw_row school_id url)
    (tl Sample.table) (start_urls Sample.spider)
  /\ Forall2 (fun url domain => get_domain Example.tlds url = Ok domain)
       (start_urls Sample.spider) (allowed_domains Sample.spider)
  /\ forall d, is_Some (domain_to_id Sample.spider !! d)
               <-> In d (allowed_domains Sample.spider).
Proof.
  apply (spider_attributes_of_table Example.tlds N Example.float Sample.table).
  vm_compute. reflexivity.
Defined.

Lemma last_row_sets_the_id_witness :
  exists school_id url domain id,
    seed_of [lit "8,http://docs.example.org/a"] school_id url
    /\ get_domain Example.tlds url = Ok domain
    /\ Example.float school_id = Ok id
    /\ domain_to_id Sample.spider !! domain = Some id.
Proof.
  apply (last_row_sets_the_id Example.tlds N Example.float
           {| start_urls := []; allowed_domains := []; domain_to_id := ∅ |}
           [lit "NCESSCH,URL"] [[lit "7,http://www.example.org/"]]).
  vm_compute. reflexivity.
Defined.

Lemma page_outside_the_table_witness :
  parse_items Example.tlds Example.requests_get Example.textract_all text_node N
    Sample.spider Sample.elsewhere Example.fs0
  = (Raise KeyError, Example.fs0).
Proof.
  apply (page_outside_the_table Example.tlds Example.requests_get
           Example.textract_all text_node N Example.float
           Sample.table Sample.spider _ (lit "example.com")).
  - vm_compute. reflexivity.
  - vm_compute. reflexivity.
  - vm_compute. intros [H|[H|[]]]; discriminate H.
Defined.

End spider_examples.

Section school_rows.
Import WebScraper Run.

(** X10: every school that [readCSV] returns is the school of a row that
    was not read at line 1.  Its URL is not [0] and has a dot, its matcher
    is what stands between the first two dots of the URL, and its directory
    is [results/] and its name. *)
Theorem readCSV_schools rows schools :
  readCSV rows = Ok schools ->
  Forall (fun s =>
            (exists n row,
               In (n, row) rows /\ n <> 1%nat /\ s = school_of row)
            /\ mainURL s <> lit "0"
            /\ Py.index (split 46 (mainURL s)) 1 = Ok (school_matcher s)
            /\ filePath s = lit "results/" ++ school_name s)
    schools.
Proof.
  unfold readCSV. rewrite read_rows_spec.
  destruct (existsb unreadable (data_rows rows)) eqn:Hr; [discriminate|].
  intros [= <-]. cbn [app]. apply List.Forall_forall.
  intros s (row & <- & [Hin Hw]%filter_In)%in_map_iff.
  assert (Hu : unreadable row = false).
  { destruct (unreadable row) eqn:Hu; [|reflexivity].
    assert (existsb unreadable (data_rows rows) = true)
      by (apply existsb_exists; eauto).
    congruence. }
  unfold data_rows in Hin.
  apply in_map_iff in Hin as ([n row'] & Hrow & [Hin Hn]%filter_In).
  cbn [snd fst] in Hrow, Hn. subst row'.
  split; [|split; [|split]].
  - exists n, row. split; [exact Hin|]. split; [|reflexivity].
    intros ->. discriminate Hn.
  - apply negb_true_iff in Hw. unfold without_url in Hw. cbn [school_of mainURL].
    intros H0. rewrite H0 in Hw. discriminate Hw.
  - unfold unreadable in Hu. cbn [school_of mainURL school_matcher].
    destruct (nth_error row 4) as [u|] eqn:E; [|discriminate Hu].
    assert (H4 : nth 4 row [] = u) by (apply nth_error_nth, E).
    rewrite H4. apply negb_true_iff in Hw. unfold without_url in Hw.
    rewrite H4 in Hw. rewrite Hw in Hu. cbn [negb andb] in Hu.
    apply negb_false_iff in Hu.
    destruct (split_has_two _ _ Hu) as (a & b & l & ->). reflexivity.
  - reflexivity.
Qed.

Lemma readCSV_schools_witness :
  Forall (fun s =>
            (exists n row,
               In (n, row) Sample.rows /\ n <> 1%nat /\ s = school_of row)
            /\ mainURL s <> lit "0"
            /\ Py.index (split 46 (mainURL s)) 1 = Ok (school_matcher s)
            /\ filePath s = lit "results/" ++ school_name s)
    [school_of (map lit ["1"; "Example"; "Main St"; "555";
                         "http://www.example.org/"]);
     school_of (map lit ["3"; "Other"; "High St"; "557";
                         "http://www.other.org/"])].
Proof.
  apply (readCSV_schools Sample.rows). vm_compute. reflexivity.
Defined.

End school_rows.

Section link_names.
Import WebScraper Run.

Lemma split_pieces sep s : Forall (fun w => ~ In sep w) (split sep s).
Proof.
  induction s as [|c s IH]; [repeat constructor; intros []|].
  cbn [split]. destruct (N.eqb_spec c sep) as [->|Hne].
  - constructor; [intros []|exact IH].
  - destruct (split sep s) as [|w ws]; [repeat constructor; intros [H|[]]; congruence|].
    inversion IH as [|? ? Hw Hws]; subst. constructor; [|exact Hws].
    intros [H|H]; [congruence|contradiction].
Qed.

Lemma fold_pieces (sep : N) (delimiter : str) (ws : list str) : forall n : str,
  ~ In sep delimiter -> ~ In sep n -> Forall (fun w => ~ In sep w) ws ->
  ~ In sep (fold_left (fun n w => n ++ w ++ delimiter) ws n).
Proof.
  induction ws as [|w ws IH]; intros n Hd Hn Hws; [exact Hn|].
  inversion Hws as [|? ? Hw Hws']; subst. cbn [fold_left].
  apply IH; [exact Hd| |exact Hws'].
  rewrite !in_app_iff. tauto.
Qed.

Lemma gatherName_no_slash self delimiter l :
  ~ In 47 delimiter -> ~ In 47 (name self) ->
  gatherName self delimiter = Ok l -> ~ In 47 (name l).
Proof.
  intros Hd Hn. unfold gatherName.
  destruct (str_eqb delimiter (lit "/")); [discriminate|].
  destruct (str_eqb (type self) (lit "html")).
  - pose proof (split_pieces 47
                  (skipn (length (fallbackURL self)) (hrefAttribute self))) as Hp.
    destruct (split 47 _) as [|w [|w' ws]]; intros [= <-]; cbn [name set_name].
    + intros [].
    + inversion Hp; assumption.
    + apply (fold_pieces 47 delimiter (w :: w' :: ws) []);
        [exact Hd|intros []|exact Hp].
  - destruct (str_eqb (type self) (lit "JavaScript"));
      intros [= <-]; [intros []|exact Hn].
Qed.

(** X11: the name of a constructed link has no slash, so that the file that
    [writeFile] opens for it lies in the directory of the school; the name
    of a JavaScript link is empty. *)
Theorem constructed_link_name hrefAttribute callingURL matcher i l :
  Link_init hrefAttribute callingURL matcher i = Ok l ->
  ~ In 47 (name l) /\ (type l = lit "JavaScript" -> name l = []).
Proof.
  unfold Link_init. intros H.
  assert (Hjs : forall self,
             gatherName self (lit "-") = Ok l -> type self = lit "JavaScript" ->
             name l = []).
  { intros self Hg Ht. revert Hg. unfold gatherName. rewrite Ht.
    change (str_eqb (lit "-") (lit "/")) with false.
    change (str_eqb (lit "JavaScript") (lit "html")) with false.
    change (str_eqb (lit "JavaScript") (lit "JavaScript")) with true.
    intros [= <-]. reflexivity. }
  assert (Hdash : ~ In 47 (lit "-")) by (intros [H'|[]]; discriminate H').
  assert (Hn : forall self,
             gatherName self (lit "-") = Ok l -> name self = [] ->
             ~ In 47 (name l)).
  { intros self Hg Hs.
    apply (gatherName_no_slash self _ l Hdash); [rewrite Hs; intros []|exact Hg]. }
  destruct (startswith (lit "http") hrefAttribute).
  - destruct (Py.index (split 46 hrefAttribute) 1) as [label|]; [|discriminate].
    cbn [bind] in H. destruct (str_eqb label matcher && _).
    + split; [exact (Hn _ H eq_refl)|].
      apply gatherName_fields in H as [-> _]. discriminate.
    + destruct (startswith (lit "javascript") hrefAttribute); [|discriminate].
      split; [exact (Hn _ H eq_refl)|].
      intros _. exact (Hjs _ H eq_refl).
  - cbn [bind] in H.
    destruct (startswith (lit "javascript") hrefAttribute); [|discriminate].
    split; [exact (Hn _ H eq_refl)|].
    intros _. exact (Hjs _ H eq_refl).
Qed.

Lemma constructed_link_name_witness :
  exists l,
    Link_init (lit "http://www.example.org/news/2019/") Example.seed
      (lit "example") 4 = Ok l
    /\ name l = lit "news-2019--"
    /\ ~ In 47 (name l).
Proof.
  eexists. split; [vm_compute; reflexivity|]. split; [reflexivity|].
  apply (constructed_link_name (lit "http://www.example.org/news/2019/")
           Example.seed (lit "example") 4).
  vm_compute. reflexivity.
Defined.

End link_names.

Section clicks.
Import WebScraper Run.

Lemma click_first_ok driver l page i l' :
  click_first driver l page i = Ok l' -> exists t, l' = set_text l t.
Proof.
  unfold click_first, gatherText.
  destruct (find_ok driver page); [|discriminate].
  destruct (list_index _ i) as [e|]; [|discriminate]. cbn [bind].
  destruct (click_ok driver page e); [|discriminate].
  destruct (source_ok driver page (Some e)); [|discriminate].
  intros [= <-]. eauto.
Qed.

(** [click] changes nothing of a link but its text. *)
Lemma click_again_state driver l page e r l' :
  click_again driver l page e = (r, l') ->
  l' = l \/ exists t, l' = set_text l t.
Proof.
  unfold click_again, gatherText.
  destruct (retry_ok driver page e); [|intros [= _ <-]; auto].
  destruct (source_ok driver page (Some e)); [|intros [= _ <-]; auto].
  destruct (close_ok driver page); intros [= _ <-]; eauto.
Qed.

Lemma click_handler_state driver l page i :
  snd (click_handler driver l page i) = l
  \/ exists t, snd (click_handler driver l page i) = set_text l t.
Proof.
  unfold click_handler.
  destruct (refind_ok driver page); [|auto].
  destruct (list_index _ i) as [e|]; [|auto].
  destruct (hover_ok driver page e); [|auto].
  destruct (click_again driver l page e) as [r l1] eqn:Ha.
  apply click_again_state in Ha.
  destruct r as [u|[]]; try exact Ha.
  destruct (reclose_ok driver page); exact Ha.
Qed.

Lemma click_state driver l :
  snd (click driver l) = l \/ exists t, snd (click driver l) = set_text l t.
Proof.
  unfold click.
  destruct (prepDriver driver) as [started|]; [|auto].
  destruct (str_eqb (type l) (lit "html")).
  - destruct (driver_get driver started _); [|auto].
    unfold gatherText. destruct (source_ok driver _ _); [|auto].
    destruct (close_ok driver _); eauto.
  - destruct (str_eqb (type l) (lit "JavaScript")); [|auto].
    destruct (index l) as [j|]; [|auto]. cbv zeta.
    destruct (driver_get driver started _); [|auto].
    destruct (click_first driver l _ j) as [l1|x] eqn:Hf.
    + right. exact (click_first_ok _ _ _ _ _ Hf).
    + destruct x; auto. apply click_handler_state.
Qed.

Lemma click_again_ok driver l page e u l' :
  click_again driver l page e = (Ok u, l') -> exists t, l' = set_text l t.
Proof.
  unfold click_again, gatherText.
  destruct (retry_ok driver page e); [|discriminate].
  destruct (source_ok driver page (Some e)); [|discriminate].
  destruct (close_ok driver page); [|discriminate].
  intros [= _ <-]. eauto.
Qed.

Lemma click_handler_ok driver l page i r l' :
  click_handler driver l page i = (Ok r, l') ->
  r = None /\ exists t, l' = set_text l t.
Proof.
  unfold click_handler.
  destruct (refind_ok driver page); [|discriminate].
  destruct (list_index _ i) as [e|]; [|discriminate].
  destruct (hover_ok driver page e); [|discriminate].
  destruct (click_again driver l page e) as [[u|x] l1] eqn:Ha.
  - intros [= <- <-]. split; [reflexivity|]. exact (click_again_ok _ _ _ _ _ _ Ha).
  - apply click_again_raises in Ha as ->.
    destruct (reclose_ok driver page); discriminate.
Qed.

Lemma click_type driver l : type (snd (click driver l)) = type l.
Proof.
  destruct (click_state driver l) as [->|[t ->]]; reflexivity.
Qed.

(** The [LinkException] of a link that has a type and an index. *)
Lemma click_link_exception driver l n :
  type l = lit "html" \/ type l = lit "JavaScript" ->
  index l <> None ->
  fst (click driver l) = Raise (LinkException n) ->
  n = 1%Z /\ type l = lit "JavaScript".
Proof.
  intros Ht Hi. unfold click, prepDriver, driver_get.
  destruct (startup driver); cbn [fst]; try discriminate.
  - destruct Ht as [Ht|Ht]; rewrite Ht.
    + change (str_eqb (lit "html") (lit "html")) with true. cbv iota.
      destruct (get_ok driver _); [|discriminate].
      destruct (gatherText driver l _ None) as [l1|x] eqn:Hg.
      * destruct (close_ok driver _); discriminate.
      * apply gatherText_raises in Hg as ->. discriminate.
    + change (str_eqb (lit "JavaScript") (lit "html")) with false.
      change (str_eqb (lit "JavaScript") (lit "JavaScript")) with true.
      cbv iota zeta. destruct (index l) as [j|]; [|contradiction].
      destruct (get_ok driver _); [|discriminate].
      destruct (click_first driver l _ j) as [l1|x] eqn:Hf; [discriminate|].
      apply click_first_raises in Hf as [-> | ->]; [|discriminate].
      intros [H|[H|H]]%click_handler_raises; try discriminate H.
      injection H as ->. auto.
  - destruct Ht as [Ht|Ht]; rewrite Ht.
    + change (str_eqb (lit "html") (lit "html")) with true. discriminate.
    + change (str_eqb (lit "JavaScript") (lit "html")) with false.
      change (str_eqb (lit "JavaScript") (lit "JavaScript")) with true.
      cbv iota zeta. destruct (index l) as [j|]; [discriminate|contradiction].
Qed.

(** X12: when [click] returns, the link has its text and is otherwise as it
    was; the value returned is [True] for a link of type [html] and [None]
    for a JavaScript link, never [False]. *)
Theorem click_result driver l l' r :
  click driver l = (Ok r, l') ->
  (exists t, l' = set_text l t)
  /\ r = (if str_eqb (type l) (lit "html") then Some true else None).
Proof.
  unfold click.
  destruct (prepDriver driver) as [started|]; [|discriminate].
  destruct (str_eqb (type l) (lit "html")).
  - destruct (driver_get driver started _); [|discriminate].
    unfold gatherText. destruct (source_ok driver _ _); [|discriminate].
    destruct (close_ok driver _); [|discriminate].
    intros [= <- <-]. eauto.
  - destruct (str_eqb (type l) (lit "JavaScript")); [|discriminate].
    destruct (index l) as [j|]; [|discriminate]. cbv zeta.
    destruct (driver_get driver started _); [|discriminate].
    destruct (click_first driver l _ j) as [l1|x] eqn:Hf.
    + intros [= <- <-]. split; [exact (click_first_ok _ _ _ _ _ Hf)|reflexivity].
    + destruct x; try discriminate.
      intros [-> Ht]%click_handler_ok. split; [exact Ht|reflexivity].
Qed.

Lemma click_result_witness :
  (exists t, set_text Sample.menu (lit "Welcome") = set_text Sample.menu t)
  /\ None = (if str_eqb (type Sample.menu) (lit "html") then Some true else None).
Proof.
  apply (click_result Example.headless Sample.menu
           (set_text Sample.menu (lit "Welcome")) None).
  vm_compute. reflexivity.
Defined.

Lemma gatherName_keeps self delimiter l :
  gatherName self delimiter = Ok l ->
  hrefAttribute l = hrefAttribute self /\ fallbackURL l = fallbackURL self.
Proof.
  unfold gatherName. destruct (str_eqb delimiter _); [discriminate|].
  destruct (str_eqb (type self) (lit "html")).
  - destruct (split 47 _) as [|w [|w' ws]]; intros [= <-]; split; reflexivity.
  - destruct (str_eqb (type self) (lit "JavaScript"));
      intros [= <-]; split; reflexivity.
Qed.

(** What the constructor leaves in a link. *)
Lemma Link_init_fields hrefAttribute callingURL matcher i l :
  Link_init hrefAttribute callingURL matcher i = Ok l ->
  WebScraper.hrefAttribute l = hrefAttribute
  /\ fallbackURL l = callingURL
  /\ ((type l = lit "html" /\ index l = Some 0%Z)
      \/ (type l = lit "JavaScript" /\ index l = Some i)).
Proof.
  unfold Link_init. intros H.
  destruct (startswith (lit "http") hrefAttribute).
  - destruct (Py.index (split 46 hrefAttribute) 1) as [label|]; [|discriminate].
    cbn [bind] in H. destruct (str_eqb label matcher && _).
    + pose proof (gatherName_keeps _ _ _ H) as [-> ->].
      apply gatherName_fields in H as [-> ->]. auto.
    + destruct (startswith (lit "javascript") hrefAttribute); [|discriminate].
      pose proof (gatherName_keeps _ _ _ H) as [-> ->].
      apply gatherName_fields in H as [-> ->]. auto.
  - cbn [bind] in H.
    destruct (startswith (lit "javascript") hrefAttribute); [|discriminate].
    pose proof (gatherName_keeps _ _ _ H) as [-> ->].
    apply gatherName_fields in H as [-> ->]. auto.
Qed.

(** X13: the errors of [click] on a constructed link.  It raises what
    [prepDriver] raises when the display or Chrome does not start,
    [AttributeError] when [prepDriver] returns no browser,
    [WebDriverException] when a call of the browser fails, and on a
    JavaScript link also [IndexError] and [LinkException(1)].  The
    [LinkException] that [clickLinks] catches comes from JavaScript links
    only, and is never [LinkException(0)] or [LinkException(2)]. *)
Theorem click_errors hrefAttribute callingURL matcher i l driver e :
  Link_init hrefAttribute callingURL matcher i = Ok l ->
  fst (click driver l) = Raise e ->
  (e = DisplayError /\ startup driver = DisplayFails)
  \/ (e = AttributeError /\ startup driver = NoDriver)
  \/ e = WebDriverException
  \/ (type l = lit "JavaScript" /\ startup driver = Started
      /\ (e = IndexError \/ e = LinkException 1)).
Proof.
  intros Hl. apply Link_init_fields in Hl as (_ & _ & Hl).
  unfold click, prepDriver, driver_get.
  destruct (startup driver) eqn:Hs; cbn [fst];
    try (intros [= <-]; auto; fail).
  - destruct Hl as [[Ht Hi]|[Ht Hi]]; rewrite Ht, ?Hi.
    + change (str_eqb (lit "html") (lit "html")) with true. cbv iota.
      destruct (get_ok driver _); [|intros [= <-]; auto].
      destruct (gatherText driver l _ None) as [l1|x] eqn:Hg.
      * destruct (close_ok driver _); [discriminate|]. intros [= <-]. auto.
      * apply gatherText_raises in Hg as ->. intros [= <-]. auto.
    + change (str_eqb (lit "JavaScript") (lit "html")) with false.
      change (str_eqb (lit "JavaScript") (lit "JavaScript")) with true.
      cbv iota zeta.
      destruct (get_ok driver _); [|intros [= <-]; auto].
      destruct (click_first driver l _ i) as [l1|x] eqn:Hf; [discriminate|].
      apply click_first_raises in Hf as [-> | ->].
      * intros [-> |[-> | ->]]%click_handler_raises; auto 10.
      * intros [= <-]. auto 10.
  - destruct Hl as [[Ht Hi]|[Ht Hi]]; rewrite Ht, ?Hi.
    + change (str_eqb (lit "html") (lit "html")) with true. cbv iota.
      intros [= <-]. auto.
    + change (str_eqb (lit "JavaScript") (lit "html")) with false.
      change (str_eqb (lit "JavaScript") (lit "JavaScript")) with true.
      cbv iota zeta. intros [= <-]. auto.
Qed.

Lemma click_errors_witness :
  (LinkException 1 = DisplayError /\ startup Sample.stuck = DisplayFails)
  \/ (LinkException 1 = AttributeError /\ startup Sample.stuck = NoDriver)
  \/ LinkException 1 = WebDriverException
  \/ (type Sample.menu = lit "JavaScript" /\ startup Sample.stuck = Started
      /\ (LinkException 1 = IndexError \/ LinkException 1 = LinkException 1)).
Proof.
  apply (click_errors (lit "javascript:void(0)") Example.seed (lit "example") 2
           Sample.menu Sample.stuck (LinkException 1));
    vm_compute; reflexivity.
Defined.

End clicks.

Section gathered_links.
Import WebScraper Run.

Lemma gather_spec driver mainURL matcher hrefs : forall i links links',
  gather driver mainURL matcher i hrefs links = Ok links' ->
  exists new,
    links' = links ++ new
    /\ (length new <= length hrefs)%nat
    /\ Forall (fun l => exists k href,
                 nth_error hrefs k = Some href
                 /\ Link_init href mainURL matcher (Z.of_nat (i + k)) = Ok l)
         new.
Proof.
  induction hrefs as [|href hrefs IH]; intros i links links' H.
  - injection H as <-. exists []. rewrite app_nil_r.
    split; [reflexivity|]. split; [reflexivity|constructor].
  - cbn [gather] in H.
    destruct (attr_ok driver mainURL i); [|discriminate H].
    assert (Hshift : forall new,
               Forall (fun l => exists k href0,
                         nth_error hrefs k = Some href0
                         /\ Link_init href0 mainURL matcher (Z.of_nat (S i + k))
                            = Ok l) new ->
               Forall (fun l => exists k href0,
                         nth_error (href :: hrefs) k = Some href0
                         /\ Link_init href0 mainURL matcher (Z.of_nat (i + k))
                            = Ok l) new).
    { intros new. apply List.Forall_impl. intros l (k & href0 & Hk & Hl).
      exists (S k), href0. split; [exact Hk|].
      replace (i + S k)%nat with (S i + k)%nat by lia. exact Hl. }
    destruct (Link_init href mainURL matcher (Z.of_nat i)) as [link|e] eqn:Hl.
    + apply IH in H as (new & -> & Hlen & Hnew).
      exists (link :: new). rewrite <- app_assoc. split; [reflexivity|].
      split; [cbn [length]; lia|]. constructor; [|apply Hshift, Hnew].
      exists 0%nat, href. rewrite Nat.add_0_r. split; [reflexivity|exact Hl].
    + destruct e; try discriminate.
      destruct (reattr_ok driver mainURL i); [|discriminate H].
      apply IH in H as (new & -> & Hlen & Hnew).
      exists new. split; [reflexivity|]. split; [cbn [length]; lia|].
      apply Hshift, Hnew.
Qed.

(** What [gatherLinks] returns. *)
Lemma gatherLinks_ok driver hrefs self self' :
  gatherLinks driver hrefs self = Ok self' ->
  exists links',
    gather driver (mainURL (school self)) (school_matcher (school self)) 0
      (hrefs (mainURL (school self))) (links self) = Ok links'
    /\ self' = {| school := school self; links := links';
                  counters :=
                    {| totalNumberofLinks := length links';
                       htmlLinks := htmlLinks (counters self);
                       htmlLinksClicked := htmlLinksClicked (counters self);
                       scriptLinks := scriptLinks (counters self);
                       scriptLinksClicked := scriptLinksClicked (counters self);
                       linksClicked := linksClicked (counters self) |} |}.
Proof.
  unfold gatherLinks. cbv zeta.
  destruct (prepDriver driver) as [started|]; [|discriminate]. cbn [bind].
  destruct (driver_get driver started _); [|discriminate]. cbn [bind].
  destruct (find_ok driver _); [|discriminate].
  destruct (gather _ _ _ _ _ _) as [links'|]; [|discriminate]. cbn [bind].
  destruct (close_ok driver _); [|discriminate].
  intros [= <-]. eauto.
Qed.

Lemma gatherLinks_gathered driver hrefs s self :
  gatherLinks driver hrefs (new_school s) = Ok self ->
  Forall (gathered_from (mainURL s) (school_matcher s) (hrefs (mainURL s)))
    (links self).
Proof.
  intros (links' & Hg & ->)%gatherLinks_ok.
  cbn [new_school school links] in *.
  apply gather_spec in Hg as (new & -> & _ & Hnew). exact Hnew.
Qed.

(** X14: after [gatherLinks] on a school that [readCSV] returned, every link
    of the school was constructed from an element of the page of the school,
    with the position of the element as its index; there are no more links
    than elements, and [totalNumberofLinks] is their number. *)
Theorem gatherLinks_links driver hrefs s self :
  gatherLinks driver hrefs (new_school s) = Ok self ->
  school self = s
  /\ totalNumberofLinks (counters self) = length (links self)
  /\ (length (links self) <= length (hrefs (mainURL s)))%nat
  /\ Forall (gathered_from (mainURL s) (school_matcher s) (hrefs (mainURL s)))
       (links self).
Proof.
  intros (links' & Hg & ->)%gatherLinks_ok.
  cbn [new_school school links counters totalNumberofLinks] in *.
  apply gather_spec in Hg as (new & -> & Hlen & Hnew). cbn [app].
  repeat split; [exact Hlen|exact Hnew].
Qed.

Lemma gather_outcome driver mainURL matcher hrefs : forall i links,
  match gather driver mainURL matcher i hrefs links with
  | Ok _ => existsb dotless hrefs = false
  | Raise e =>
      (e = IndexError /\ existsb dotless hrefs = true)
      \/ (e = WebDriverException
          /\ exists k, attr_ok driver mainURL k && reattr_ok driver mainURL k
                       = false)
  end.
Proof.
  induction hrefs as [|href hrefs IH]; intros i links; [reflexivity|].
  cbn [gather existsb].
  destruct (attr_ok driver mainURL i) eqn:Ha;
    [|right; split; [reflexivity|exists i; rewrite Ha; reflexivity]].
  pose proof (Link_init_outcome href mainURL matcher (Z.of_nat i)) as Hl.
  destruct (Link_init href mainURL matcher (Z.of_nat i)) as [link|e].
  - rewrite Hl. apply IH.
  - destruct Hl as [[-> ->]|[-> ->]]; [left; split; reflexivity|].
    destruct (reattr_ok driver mainURL i) eqn:Hr;
      [|right; split; [reflexivity|exists i; rewrite Ha, Hr; reflexivity]].
    apply IH.
Qed.

(** X15: what [gatherLinks] raises.  It raises what [prepDriver] raises when
    the display or Chrome does not start, [AttributeError] when
    [prepDriver] returns no browser, [WebDriverException] when a call of
    the browser fails, and [IndexError] when one of the links of the page
    starts with [http] and has no dot.  It returns only if no link of the
    page is of that kind; so in a browser in which every call returns, it
    raises exactly when there is such a link, and then [IndexError]. *)
Theorem gatherLinks_outcome driver hrefs self :
  match gatherLinks driver hrefs self with
  | Ok _ =>
      startup driver = Started
      /\ existsb dotless (hrefs (mainURL (school self))) = false
  | Raise e =>
      (e = DisplayError /\ startup driver = DisplayFails)
      \/ (e = AttributeError /\ startup driver = NoDriver)
      \/ (e = WebDriverException
          /\ ~ working driver (mainURL (school self)))
      \/ (e = IndexError /\ startup driver = Started
          /\ existsb dotless (hrefs (mainURL (school self))) = true)
  end.
Proof.
  unfold gatherLinks, prepDriver, driver_get, working. cbv zeta.
  destruct (startup driver) eqn:Hs; cbn [bind].
  - destruct (get_ok driver _) eqn:Hget; cbn [bind].
    + destruct (find_ok driver _) eqn:Hfind.
      * pose proof (gather_outcome driver (mainURL (school self))
                      (school_matcher (school self))
                      (hrefs (mainURL (school self))) 0 (links self)) as Hg.
        destruct (gather _ _ _ _ _ _) as [ls|e]; cbn [bind].
        -- destruct (close_ok driver _) eqn:Hclose; [auto|].
           right. right. left. split; [reflexivity|].
           intros (_ & _ & _ & _ & _ & H). discriminate H.
        -- destruct Hg as [[-> Hd]|[-> [k Hk]]]; [auto 10|].
           right. right. left. split; [reflexivity|].
           intros (_ & _ & _ & Ha & Hr & _).
           rewrite Ha, Hr in Hk. discriminate Hk.
      * right. right. left. split; [reflexivity|].
        intros (_ & _ & H & _). discriminate H.
    + right. right. left. split; [reflexivity|].
      intros (_ & H & _). discriminate H.
  - auto.
  - auto.
  - right. right. left. split; [reflexivity|].
    intros (H & _). discriminate H.
Qed.

Lemma gatherName_text self delimiter l :
  gatherName self delimiter = Ok l -> text l = text self.
Proof.
  unfold gatherName. destruct (str_eqb delimiter _); [discriminate|].
  destruct (str_eqb (type self) (lit "html")).
  - destruct (split 47 _) as [|w [|w' ws]]; intros [= <-]; reflexivity.
  - destruct (str_eqb (type self) (lit "JavaScript"));
      intros [= <-]; reflexivity.
Qed.

Lemma Link_init_text hrefAttribute callingURL matcher i l :
  Link_init hrefAttribute callingURL matcher i = Ok l -> text l = None.
Proof.
  unfold Link_init. intros Hl.
  destruct (startswith (lit "http") hrefAttribute).
  - destruct (Py.index (split 46 hrefAttribute) 1) as [label|]; [|discriminate].
    cbn [Py.bind] in Hl. destruct (str_eqb label matcher && _).
    + apply gatherName_text in Hl. exact Hl.
    + destruct (startswith (lit "javascript") hrefAttribute); [|discriminate].
      apply gatherName_text in Hl. exact Hl.
  - cbn [Py.bind] in Hl.
    destruct (startswith (lit "javascript") hrefAttribute); [|discriminate].
    apply gatherName_text in Hl. exact Hl.
Qed.

Lemma gathered_unclicked driver hrefs s self :
  gatherLinks driver hrefs (new_school s) = Ok self ->
  Forall Script.unclicked (links self).
Proof.
  intros Hg. apply gatherLinks_gathered in Hg. revert Hg.
  apply List.Forall_impl. intros l (k & href & _ & Hl).
  pose proof (Link_init_text _ _ _ _ _ Hl) as Htext.
  apply Link_init_fields in Hl as (_ & _ & [[Ht Hi]|[Ht Hi]]);
    (split; [auto|split; [rewrite Hi; discriminate|exact Htext]]).
Qed.

Lemma gatherLinks_counters driver hrefs s self :
  gatherLinks driver hrefs (new_school s) = Ok self ->
  counters self
  = {| totalNumberofLinks := length (links self); htmlLinks := 0;
       htmlLinksClicked := 0; scriptLinks := 0; scriptLinksClicked := 0;
       linksClicked := 0 |}.
Proof.
  intros (links' & _ & ->)%gatherLinks_ok. reflexivity.
Qed.

Lemma click_finds_the_element driver l :
  (type l = lit "JavaScript" ->
   exists j e, index l = Some j
               /\ list_index (anchors driver (fallbackURL l)) j = Ok e) ->
  fst (click driver l) <> Raise IndexError.
Proof.
  intros Hjs. unfold click.
  destruct (prepDriver driver) as [started|x] eqn:Hp.
  - destruct (str_eqb (type l) (lit "html")).
    + destruct (driver_get driver started _) as [u|x] eqn:Hget.
      * destruct (gatherText driver l _ None) as [l1|x] eqn:Hg.
        -- destruct (close_ok driver _); discriminate.
        -- apply gatherText_raises in Hg as ->. discriminate.
      * revert Hget. unfold driver_get.
        destruct started; [destruct (get_ok driver _)|];
          intros [= <-]; discriminate.
    + destruct (str_eqb (type l) (lit "JavaScript")) eqn:Ht; [|discriminate].
      apply bool_decide_eq_true in Ht.
      destruct (Hjs Ht) as (j & e & -> & He). cbv zeta.
      destruct (driver_get driver started _) as [u|x] eqn:Hget.
      * unfold click_first, click_handler. rewrite He. cbn [bind].
        destruct (find_ok driver _).
        -- destruct (click_ok driver _ e).
           ++ destruct (gatherText driver l _ (Some e)) as [l1|x] eqn:Hg;
                [discriminate|].
              apply gatherText_raises in Hg as ->.
              destruct (refind_ok driver _); [|discriminate].
              destruct (hover_ok driver _ e); [|discriminate].
              destruct (click_again driver l _ e) as [[u'|x] l1] eqn:Ha;
                [discriminate|].
              apply click_again_raises in Ha as ->.
              destruct (reclose_ok driver _); discriminate.
           ++ destruct (refind_ok driver _); [|discriminate].
              destruct (hover_ok driver _ e); [|discriminate].
              destruct (click_again driver l _ e) as [[u'|x] l1] eqn:Ha;
                [discriminate|].
              apply click_again_raises in Ha as ->.
              destruct (reclose_ok driver _); discriminate.
        -- destruct (refind_ok driver _); [|discriminate].
           destruct (hover_ok driver _ e); [|discriminate].
           destruct (click_again driver l _ e) as [[u'|x] l1] eqn:Ha;
             [discriminate|].
           apply click_again_raises in Ha as ->.
           destruct (reclose_ok driver _); discriminate.
      * revert Hget. unfold driver_get.
        destruct started; [destruct (get_ok driver _)|];
          intros [= <-]; discriminate.
  - revert Hp. unfold prepDriver.
    destruct (startup driver); intros [= <-]; discriminate.
Qed.

(** X16: the index of a gathered link is good.  When the page of the school
    still has the elements that [gatherLinks] saw, [click] finds the element
    of every gathered link: it never raises [IndexError]. *)
Theorem gathered_links_are_found driver hrefs s self :
  gatherLinks driver hrefs (new_school s) = Ok self ->
  anchors driver (mainURL s) = length (hrefs (mainURL s)) ->
  Forall (fun l => fst (click driver l) <> Raise IndexError) (links self).
Proof.
  intros H Hn. apply gatherLinks_gathered in H.
  revert H. apply List.Forall_impl. intros l (k & href & Hk & Hl).
  apply click_finds_the_element. intros _.
  apply Link_init_fields in Hl as (_ & -> & [[_ ->]|[_ ->]]).
  - exists 0%Z, 0%nat. split; [reflexivity|]. unfold list_index.
    assert (Hlt : (k < length (hrefs (mainURL s)))%nat)
      by (apply nth_error_Some; rewrite Hk; discriminate).
    rewrite Hn. cbn [Z.ltb Z.compare].
    destruct (Z.ltb_spec 0 (Z.of_nat (length (hrefs (mainURL s)))));
      [reflexivity|lia].
  - exists (Z.of_nat k), k. split; [reflexivity|]. unfold list_index.
    assert (Hlt : (k < length (hrefs (mainURL s)))%nat)
      by (apply nth_error_Some; rewrite Hk; discriminate).
    rewrite Hn.
    destruct (Z.ltb_spec (Z.of_nat k) 0); [lia|].
    destruct (Z.leb_spec 0 (Z.of_nat k)); [|lia].
    destruct (Z.ltb_spec (Z.of_nat k) (Z.of_nat (length (hrefs (mainURL s)))));
      [|lia].
    cbn [andb]. rewrite Nat2Z.id. reflexivity.
Qed.

Lemma gatherLinks_links_witness :
  school Sample.gathered = Sample.school
  /\ totalNumberofLinks (counters Sample.gathered)
     = length (links Sample.gathered)
  /\ (length (links Sample.gathered)
      <= length (Sample.hrefs (mainURL Sample.school)))%nat
  /\ Forall (gathered_from (mainURL Sample.school)
               (school_matcher Sample.school)
               (Sample.hrefs (mainURL Sample.school)))
       (links Sample.gathered).
Proof.
  apply (gatherLinks_links Example.headless Sample.hrefs Sample.school).
  vm_compute. reflexivity.
Defined.

Lemma gathered_links_are_found_witness :
  Forall (fun l => fst (click Example.headless l) <> Raise IndexError)
    (links Sample.gathered).
Proof.
  apply (gathered_links_are_found Example.headless Sample.hrefs Sample.school).
  - vm_compute. reflexivity.
  - reflexivity.
Defined.

End gathered_links.

Section the_script.
Import WebScraper Run Script.
Variables W H T : Type.
Variable sys : System W H T.
Variable driver : Driver.

Lemma bind_done {A B} (m : Act W A) (k : A -> Act W B) w b w' :
  bind m k w = (Done b, w') ->
  exists a w1, m w = (Done a, w1) /\ k a w1 = (Done b, w').
Proof.
  unfold bind. destruct (m w) as [[a|e] w1]; [eauto|discriminate].
Qed.

Lemma pure_done {A} (r : result A) (w : W) a w1 :
  pure r w = (Done a, w1) -> r = Ok a /\ w1 = w.
Proof.
  unfold pure, call. destruct r; [|discriminate].
  intros [= -> ->]. split; reflexivity.
Qed.

Lemma divide_done a b (w : W) u w1 :
  divide a b w = (Done u, w1) -> b <> 0%nat.
Proof.
  unfold divide. destruct (Nat.eqb_spec b 0); [discriminate|].
  intros _. assumption.
Qed.

(** *** clickLinks *)

Lemma click_all_attempted links : forall c ls c',
  click_all driver links c = Ok (ls, c') -> Forall2 (attempted driver) links ls.
Proof.
  induction links as [|l links IH]; intros c ls c' Hk.
  - injection Hk as <- <-. constructor.
  - cbn [click_all] in Hk.
    destruct (click driver l) as [[r|e] l'] eqn:Hc.
    + destruct (click_all driver links _) as [[ls1 c1]|] eqn:Hr; [|discriminate].
      injection Hk as <- <-. cbn [fst].
      constructor; [left; eauto|exact (IH _ _ _ Hr)].
    + destruct e; try discriminate.
      destruct (click_all driver links _) as [[ls1 c1]|] eqn:Hr; [|discriminate].
      injection Hk as <- <-. cbn [fst].
      constructor; [right; eauto|exact (IH _ _ _ Hr)].
Qed.

Lemma writeFile_done l filePath k w w' :
  writeFile W H T sys l filePath k w = (Done tt, w') -> is_Some (text l).
Proof.
  unfold writeFile. intros Hw.
  apply bind_done in Hw as (file & w1 & _ & Hw).
  destruct (text l); [eauto|discriminate].
Qed.

Lemma write_all_done filePath ls : forall k w w',
  write_all W H T sys filePath ls k w = (Done tt, w') ->
  Forall (fun l => type l = lit "html" \/ type l = lit "JavaScript" ->
                   is_Some (text l)) ls.
Proof.
  induction ls as [|l ls IH]; intros k w w' Hw; [constructor|].
  cbn [write_all] in Hw.
  destruct (str_eqb (type l) (lit "html")) eqn:Hh.
  - apply bind_done in Hw as ([] & w1 & Hf & Hw).
    constructor; [|exact (IH _ _ _ Hw)].
    intros _. exact (writeFile_done _ _ _ _ _ Hf).
  - destruct (str_eqb (type l) (lit "JavaScript")) eqn:Hj.
    + destruct (text l) as [t|] eqn:Ht; [|discriminate].
      constructor; [intros _; rewrite Ht; eauto|].
      destruct (negb _); [|exact (IH _ _ _ Hw)].
      apply bind_done in Hw as ([] & w1 & _ & Hw). exact (IH _ _ _ Hw).
    + constructor; [|exact (IH _ _ _ Hw)].
      apply bool_decide_eq_false in Hh. apply bool_decide_eq_false in Hj.
      intros [Ht|Ht]; contradiction.
Qed.

Lemma clicked_type l l' c : type l' = type l -> clicked l' c = clicked l c.
Proof. unfold clicked. intros ->. reflexivity. Qed.

(** The counters after the first loop: every link is counted by its type,
    every html link is counted as clicked, and of the JavaScript links
    those on which [click] returned. *)
Lemma click_all_counts links : forall c ls c',
  Forall unclicked links ->
  click_all driver links c = Ok (ls, c') ->
  totalNumberofLinks c' = totalNumberofLinks c
  /\ htmlLinks c' = (htmlLinks c + length (List.filter is_html links))%nat
  /\ htmlLinksClicked c'
     = (htmlLinksClicked c + length (List.filter is_html links))%nat
  /\ (htmlLinks c' + scriptLinks c'
      = htmlLinks c + scriptLinks c + length links)%nat
  /\ (scriptLinksClicked c <= scriptLinksClicked c')%nat
  /\ (scriptLinksClicked c' + scriptLinks c
      <= scriptLinksClicked c + scriptLinks c')%nat
  /\ (linksClicked c' + htmlLinksClicked c + scriptLinksClicked c
      = linksClicked c + htmlLinksClicked c' + scriptLinksClicked c')%nat.
Proof.
  induction links as [|l links IH]; intros c ls c' Hu Hk.
  - injection Hk as <- <-. cbn [List.filter length]. lia.
  - inversion Hu as [|? ? (Ht & Hi & _) Hu']; subst.
    cbn [click_all] in Hk. pose proof (click_type driver l) as Hty.
    destruct (click driver l) as [[r|e] l'] eqn:Hc; cbn [snd] in Hty.
    + rewrite (clicked_type _ _ _ Hty) in Hk.
      destruct (click_all driver links _) as [[ls1 c1]|] eqn:Hr; [|discriminate].
      cbn [Py.bind fst snd] in Hk. injection Hk as <- <-.
      destruct (IH _ _ _ Hu' Hr) as (H1 & H2 & H3 & H4 & H5 & H6 & H7).
      cbn [clicked seen totalNumberofLinks linksClicked htmlLinks
           htmlLinksClicked scriptLinks scriptLinksClicked]
        in H1, H2, H3, H4, H5, H6, H7.
      cbn [List.filter length].
      destruct Ht as [Ht|Ht]; rewrite Ht in *.
      * assert (Hh : is_html l = true) by (unfold is_html; rewrite Ht; reflexivity).
        rewrite !Hh.
        change (str_eqb (lit "html") (lit "html")) with true in *.
        cbv iota in *. cbn [length]. lia.
      * assert (Hh : is_html l = false) by (unfold is_html; rewrite Ht; reflexivity).
        rewrite !Hh.
        change (str_eqb (lit "JavaScript") (lit "html")) with false in *.
        change (str_eqb (lit "JavaScript") (lit "JavaScript")) with true in *.
        cbv iota in *. lia.
    + assert (He : exists n, e = LinkException n).
      { destruct e; try discriminate Hk. eauto. }
      destruct He as [n ->].
      assert (Hn : fst (click driver l) = Raise (LinkException n))
        by (rewrite Hc; reflexivity).
      apply (click_link_exception _ _ _ Ht Hi) in Hn as [-> Hjs].
      destruct (click_all driver links _) as [[ls1 c1]|] eqn:Hr; [|discriminate].
      cbn [Py.bind fst snd] in Hk. injection Hk as <- <-.
      destruct (IH _ _ _ Hu' Hr) as (H1 & H2 & H3 & H4 & H5 & H6 & H7).
      cbn [clicked seen totalNumberofLinks linksClicked htmlLinks
           htmlLinksClicked scriptLinks scriptLinksClicked]
        in H1, H2, H3, H4, H5, H6, H7.
      cbn [List.filter length]. rewrite Hjs in *.
      assert (Hh : is_html l = false) by (unfold is_html; rewrite Hjs; reflexivity).
      rewrite !Hh.
      change (str_eqb (lit "JavaScript") (lit "html")) with false in *.
      change (str_eqb (lit "JavaScript") (lit "JavaScript")) with true in *.
      cbv iota in *. lia.
Qed.

Lemma clickLinks_done self w self' w' :
  Forall unclicked (links self) ->
  clickLinks W H T sys driver self w = (Done self', w') ->
  school self' = school self
  /\ Forall2 (fun l l' =>
                (exists t, l' = set_text l t)
                /\ ((exists r, click driver l = (Ok r, l'))
                    \/ (type l = lit "JavaScript"
                        /\ click driver l = (Raise (LinkException 1), l'))))
       (links self) (links self')
  /\ click_all driver (links self) (counters self)
     = Ok (links self', counters self').
Proof.
  intros Hu Hd. unfold clickLinks in Hd. cbv zeta in Hd.
  apply bind_done in Hd as ([] & w1 & _ & Hd).
  apply bind_done in Hd as ([ls c'] & w2 & [Hall ->]%pure_done & Hd).
  apply bind_done in Hd as ([] & w3 & Hw & Hd).
  injection Hd as <- <-. cbn [school links counters fst snd] in *.
  split; [reflexivity|]. split; [|exact Hall].
  apply write_all_done in Hw. apply click_all_attempted in Hall.
  revert Hu Hw. induction Hall as [|l l' links ls Hat Hall IH]; intros Hu Hw;
    [constructor|].
  inversion Hu as [|? ? (Ht & Hi & Htext) Hu']; subst.
  inversion Hw as [|? ? Hsome Hw']; subst.
  constructor; [|exact (IH Hu' Hw')].
  assert (Hl' : l' = snd (click driver l))
    by (destruct Hat as [[r Hc]|[n Hc]]; rewrite Hc; reflexivity).
  assert (Hty : type l' = type l) by (rewrite Hl'; apply click_type).
  split.
  - destruct (click_state driver l) as [Hs|[t Hs]]; rewrite <- Hl' in Hs;
      [exfalso|eauto].
    rewrite Hty in Hsome. destruct (Hsome Ht) as [t Hsome'].
    rewrite Hs in Hsome'. congruence.
  - destruct Hat as [Hok|[n Hn]]; [left; exact Hok|right].
    assert (Hf : fst (click driver l) = Raise (LinkException n))
      by (rewrite Hn; reflexivity).
    apply (click_link_exception _ _ _ Ht Hi) in Hf as [-> Hjs].
    split; [exact Hjs|exact Hn].
Qed.

End the_script.

Section clicked_links.
Import WebScraper Run Script.
Variables W H T : Type.
Variable sys : System W H T.

(** X17: what [clickLinks] leaves when it returns, on a school that comes
    from [gatherLinks].  A link without a text makes the second loop raise
    [AttributeError]; so every link has its text.  On every link [click]
    either returned, or it is a JavaScript link on which [click] set the
    text and then raised [LinkException(1)], which is not counted as
    clicked.  [totalNumberofLinks] is the number of links, which are the
    html and the JavaScript links; every html link is counted as clicked;
    and [linksClicked] counts the clicked html and JavaScript links. *)
Theorem clickLinks_returns_with_every_text
    gatherer driver hrefs s self w self' w' :
  gatherLinks gatherer hrefs (new_school s) = Ok self ->
  clickLinks W H T sys driver self w = (Done self', w') ->
  Forall2 (fun l l' =>
             (exists t, l' = set_text l t)
             /\ ((exists r, click driver l = (Ok r, l'))
                 \/ (type l = lit "JavaScript"
                     /\ click driver l = (Raise (LinkException 1), l'))))
    (links self) (links self')
  /\ totalNumberofLinks (counters self') = length (links self)
  /\ (htmlLinks (counters self') + scriptLinks (counters self')
      = length (links self))%nat
  /\ htmlLinksClicked (counters self') = htmlLinks (counters self')
  /\ (scriptLinksClicked (counters self') <= scriptLinks (counters self'))%nat
  /\ linksClicked (counters self')
     = (htmlLinksClicked (counters self')
        + scriptLinksClicked (counters self'))%nat.
Proof.
  intros Hg Hd.
  pose proof (gathered_unclicked _ _ _ _ Hg) as Hu.
  apply (clickLinks_done _ _ _ _ _ _ _ _ _ Hu) in Hd as (_ & Hall & Hc).
  split; [exact Hall|].
  destruct (click_all_counts _ _ _ _ _ Hu Hc)
    as (H1 & H2 & H3 & H4 & H5 & H6 & H7).
  rewrite (gatherLinks_counters _ _ _ _ Hg) in H1, H2, H3, H4, H5, H6, H7.
  cbn [totalNumberofLinks linksClicked htmlLinks htmlLinksClicked scriptLinks
       scriptLinksClicked] in *. lia.
Qed.

End clicked_links.

Section the_loop.
Import WebScraper Run Script.
Variables W H T : Type.
Variable sys : System W H T.
Variable driver : Driver.

(** *** The script *)

Lemma run_school_keeps hrefs diagnosticsFile startTime s t w t' w' :
  run_school W H T sys driver hrefs diagnosticsFile startTime s t w
  = (Done t', w') ->
  t_scriptLinksClicked t' = t_scriptLinksClicked t.
Proof.
  unfold run_school. intros Hd.
  apply bind_done in Hd as (self & w1 & _ & Hd).
  apply bind_done in Hd as (t0 & w2 & _ & Hd).
  apply bind_done in Hd as (self' & w3 & _ & Hd).
  apply bind_done in Hd as (t1 & w4 & _ & Hd). cbv zeta in Hd.
  apply bind_done in Hd as ([] & w5 & _ & Hd).
  apply bind_done in Hd as ([] & w6 & _ & Hd).
  apply bind_done in Hd as ([] & w7 & _ & Hd).
  apply bind_done in Hd as ([] & w8 & _ & Hd).
  apply bind_done in Hd as ([] & w9 & _ & Hd).
  apply bind_done in Hd as ([] & w10 & _ & Hd).
  injection Hd as <- <-. reflexivity.
Qed.

Lemma run_schools_keeps hrefs diagnosticsFile startTime schools :
  forall t w t' w',
    run_schools W H T sys driver hrefs diagnosticsFile startTime schools t w
    = (Done t', w') ->
    t_scriptLinksClicked t' = t_scriptLinksClicked t.
Proof.
  induction schools as [|s schools IH]; intros t w t' w' Hd.
  - injection Hd as <- <-. reflexivity.
  - cbn [run_schools] in Hd.
    apply bind_done in Hd as (t1 & w1 & Hs & Hd).
    rewrite (IH _ _ _ _ Hd). exact (run_school_keeps _ _ _ _ _ _ _ _ Hs).
Qed.

(** X18: the script never runs to its end.  Its counter [scriptLinksClicked]
    stays 0, because the loop adds the clicked JavaScript links of a school
    to [scriptLinks]; so whatever the table, the pages and the system, the
    script raises, at the latest [ZeroDivisionError] on
    [scriptLinks/scriptLinksClicked], before the file of the diagnostics is
    closed. *)
Theorem script_never_finishes hrefs rows w :
  is_done (fst (script W H T sys driver hrefs rows w)) = false.
Proof.
  destruct (script W H T sys driver hrefs rows w) as [[[]|e] w'] eqn:Hd;
    [exfalso|reflexivity].
  unfold script in Hd.
  apply bind_done in Hd as ([] & w1 & _ & Hd).
  apply bind_done in Hd as ([] & w2 & _ & Hd).
  apply bind_done in Hd as (schools & w3 & _ & Hd). cbv zeta in Hd.
  apply bind_done in Hd as (now0 & w4 & _ & Hd).
  apply bind_done in Hd as (diagnosticsFile & w5 & _ & Hd).
  apply bind_done in Hd as ([] & w6 & _ & Hd).
  apply bind_done in Hd as (startTime & w7 & _ & Hd).
  apply bind_done in Hd as (t & w8 & Ht%run_schools_keeps & Hd).
  cbn [t_scriptLinksClicked] in Ht.
  apply bind_done in Hd as (t1 & w9 & _ & Hd).
  apply bind_done in Hd as ([] & w10 & _ & Hd).
  apply bind_done in Hd as ([] & w11 & _ & Hd).
  apply bind_done in Hd as ([] & w12 & _ & Hd).
  apply bind_done in Hd as ([] & w13 & _ & Hd).
  apply bind_done in Hd as ([] & w14 & _ & Hd).
  apply bind_done in Hd as ([] & w15 & _ & Hd).
  apply bind_done in Hd as ([] & w16 & _ & Hd).
  apply bind_done in Hd as ([] & w17 & _ & Hd).
  apply bind_done in Hd as ([] & w18 & Hz%divide_done & Hd).
  contradiction.
Qed.

(** X19: the loop of the script gets past a school only if [gatherLinks]
    kept a link of type [html] for it: the diagnostics of the school divide
    by the number of clicked html links. *)
Theorem run_school_needs_an_html_link hrefs diagnosticsFile startTime s t w t' w' :
  run_school W H T sys driver hrefs diagnosticsFile startTime s t w
  = (Done t', w') ->
  exists self,
    gatherLinks driver hrefs (new_school s) = Ok self
    /\ Exists (fun l => type l = lit "html") (links self).
Proof.
  unfold run_school. intros Hd.
  apply bind_done in Hd as (self & w1 & [Hg ->]%pure_done & Hd).
  apply bind_done in Hd as (t0 & w2 & _ & Hd).
  apply bind_done in Hd as (self' & w3 & Hc & Hd).
  apply bind_done in Hd as (t1 & w4 & _ & Hd). cbv zeta in Hd.
  apply bind_done in Hd as ([] & w5 & _ & Hd).
  apply bind_done in Hd as ([] & w6 & _ & Hd).
  apply bind_done in Hd as ([] & w7 & Hz%divide_done & _).
  exists self. split; [exact Hg|].
  pose proof (gathered_unclicked _ _ _ _ Hg) as Hu.
  apply (clickLinks_done _ _ _ _ _ _ _ _ _ Hu) in Hc as (_ & _ & Hc).
  destruct (click_all_counts _ _ _ _ _ Hu Hc) as (_ & _ & H3 & _).
  rewrite (gatherLinks_counters _ _ _ _ Hg) in H3.
  cbn [htmlLinksClicked] in H3. rewrite H3 in Hz. clear - Hz.
  induction (links self) as [|l ls IH]; [contradiction|].
  cbn [List.filter] in Hz. unfold is_html at 1 in Hz.
  destruct (str_eqb (type l) (lit "html")) eqn:Hh.
  - left. apply bool_decide_eq_true in Hh. exact Hh.
  - right. apply IH, Hz.
Qed.

End the_loop.

Section script_examples.
Import WebScraper Run Script.

Lemma clickLinks_returns_with_every_text_witness :
  Forall2 (fun l l' =>
             (exists t, l' = set_text l t)
             /\ ((exists r, click Sample.flaky l = (Ok r, l'))
                 \/ (type l = lit "JavaScript"
                     /\ click Sample.flaky l = (Raise (LinkException 1), l'))))
    (links Sample.gathered) (links Sample.clicked)
  /\ totalNumberofLinks (counters Sample.clicked)
     = length (links Sample.gathered)
  /\ (htmlLinks (counters Sample.clicked) + scriptLinks (counters Sample.clicked)
      = length (links Sample.gathered))%nat
  /\ htmlLinksClicked (counters Sample.clicked)
     = htmlLinks (counters Sample.clicked)
  /\ (scriptLinksClicked (counters Sample.clicked)
      <= scriptLinks (counters Sample.clicked))%nat
  /\ linksClicked (counters Sample.clicked)
     = (htmlLinksClicked (counters Sample.clicked)
        + scriptLinksClicked (counters Sample.clicked))%nat.
Proof.
  apply (clickLinks_returns_with_every_text _ _ _ Sample.system
           Example.headless Sample.flaky
           Sample.hrefs Sample.school Sample.gathered []
           Sample.clicked
           (snd (clickLinks _ _ _ Sample.system Sample.flaky
                   Sample.gathered []))).
  - vm_compute. reflexivity.
  - vm_compute. reflexivity.
Defined.

Lemma run_school_needs_an_html_link_witness :
  exists self,
    gatherLinks Example.headless Sample.hrefs (new_school Sample.school) = Ok self
    /\ Exists (fun l => type l = lit "html") (links self).
Proof.
  eapply (run_school_needs_an_html_link _ _ _ Sample.system Example.headless
            Sample.hrefs (lit "diagnostics/2019-08-20 12:00:00.txt") tt
            Sample.school
            {| t_numberofLinksClicked := 0; t_totalNumberOfLinks := 0;
               t_htmlLinks := 0; t_htmlLinksClicked := 0;
               t_scriptLinks := 0; t_scriptLinksClicked := 0 |} []).
  vm_compute. reflexivity.
Defined.

End script_examples.
